(** * Schema drift detection: [scripts/compare_schemas.py]

    A shallow embedding of the drift comparator and of its report renderer,
    and the properties of the specification that are about them.

    Conventions of the embedding.
    - A Python [str] is a [string] holding its UTF-8 bytes.  Python orders
      strings by code point; the byte-wise lexicographic order of the UTF-8
      encodings is the same order, so [sorted] on strings is a sort for
      [String.le].
    - A [dict] with string keys is a [gmap string _], a [set] of strings a
      [gset string].  The order in which Python enumerates a [set] depends on
      the hash seed of the run: it is an explicit parameter, [SetOrder].
    - The snapshot documents are typed as the specification's data model types
      them, keeping of every JSON object the keys the comparator reads: a
      type definition has an optional ["properties"] object, a field schema
      an optional string under ["type"] (a JSON [null] and a missing key both
      read as [None]). *)

From Stdlib Require Import Ascii String DecimalString.
From stdpp Require Import gmap strings list sorting fin_maps.

Local Open Scope string_scope.
Local Open Scope list_scope.
Local Set Warnings "-clear-no-such-hyp".

(** ** Python built-ins used by the script *)

(** Characters that cannot be written inside a literal. *)
Definition squote : ascii := "039"%char.
Definition dquote : ascii := "034"%char.
Definition backslash : ascii := "092"%char.
Definition newline : string := String "010"%char EmptyString.

(** [str(n)] for a non-negative integer. *)
Definition py_str_nat (n : nat) : string :=
  NilEmpty.string_of_uint (Nat.to_uint n).

(** [sep.join(lines)]. *)
Definition py_join (sep : string) (lines : list string) : string :=
  String.concat sep lines.

Definition hex_digit (n : N) : ascii :=
  match n with
  | 0 => "0" | 1 => "1" | 2 => "2" | 3 => "3" | 4 => "4" | 5 => "5"
  | 6 => "6" | 7 => "7" | 8 => "8" | 9 => "9" | 10 => "a" | 11 => "b"
  | 12 => "c" | 13 => "d" | 14 => "e" | _ => "f"
  end%N%char.

(** The last [width] hexadecimal digits of [n], in lower case. *)
Fixpoint hex_digits (width : nat) (n : N) : string :=
  match width with
  | O => EmptyString
  | S w => hex_digits w (n / 16) +:+ String (hex_digit (n mod 16)) EmptyString
  end.

Fixpoint string_mem (c : ascii) (s : string) : bool :=
  match s with
  | EmptyString => false
  | String d s' => bool_decide (c = d) || string_mem c s'
  end.

(** The code points from 128 on that [str.isprintable] rejects, as ranges:
    the categories Other and Separator of the Unicode Character Database, in
    its version 14.0.0, the one of CPython 3.11. Another version of the
    interpreter differs on the code points assigned since. *)
Definition unicode_nonprintable : list (N * N) :=
  [ (128, 160); (173, 173); (888, 889); (896, 899); (907, 907); (909, 909); (930, 930);
    (1328, 1328); (1367, 1368); (1419, 1420); (1424, 1424); (1480, 1487); (1515, 1518);
    (1525, 1541); (1564, 1564); (1757, 1757); (1806, 1807); (1867, 1868); (1970, 1983);
    (2043, 2044); (2094, 2095); (2111, 2111); (2140, 2141); (2143, 2143); (2155, 2159);
    (2191, 2199); (2274, 2274); (2436, 2436); (2445, 2446); (2449, 2450); (2473, 2473);
    (2481, 2481); (2483, 2485); (2490, 2491); (2501, 2502); (2505, 2506); (2511, 2518);
    (2520, 2523); (2526, 2526); (2532, 2533); (2559, 2560); (2564, 2564); (2571, 2574);
    (2577, 2578); (2601, 2601); (2609, 2609); (2612, 2612); (2615, 2615); (2618, 2619);
    (2621, 2621); (2627, 2630); (2633, 2634); (2638, 2640); (2642, 2648); (2653, 2653);
    (2655, 2661); (2679, 2688); (2692, 2692); (2702, 2702); (2706, 2706); (2729, 2729);
    (2737, 2737); (2740, 2740); (2746, 2747); (2758, 2758); (2762, 2762); (2766, 2767);
    (2769, 2783); (2788, 2789); (2802, 2808); (2816, 2816); (2820, 2820); (2829, 2830);
    (2833, 2834); (2857, 2857); (2865, 2865); (2868, 2868); (2874, 2875); (2885, 2886);
    (2889, 2890); (2894, 2900); (2904, 2907); (2910, 2910); (2916, 2917); (2936, 2945);
    (2948, 2948); (2955, 2957); (2961, 2961); (2966, 2968); (2971, 2971); (2973, 2973);
    (2976, 2978); (2981, 2983); (2987, 2989); (3002, 3005); (3011, 3013); (3017, 3017);
    (3022, 3023); (3025, 3030); (3032, 3045); (3067, 3071); (3085, 3085); (3089, 3089);
    (3113, 3113); (3130, 3131); (3141, 3141); (3145, 3145); (3150, 3156); (3159, 3159);
    (3163, 3164); (3166, 3167); (3172, 3173); (3184, 3190); (3213, 3213); (3217, 3217);
    (3241, 3241); (3252, 3252); (3258, 3259); (3269, 3269); (3273, 3273); (3278, 3284);
    (3287, 3292); (3295, 3295); (3300, 3301); (3312, 3312); (3315, 3327); (3341, 3341);
    (3345, 3345); (3397, 3397); (3401, 3401); (3408, 3411); (3428, 3429); (3456, 3456);
    (3460, 3460); (3479, 3481); (3506, 3506); (3516, 3516); (3518, 3519); (3527, 3529);
    (3531, 3534); (3541, 3541); (3543, 3543); (3552, 3557); (3568, 3569); (3573, 3584);
    (3643, 3646); (3676, 3712); (3715, 3715); (3717, 3717); (3723, 3723); (3748, 3748);
    (3750, 3750); (3774, 3775); (3781, 3781); (3783, 3783); (3790, 3791); (3802, 3803);
    (3808, 3839); (3912, 3912); (3949, 3952); (3992, 3992); (4029, 4029); (4045, 4045);
    (4059, 4095); (4294, 4294); (4296, 4300); (4302, 4303); (4681, 4681); (4686, 4687);
    (4695, 4695); (4697, 4697); (4702, 4703); (4745, 4745); (4750, 4751); (4785, 4785);
    (4790, 4791); (4799, 4799); (4801, 4801); (4806, 4807); (4823, 4823); (4881, 4881);
    (4886, 4887); (4955, 4956); (4989, 4991); (5018, 5023); (5110, 5111); (5118, 5119);
    (5760, 5760); (5789, 5791); (5881, 5887); (5910, 5918); (5943, 5951); (5972, 5983);
    (5997, 5997); (6001, 6001); (6004, 6015); (6110, 6111); (6122, 6127); (6138, 6143);
    (6158, 6158); (6170, 6175); (6265, 6271); (6315, 6319); (6390, 6399); (6431, 6431);
    (6444, 6447); (6460, 6463); (6465, 6467); (6510, 6511); (6517, 6527); (6572, 6575);
    (6602, 6607); (6619, 6621); (6684, 6685); (6751, 6751); (6781, 6782); (6794, 6799);
    (6810, 6815); (6830, 6831); (6863, 6911); (6989, 6991); (7039, 7039); (7156, 7163);
    (7224, 7226); (7242, 7244); (7305, 7311); (7355, 7356); (7368, 7375); (7419, 7423);
    (7958, 7959); (7966, 7967); (8006, 8007); (8014, 8015); (8024, 8024); (8026, 8026);
    (8028, 8028); (8030, 8030); (8062, 8063); (8117, 8117); (8133, 8133); (8148, 8149);
    (8156, 8156); (8176, 8177); (8181, 8181); (8191, 8207); (8232, 8239); (8287, 8303);
    (8306, 8307); (8335, 8335); (8349, 8351); (8385, 8399); (8433, 8447); (8588, 8591);
    (9255, 9279); (9291, 9311); (11124, 11125); (11158, 11158); (11508, 11512); (11558,
    11558); (11560, 11564); (11566, 11567); (11624, 11630); (11633, 11646); (11671, 11679);
    (11687, 11687); (11695, 11695); (11703, 11703); (11711, 11711); (11719, 11719); (11727,
    11727); (11735, 11735); (11743, 11743); (11870, 11903); (11930, 11930); (12020, 12031);
    (12246, 12271); (12284, 12288); (12352, 12352); (12439, 12440); (12544, 12548); (12592,
    12592); (12687, 12687); (12772, 12783); (12831, 12831); (42125, 42127); (42183, 42191);
    (42540, 42559); (42744, 42751); (42955, 42959); (42962, 42962); (42964, 42964); (42970,
    42993); (43053, 43055); (43066, 43071); (43128, 43135); (43206, 43213); (43226, 43231);
    (43348, 43358); (43389, 43391); (43470, 43470); (43482, 43485); (43519, 43519); (43575,
    43583); (43598, 43599); (43610, 43611); (43715, 43738); (43767, 43776); (43783, 43784);
    (43791, 43792); (43799, 43807); (43815, 43815); (43823, 43823); (43884, 43887); (44014,
    44015); (44026, 44031); (55204, 55215); (55239, 55242); (55292, 63743); (64110, 64111);
    (64218, 64255); (64263, 64274); (64280, 64284); (64311, 64311); (64317, 64317); (64319,
    64319); (64322, 64322); (64325, 64325); (64451, 64466); (64912, 64913); (64968, 64974);
    (64976, 65007); (65050, 65055); (65107, 65107); (65127, 65127); (65132, 65135); (65141,
    65141); (65277, 65280); (65471, 65473); (65480, 65481); (65488, 65489); (65496, 65497);
    (65501, 65503); (65511, 65511); (65519, 65531); (65534, 65535); (65548, 65548); (65575,
    65575); (65595, 65595); (65598, 65598); (65614, 65615); (65630, 65663); (65787, 65791);
    (65795, 65798); (65844, 65846); (65935, 65935); (65949, 65951); (65953, 65999); (66046,
    66175); (66205, 66207); (66257, 66271); (66300, 66303); (66340, 66348); (66379, 66383);
    (66427, 66431); (66462, 66462); (66500, 66503); (66518, 66559); (66718, 66719); (66730,
    66735); (66772, 66775); (66812, 66815); (66856, 66863); (66916, 66926); (66939, 66939);
    (66955, 66955); (66963, 66963); (66966, 66966); (66978, 66978); (66994, 66994); (67002,
    67002); (67005, 67071); (67383, 67391); (67414, 67423); (67432, 67455); (67462, 67462);
    (67505, 67505); (67515, 67583); (67590, 67591); (67593, 67593); (67638, 67638); (67641,
    67643); (67645, 67646); (67670, 67670); (67743, 67750); (67760, 67807); (67827, 67827);
    (67830, 67834); (67868, 67870); (67898, 67902); (67904, 67967); (68024, 68027); (68048,
    68049); (68100, 68100); (68103, 68107); (68116, 68116); (68120, 68120); (68150, 68151);
    (68155, 68158); (68169, 68175); (68185, 68191); (68256, 68287); (68327, 68330); (68343,
    68351); (68406, 68408); (68438, 68439); (68467, 68471); (68498, 68504); (68509, 68520);
    (68528, 68607); (68681, 68735); (68787, 68799); (68851, 68857); (68904, 68911); (68922,
    69215); (69247, 69247); (69290, 69290); (69294, 69295); (69298, 69375); (69416, 69423);
    (69466, 69487); (69514, 69551); (69580, 69599); (69623, 69631); (69710, 69713); (69750,
    69758); (69821, 69821); (69827, 69839); (69865, 69871); (69882, 69887); (69941, 69941);
    (69960, 69967); (70007, 70015); (70112, 70112); (70133, 70143); (70162, 70162); (70207,
    70271); (70279, 70279); (70281, 70281); (70286, 70286); (70302, 70302); (70314, 70319);
    (70379, 70383); (70394, 70399); (70404, 70404); (70413, 70414); (70417, 70418); (70441,
    70441); (70449, 70449); (70452, 70452); (70458, 70458); (70469, 70470); (70473, 70474);
    (70478, 70479); (70481, 70486); (70488, 70492); (70500, 70501); (70509, 70511); (70517,
    70655); (70748, 70748); (70754, 70783); (70856, 70863); (70874, 71039); (71094, 71095);
    (71134, 71167); (71237, 71247); (71258, 71263); (71277, 71295); (71354, 71359); (71370,
    71423); (71451, 71452); (71468, 71471); (71495, 71679); (71740, 71839); (71923, 71934);
    (71943, 71944); (71946, 71947); (71956, 71956); (71959, 71959); (71990, 71990); (71993,
    71994); (72007, 72015); (72026, 72095); (72104, 72105); (72152, 72153); (72165, 72191);
    (72264, 72271); (72355, 72367); (72441, 72703); (72713, 72713); (72759, 72759); (72774,
    72783); (72813, 72815); (72848, 72849); (72872, 72872); (72887, 72959); (72967, 72967);
    (72970, 72970); (73015, 73017); (73019, 73019); (73022, 73022); (73032, 73039); (73050,
    73055); (73062, 73062); (73065, 73065); (73103, 73103); (73106, 73106); (73113, 73119);
    (73130, 73439); (73465, 73647); (73649, 73663); (73714, 73726); (74650, 74751); (74863,
    74863); (74869, 74879); (75076, 77711); (77811, 77823); (78895, 82943); (83527, 92159);
    (92729, 92735); (92767, 92767); (92778, 92781); (92863, 92863); (92874, 92879); (92910,
    92911); (92918, 92927); (92998, 93007); (93018, 93018); (93026, 93026); (93048, 93052);
    (93072, 93759); (93851, 93951); (94027, 94030); (94088, 94094); (94112, 94175); (94181,
    94191); (94194, 94207); (100344, 100351); (101590, 101631); (101641, 110575); (110580,
    110580); (110588, 110588); (110591, 110591); (110883, 110927); (110931, 110947);
    (110952, 110959); (111356, 113663); (113771, 113775); (113789, 113791); (113801,
    113807); (113818, 113819); (113824, 118527); (118574, 118575); (118599, 118607);
    (118724, 118783); (119030, 119039); (119079, 119080); (119155, 119162); (119275,
    119295); (119366, 119519); (119540, 119551); (119639, 119647); (119673, 119807);
    (119893, 119893); (119965, 119965); (119968, 119969); (119971, 119972); (119975,
    119976); (119981, 119981); (119994, 119994); (119996, 119996); (120004, 120004);
    (120070, 120070); (120075, 120076); (120085, 120085); (120093, 120093); (120122,
    120122); (120127, 120127); (120133, 120133); (120135, 120137); (120145, 120145);
    (120486, 120487); (120780, 120781); (121484, 121498); (121504, 121504); (121520,
    122623); (122655, 122879); (122887, 122887); (122905, 122906); (122914, 122914);
    (122917, 122917); (122923, 123135); (123181, 123183); (123198, 123199); (123210,
    123213); (123216, 123535); (123567, 123583); (123642, 123646); (123648, 124895);
    (124903, 124903); (124908, 124908); (124911, 124911); (124927, 124927); (125125,
    125126); (125143, 125183); (125260, 125263); (125274, 125277); (125280, 126064);
    (126133, 126208); (126270, 126463); (126468, 126468); (126496, 126496); (126499,
    126499); (126501, 126502); (126504, 126504); (126515, 126515); (126520, 126520);
    (126522, 126522); (126524, 126529); (126531, 126534); (126536, 126536); (126538,
    126538); (126540, 126540); (126544, 126544); (126547, 126547); (126549, 126550);
    (126552, 126552); (126554, 126554); (126556, 126556); (126558, 126558); (126560,
    126560); (126563, 126563); (126565, 126566); (126571, 126571); (126579, 126579);
    (126584, 126584); (126589, 126589); (126591, 126591); (126602, 126602); (126620,
    126624); (126628, 126628); (126634, 126634); (126652, 126703); (126706, 126975);
    (127020, 127023); (127124, 127135); (127151, 127152); (127168, 127168); (127184,
    127184); (127222, 127231); (127406, 127461); (127491, 127503); (127548, 127551);
    (127561, 127567); (127570, 127583); (127590, 127743); (128728, 128732); (128749,
    128751); (128765, 128767); (128884, 128895); (128985, 128991); (129004, 129007);
    (129009, 129023); (129036, 129039); (129096, 129103); (129114, 129119); (129160,
    129167); (129198, 129199); (129202, 129279); (129620, 129631); (129646, 129647);
    (129653, 129655); (129661, 129663); (129671, 129679); (129709, 129711); (129723,
    129727); (129734, 129743); (129754, 129759); (129768, 129775); (129783, 129791);
    (129939, 129939); (129995, 130031); (130042, 131071); (173792, 173823); (177977,
    177983); (178206, 178207); (183970, 183983); (191457, 194559); (195102, 196607);
    (201547, 917759); (918000, 1114111) ]%N.

Definition unicode_isprintable (cp : N) : bool :=
  negb (existsb (λ range, (range.1 <=? cp)%N && (cp <=? range.2)%N) unicode_nonprintable).

(** The code points of a [str] are read back from its UTF-8 bytes. An item
    is a code point with the bytes that encode it, or a byte that is not part
    of the encoding of a code point; a Python [str] has none of the latter.
    The encoding of a lone surrogate, which a [str] may hold, is read like
    that of any other code point. *)
Inductive Utf8Item :=
  | CodePoint (cp : N) (bytes : string)
  | StrayByte (c : ascii).

Fixpoint stray_bytes (bytes : string) : list Utf8Item :=
  match bytes with
  | EmptyString => []
  | String c bytes' => StrayByte c :: stray_bytes bytes'
  end.

(** The first byte of an encoding: a code point of its own, the start of a
    sequence with the number of bytes that must follow, or a stray byte. *)
Definition utf8_lead (c : ascii) : Utf8Item + (N * nat * string) :=
  let n := N_of_ascii c in
  let bytes := String c EmptyString in
  if (n <? 128)%N then inl (CodePoint n bytes)
  else if (n <? 192)%N then inl (StrayByte c)
  else if (n <? 224)%N then inr (n - 192, 1%nat, bytes)%N
  else if (n <? 240)%N then inr (n - 224, 2%nat, bytes)%N
  else if (n <? 248)%N then inr (n - 240, 3%nat, bytes)%N
  else inl (StrayByte c).

Fixpoint utf8_decode (pending : option (N * nat * string)) (s : string)
    : list Utf8Item :=
  match s with
  | EmptyString =>
      match pending with
      | None => []
      | Some (_, _, bytes) => stray_bytes bytes
      end
  | String c s' =>
      let n := N_of_ascii c in
      let restart stray :=
        match utf8_lead c with
        | inl item => stray ++ item :: utf8_decode None s'
        | inr p => stray ++ utf8_decode (Some p) s'
        end in
      match pending with
      | None => restart []
      | Some (acc, k, bytes) =>
          if (128 <=? n)%N && (n <? 192)%N then
            let acc' := (acc * 64 + (n - 128))%N in
            let bytes' := bytes +:+ String c EmptyString in
            match k with
            | 1%nat => CodePoint acc' bytes' :: utf8_decode None s'
            | _ => utf8_decode (Some (acc', Nat.pred k, bytes')) s'
            end
          else restart (stray_bytes bytes)
      end
  end.

(** [repr] of a [str]: single quotes unless the string holds a single quote
    and no double quote. The quote and the backslash are escaped, so are the
    ASCII control characters and the code points beyond ASCII that are not
    printable; the other code points are copied. *)
Definition py_repr_quote (s : string) : ascii :=
  if string_mem squote s && negb (string_mem dquote s) then dquote else squote.

Definition py_repr_char (quote : ascii) (cp : N) (bytes : string) : string :=
  if bool_decide (cp = N_of_ascii quote) || bool_decide (cp = 92%N)
  then String backslash bytes
  else if bool_decide (cp = 9%N) then String backslash "t"
  else if bool_decide (cp = 10%N) then String backslash "n"
  else if bool_decide (cp = 13%N) then String backslash "r"
  else if bool_decide (cp < 32)%N || bool_decide (cp = 127%N)
  then String backslash (String "x" (hex_digits 2 cp))
  else if bool_decide (cp < 127)%N then bytes
  else if unicode_isprintable cp then bytes
  else if bool_decide (cp ≤ 255)%N then String backslash (String "x" (hex_digits 2 cp))
  else if bool_decide (cp ≤ 65535)%N then String backslash (String "u" (hex_digits 4 cp))
  else String backslash (String "U" (hex_digits 8 cp)).

Definition py_repr_item (quote : ascii) (item : Utf8Item) : string :=
  match item with
  | CodePoint cp bytes => py_repr_char quote cp bytes
  | StrayByte c => String backslash (String "x" (hex_digits 2 (N_of_ascii c)))
  end.

Definition py_repr_body (quote : ascii) (s : string) : string :=
  foldr (λ item rest, py_repr_item quote item +:+ rest) EmptyString
    (utf8_decode None s).

Definition py_repr_str (s : string) : string :=
  let q := py_repr_quote s in
  String q (py_repr_body q s +:+ String q EmptyString).

(** [repr] of a list of strings, which is also its [str] and what an
    f-string interpolates. *)
Definition py_repr_list (l : list string) : string :=
  "[" +:+ py_join ", " (py_repr_str <$> l) +:+ "]".

(** A string that [repr] only puts between single quotes: printable ASCII
    characters, none of them a single quote or a backslash. *)
Definition plain_char (c : ascii) : bool :=
  let n := N_of_ascii c in
  (32 <=? n)%N && (n <? 127)%N && negb (n =? 39)%N && negb (n =? 92)%N.

Fixpoint plain_name (s : string) : bool :=
  match s with
  | EmptyString => true
  | String c s' => plain_char c && plain_name s'
  end.

Definition single_quoted (s : string) : string := "'" +:+ s +:+ "'".

Definition plain_list_text (names : list string) : string :=
  "[" +:+ py_join ", " (single_quoted <$> names) +:+ "]".

(** [sorted] on a list of strings. *)
Definition py_sorted (l : list string) : list string :=
  merge_sort String.le l.

(** The order in which a run enumerates the elements of a [set]. *)
Record SetOrder := {
  set_iter : gset string → list string;
  set_iter_perm : ∀ X, set_iter X ≡ₚ elements X
}.

Definition default_order : SetOrder :=
  {| set_iter := elements; set_iter_perm := λ X, reflexivity (elements X) |}.

(** [sorted(X)] for a set [X]. *)
Definition py_sorted_set (o : SetOrder) (X : gset string) : list string :=
  py_sorted (set_iter o X).

(** Truth value of a [str], of an optional [str], of a [set], of a [dict]
    and of a list. *)
Definition truthy_str (s : string) : bool := negb (bool_decide (s = EmptyString)).

Definition truthy_tag (t : option string) : bool :=
  match t with
  | None => false
  | Some s => truthy_str s
  end.

(** [str] of an optional [str], as an f-string interpolates it. *)
Definition py_str_tag (t : option string) : string :=
  match t with
  | None => "None"
  | Some s => s
  end.

Definition truthy_set (X : gset string) : bool := negb (bool_decide (X = ∅)).

Definition truthy_dict {V} (m : gmap string V) : bool := negb (bool_decide (dom m = ∅)).

Definition truthy_list {A} (l : list A) : bool :=
  match l with
  | [] => false
  | _ :: _ => true
  end.

(** ** Data model *)

(** A field schema: [type_tag] is what [.get("type")] returns. *)
Record FieldSchema := { type_tag : option string }.

Global Instance FieldSchema_eq_dec : EqDecision FieldSchema.
Proof. solve_decision. Defined.

(** A type definition: [properties] is its ["properties"] object, if any. *)
Record TypeDefinition := { properties : option (gmap string FieldSchema) }.

Global Instance TypeDefinition_eq_dec : EqDecision TypeDefinition.
Proof. solve_decision. Defined.

(** [td.get("properties", {})]. *)
Definition get_properties (td : TypeDefinition) : gmap string FieldSchema :=
  default ∅ (properties td).

(** A snapshot document: the type tables under the category keys, and the
    object under the key ["enum"]. *)
Record Snapshot := {
  categories : gmap string (gmap string TypeDefinition);
  enums : option (gmap string (list string))
}.

(** [snapshot.get(category, {})] and [snapshot.get("enum", {})]. *)
Definition get_category (s : Snapshot) (category : string) : gmap string TypeDefinition :=
  default ∅ (categories s !! category).

Definition get_enums (s : Snapshot) : gmap string (list string) :=
  default ∅ (enums s).

Record DriftReport := {
  missing_in_rust : gmap string string;
  missing_in_python : gmap string string;
  type_mismatches : list string
}.

Global Instance DriftReport_eq_dec : EqDecision DriftReport.
Proof. solve_decision. Defined.

(** [DriftReport()]. *)
Definition new_report : DriftReport :=
  {| missing_in_rust := ∅; missing_in_python := ∅; type_mismatches := [] |}.

Definition has_drift (report : DriftReport) : bool :=
  truthy_dict (missing_in_rust report)
  || truthy_dict (missing_in_python report)
  || truthy_list (type_mismatches report).

(** [report.missing_in_rust[key] = text] and its two siblings. *)
Definition set_missing_in_rust (key text : string) (report : DriftReport) : DriftReport :=
  {| missing_in_rust := <[key := text]> (missing_in_rust report);
     missing_in_python := missing_in_python report;
     type_mismatches := type_mismatches report |}.

Definition set_missing_in_python (key text : string) (report : DriftReport) : DriftReport :=
  {| missing_in_rust := missing_in_rust report;
     missing_in_python := <[key := text]> (missing_in_python report);
     type_mismatches := type_mismatches report |}.

Definition append_type_mismatch (text : string) (report : DriftReport) : DriftReport :=
  {| missing_in_rust := missing_in_rust report;
     missing_in_python := missing_in_python report;
     type_mismatches := type_mismatches report ++ [text] |}.

(** ** The comparator *)

Definition ignore_fields : gset string :=
  {[ "_typ"; "_version"; "_id"; "zusatzAttribute" ]}.

Definition entire_type : string := "entire type".

(** The keys [f"enum/{name}"] and [f"{category}/{name}"]. *)
Definition enum_key (name : string) : string := "enum/" +:+ name.

Definition type_key (category name : string) : string :=
  category +:+ "/" +:+ name.

Definition variants_text (names : list string) : string :=
  "variants: " +:+ py_repr_list names.

Definition fields_text (names : list string) : string :=
  "fields: " +:+ py_repr_list names.

(** [f"{category}/{name}.{fld}: Python={py_type}, Rust={rs_type}"]. *)
Definition mismatch_text (category name fld py_type rs_type : string) : string :=
  type_key category name +:+ "." +:+ fld +:+ ": Python=" +:+ py_type
    +:+ ", Rust=" +:+ rs_type.

(** Body of the loop of [compare_enums]. *)
Definition compare_enums_step (o : SetOrder) (python_enums rust_enums : gmap string (list string))
    (report : DriftReport) (name : string) : DriftReport :=
  let py_variants : gset string := list_to_set (default [] (python_enums !! name)) in
  let rs_variants : gset string := list_to_set (default [] (rust_enums !! name)) in
  if decide (name ∉ dom rust_enums) then
    set_missing_in_rust (enum_key name) entire_type report
  else if decide (name ∉ dom python_enums) then
    set_missing_in_python (enum_key name) entire_type report
  else
    let missing := py_variants ∖ rs_variants in
    let extra := rs_variants ∖ py_variants in
    let report :=
      if truthy_set missing
      then set_missing_in_rust (enum_key name)
             (variants_text (py_sorted_set o missing)) report
      else report in
    if truthy_set extra
    then set_missing_in_python (enum_key name)
           (variants_text (py_sorted_set o extra)) report
    else report.

Definition compare_enums (o : SetOrder) (python_enums rust_enums : gmap string (list string))
    (report : DriftReport) : DriftReport :=
  let all_names := dom python_enums ∪ dom rust_enums in
  foldl (compare_enums_step o python_enums rust_enums) report
    (py_sorted_set o all_names).

(** Body of the inner loop of [compare_models].  [fld] is drawn from the
    keys of both property objects, so neither subscript raises: the last
    branch is never taken ([check_field_subscripts]). *)
Definition check_field (category name : string)
    (py_props rs_props : gmap string FieldSchema)
    (report : DriftReport) (fld : string) : DriftReport :=
  match py_props !! fld, rs_props !! fld with
  | Some py_schema, Some rs_schema =>
      let py_type := type_tag py_schema in
      let rs_type := type_tag rs_schema in
      if truthy_tag py_type && truthy_tag rs_type
         && negb (bool_decide (py_type = rs_type))
      then append_type_mismatch
             (mismatch_text category name fld
                (py_str_tag py_type) (py_str_tag rs_type))
             report
      else report
  | _, _ => report
  end.

(** Body of the outer loop of [compare_models].  The subscripts
    [python_models[name]] and [rust_models[name]] come after the two
    membership tests; the branch for a missing key is the [continue]
    above them. *)
Definition compare_models_step (o : SetOrder) (category : string)
    (python_models rust_models : gmap string TypeDefinition)
    (report : DriftReport) (name : string) : DriftReport :=
  match rust_models !! name, python_models !! name with
  | None, _ => set_missing_in_rust (type_key category name) entire_type report
  | Some _, None => set_missing_in_python (type_key category name) entire_type report
  | Some rs_model, Some py_model =>
      let py_props := get_properties py_model in
      let rs_props := get_properties rs_model in
      let py_fields := dom py_props ∖ ignore_fields in
      let rs_fields := dom rs_props ∖ ignore_fields in
      let missing := py_fields ∖ rs_fields in
      let extra := rs_fields ∖ py_fields in
      let report :=
        if truthy_set missing
        then set_missing_in_rust (type_key category name)
               (fields_text (py_sorted_set o missing)) report
        else report in
      let report :=
        if truthy_set extra
        then set_missing_in_python (type_key category name)
               (fields_text (py_sorted_set o extra)) report
        else report in
      foldl (check_field category name py_props rs_props) report
        (py_sorted_set o (py_fields ∩ rs_fields))
  end.

Definition compare_models (o : SetOrder) (category : string)
    (python_models rust_models : gmap string TypeDefinition)
    (report : DriftReport) : DriftReport :=
  let all_names := dom python_models ∪ dom rust_models in
  foldl (compare_models_step o category python_models rust_models) report
    (py_sorted_set o all_names).

(** ** The renderer *)

Definition bullet (m : gmap string string) (key : string) : string :=
  "- **" +:+ key +:+ "**: " +:+ default EmptyString (m !! key).

Definition missing_section (o : SetOrder) (title : string) (m : gmap string string) : list string :=
  if truthy_dict m
  then [title +:+ newline] ++ (bullet m <$> py_sorted_set o (dom m)) ++ [EmptyString]
  else [].

Definition mismatch_section (l : list string) : list string :=
  if truthy_list l
  then ["## Type Mismatches" +:+ newline]
         ++ ((λ mismatch, "- " +:+ mismatch) <$> py_sorted l) ++ [EmptyString]
  else [].

Definition generate_report (o : SetOrder) (report : DriftReport) : string :=
  let lines := ["# BO4E Drift Report"; EmptyString] in
  if negb (has_drift report) then
    py_join newline (lines ++ ["No drift detected - schemas are in sync!"])
  else
    py_join newline
      (lines
       ++ ["Drift detected between Python and Rust schemas" +:+ newline]
       ++ missing_section o "## Missing in Rust (exists in Python)" (missing_in_rust report)
       ++ missing_section o "## Missing in Python (exists in Rust)" (missing_in_python report)
       ++ mismatch_section (type_mismatches report)
       ++ ["## Summary" +:+ newline;
           "- Missing in Rust: " +:+ py_str_nat (size (missing_in_rust report));
           "- Missing in Python: " +:+ py_str_nat (size (missing_in_python report));
           "- Type mismatches: " +:+ py_str_nat (length (type_mismatches report))]).

(** ** The driver *)

(** The comparison that [main] runs on the two loaded documents. *)
Definition compare (o : SetOrder) (python rust : Snapshot) : DriftReport :=
  let report :=
    foldl (λ report category,
             compare_models o category (get_category python category)
               (get_category rust category) report)
          new_report ["bo"; "com"] in
  compare_enums o (get_enums python) (get_enums rust) report.

(** What [main] finds at one of its two input paths. *)
Inductive InputFile :=
  | NoFile
  | NotJson
  | Json (document : Snapshot).

(** How a run ends: [sys.exit] after some printing, or an exception that
    nothing catches. *)
Inductive Outcome :=
  | Exited (stdout stderr : list string) (status : Z)
  | Raised (exception : string).

Definition main (o : SetOrder) (schemas_dir : string) (python_file rust_file : InputFile) : Outcome :=
  let python_path := schemas_dir +:+ "/python_schema.json" in
  let rust_path := schemas_dir +:+ "/rust_schema.json" in
  match python_file, rust_file with
  | NoFile, _ =>
      Exited []
        ["Error: " +:+ python_path +:+ " not found";
         "Run: python scripts/extract_python_schema.py > schemas/python_schema.json"]
        1
  | _, NoFile =>
      Exited []
        ["Error: " +:+ rust_path +:+ " not found";
         "Run: cargo run --bin generate_schema --features json-schema > schemas/rust_schema.json"]
        1
  | NotJson, _ | _, NotJson => Raised "json.JSONDecodeError"
  | Json python, Json rust =>
      Exited [generate_report o (compare o python rust)] [] 0
  end.

(** ** Editing a snapshot *)

(** Set the entry of [fld] in a type definition, and remove it. *)
Definition put_field (fld : string) (schema : FieldSchema) (td : TypeDefinition)
    : TypeDefinition :=
  {| properties := Some (<[fld := schema]> (get_properties td)) |}.

Definition drop_field (fld : string) (td : TypeDefinition) : TypeDefinition :=
  {| properties := delete fld <$> properties td |}.

(** Apply [f] to the definition of the type [name] of [category], if the
    snapshot has it. *)
Definition update_type (category name : string) (f : TypeDefinition → TypeDefinition)
    (s : Snapshot) : Snapshot :=
  {| categories := alter (alter f name) category (categories s);
     enums := enums s |}.

(** ** What the comparator reads of a type definition *)

(** The fields of a type definition that count. *)
Definition reduced_fields (td : TypeDefinition) : gset string :=
  dom (get_properties td) ∖ ignore_fields.

(** A tag that is not truthy is read like no tag. *)
Definition norm_tag (t : option string) : option string :=
  if truthy_tag t then t else None.

(** Two type definitions that the comparator cannot tell apart: the same
    fields outside the ignore set, with the same tags once normalised. *)
Definition td_equiv (td1 td2 : TypeDefinition) : Prop :=
  dom (get_properties td1) ∖ ignore_fields = dom (get_properties td2) ∖ ignore_fields
  ∧ ∀ fld, fld ∉ ignore_fields →
      norm_tag (get_properties td1 !! fld ≫= type_tag)
      = norm_tag (get_properties td2 !! fld ≫= type_tag).

(** ** What the loops assign, in closed form *)

(** The entry that two tags call for: both there, neither empty, and not the
    same string. *)
Definition expected_mismatch (category name : string)
    (py_props rs_props : gmap string FieldSchema) (fld : string) : option string :=
  match py_props !! fld ≫= type_tag, rs_props !! fld ≫= type_tag with
  | Some a, Some b =>
      if decide (a ≠ EmptyString ∧ b ≠ EmptyString ∧ a ≠ b)
      then Some (mismatch_text category name fld a b)
      else None
  | _, _ => None
  end.

(** One pass of a loop body over a findings dictionary: the body assigns
    [text] under [key], or leaves the dictionary alone. *)
Definition write (key : string) (text : option string) (m : gmap string string)
    : gmap string string :=
  match text with
  | Some t => <[key := t]> m
  | None => m
  end.

Definition apply_entries (key : string → string) (entry : string → option string)
    (names : list string) (m : gmap string string) : gmap string string :=
  foldl (λ m name, write (key name) (entry name) m) m names.

(** What the body of the loop of [compare_models] assigns for [name] in
    [missing_in_rust] and in [missing_in_python], and what it appends to
    [type_mismatches]. *)
Definition models_rust_entry (o : SetOrder) (pm rm : gmap string TypeDefinition)
    (name : string) : option string :=
  match rm !! name, pm !! name with
  | None, _ => Some entire_type
  | Some _, None => None
  | Some rs, Some py =>
      let missing := reduced_fields py ∖ reduced_fields rs in
      if truthy_set missing then Some (fields_text (py_sorted_set o missing)) else None
  end.

Definition models_python_entry (o : SetOrder) (pm rm : gmap string TypeDefinition)
    (name : string) : option string :=
  match rm !! name, pm !! name with
  | None, _ => None
  | Some _, None => Some entire_type
  | Some rs, Some py =>
      let extra := reduced_fields rs ∖ reduced_fields py in
      if truthy_set extra then Some (fields_text (py_sorted_set o extra)) else None
  end.

Definition models_mismatches (o : SetOrder) (category : string)
    (pm rm : gmap string TypeDefinition) (name : string) : list string :=
  match rm !! name, pm !! name with
  | Some rs, Some py =>
      omap (expected_mismatch category name (get_properties py) (get_properties rs))
        (py_sorted_set o (reduced_fields py ∩ reduced_fields rs))
  | _, _ => []
  end.

(** The same for the loop of [compare_enums]. *)
Definition enums_rust_entry (o : SetOrder) (pe re : gmap string (list string))
    (name : string) : option string :=
  match re !! name, pe !! name with
  | None, _ => Some entire_type
  | Some _, None => None
  | Some rs, Some py =>
      let missing : gset string := list_to_set py ∖ list_to_set rs in
      if truthy_set missing then Some (variants_text (py_sorted_set o missing)) else None
  end.

Definition enums_python_entry (o : SetOrder) (pe re : gmap string (list string))
    (name : string) : option string :=
  match re !! name, pe !! name with
  | None, _ => None
  | Some _, None => Some entire_type
  | Some rs, Some py =>
      let extra : gset string := list_to_set rs ∖ list_to_set py in
      if truthy_set extra then Some (variants_text (py_sorted_set o extra)) else None
  end.

(** ** Type mismatches before they are rendered *)

(** A type mismatch before it is rendered as a line. *)
Record Mismatch := {
  mm_category : string;
  mm_name : string;
  mm_field : string;
  mm_python : string;
  mm_rust : string
}.

Definition mismatch_line (m : Mismatch) : string :=
  mismatch_text (mm_category m) (mm_name m) (mm_field m) (mm_python m) (mm_rust m).

(** The same mismatch with the values of the two sides exchanged. *)
Definition swap_sides (m : Mismatch) : Mismatch :=
  {| mm_category := mm_category m; mm_name := mm_name m; mm_field := mm_field m;
     mm_python := mm_rust m; mm_rust := mm_python m |}.

Definition tag_mismatch (category name : string)
    (py_props rs_props : gmap string FieldSchema) (fld : string) : option Mismatch :=
  match py_props !! fld ≫= type_tag, rs_props !! fld ≫= type_tag with
  | Some a, Some b =>
      if decide (a ≠ EmptyString ∧ b ≠ EmptyString ∧ a ≠ b)
      then Some {| mm_category := category; mm_name := name; mm_field := fld;
                   mm_python := a; mm_rust := b |}
      else None
  | _, _ => None
  end.

(** The mismatches of one type, and of one category. *)
Definition type_mismatch_list (o : SetOrder) (category : string)
    (pm rm : gmap string TypeDefinition) (name : string) : list Mismatch :=
  match rm !! name, pm !! name with
  | Some rs, Some py =>
      omap (tag_mismatch category name (get_properties py) (get_properties rs))
        (py_sorted_set o (reduced_fields py ∩ reduced_fields rs))
  | _, _ => []
  end.

Definition category_mismatch_list (o : SetOrder) (category : string)
    (pm rm : gmap string TypeDefinition) : list Mismatch :=
  concat (type_mismatch_list o category pm rm <$> py_sorted_set o (dom pm ∪ dom rm)).

(** Two reports of which each is the other with the sides exchanged. *)
Definition mirrored (r r' : DriftReport) : Prop :=
  missing_in_rust r' = missing_in_python r
  ∧ missing_in_python r' = missing_in_rust r
  ∧ ∃ l, type_mismatches r = mismatch_line <$> l
         ∧ type_mismatches r' = mismatch_line ∘ swap_sides <$> l.

(** ** The report without drift *)

Definition no_drift_text : string :=
  py_join newline
    ["# BO4E Drift Report"; EmptyString; "No drift detected - schemas are in sync!"].

(** ** The sections of a rendered report *)

(** A section as the renderer lays it out: nothing when there is no bullet,
    else the title line, the bullets and an empty line. *)
Definition titled_section (title : string) (bullets : list string) : list string :=
  match bullets with
  | [] => []
  | _ :: _ => [title +:+ newline] ++ bullets ++ [EmptyString]
  end.

(** The bullet of a finding: a key with its description. *)
Definition finding_bullet (finding : string * string) : string :=
  "- **" +:+ finding.1 +:+ "**: " +:+ finding.2.

(** The findings of a dictionary by ascending key. *)
Definition sorted_findings (o : SetOrder) (m : gmap string string)
    : list (string * string) :=
  (λ key, (key, default EmptyString (m !! key))) <$> py_sorted_set o (dom m).

(** ** Example snapshots *)

Definition schema_of (tag : string) : FieldSchema := {| type_tag := Some tag |}.

Definition example_schema : FieldSchema := schema_of "string".

Definition zaehler_python : TypeDefinition :=
  {| properties := Some {[ "zaehlernummer" := schema_of "string";
                           "sparte" := schema_of "string";
                           "_id" := schema_of "string" ]} |}.

Definition zaehler_rust : TypeDefinition :=
  {| properties := Some {[ "zaehlernummer" := schema_of "integer";
                           "sparte" := schema_of "string" ]} |}.

Definition zaehler_empty_tag : TypeDefinition :=
  {| properties := Some {[ "zaehlernummer" := schema_of EmptyString;
                           "sparte" := schema_of "string" ]} |}.

Definition adresse : TypeDefinition :=
  {| properties := Some {[ "ort" := schema_of "string" ]} |}.

Definition example_python : Snapshot :=
  {| categories := {[ "bo" := {[ "Zaehler" := zaehler_python ]};
                      "com" := {[ "Adresse" := adresse ]} ]};
     enums := Some {[ "Sparte" := ["STROM"; "GAS"] ]} |}.

Definition example_rust : Snapshot :=
  {| categories := {[ "bo" := {[ "Zaehler" := zaehler_rust ]} ]};
     enums := Some {[ "Sparte" := ["STROM"]; "Netzebene" := ["NSP"] ]} |}.

(** A type with field names beyond ASCII: a letter that is printable, and a
    no-break space, U+00A0, which is not. *)
Definition no_break_space : string := String "194" (String "160" EmptyString).

Definition lokation_python : Snapshot :=
  {| categories :=
       {[ "bo" := {[ "Marktlokation" :=
            {| properties := Some {[ "lokationsId" := schema_of "string";
                                     "straße" := schema_of "string";
                                     "netz" +:+ no_break_space +:+ "ebene"
                                       := schema_of "string";
                                     "_typ" := schema_of "string" ]} |} ]} ]};
     enums := Some {[ "Sparte" := ["STROM"; "GAS"; "WÄRME"] ]} |}.

Definition lokation_rust : Snapshot :=
  {| categories :=
       {[ "bo" := {[ "Marktlokation" :=
            {| properties := Some {[ "lokationsId" := schema_of "string";
                                     "ort" := schema_of "string" ]} |} ]} ]};
     enums := Some {[ "Sparte" := ["STROM"; "it's"] ]} |}.

(** A report with a finding of each kind. *)
Definition example_report : DriftReport :=
  {| missing_in_rust := {[ "enum/Sparte" := "variants: ['GAS']";
                           "com/Adresse" := "entire type" ]};
     missing_in_python := {[ "enum/Netzebene" := "entire type" ]};
     type_mismatches := ["com/Adresse.ort: Python=string, Rust=integer";
                         "bo/Zaehler.sparte: Python=string, Rust=integer"] |}.

(** Decide a closed proposition by evaluation. *)
Ltac by_evaluation :=
  match goal with
  | |- ?P => apply (bool_decide_unpack P); vm_compute; exact I
  end.

(** ** What a report without drift says of two snapshots *)

(** Two tables of type definitions between which the comparator finds
    nothing: the same type names, for each type the same fields outside the
    ignore set, and no field with two tags that are both non-empty and
    different. *)
Definition types_agree (pm rm : gmap string TypeDefinition) : Prop :=
  dom pm = dom rm
  ∧ ∀ name py rs, pm !! name = Some py → rm !! name = Some rs →
      reduced_fields py = reduced_fields rs
      ∧ ∀ fld a b, fld ∉ ignore_fields →
          get_properties py !! fld ≫= type_tag = Some a →
          get_properties rs !! fld ≫= type_tag = Some b →
          a ≠ EmptyString → b ≠ EmptyString → a = b.

(** Two tables of enums between which the comparator finds nothing: the
    same enum names, and for each enum the same set of variants. *)
Definition enums_agree (pe re : gmap string (list string)) : Prop :=
  dom pe = dom re
  ∧ ∀ name py rs, pe !! name = Some py → re !! name = Some rs →
      (list_to_set py : gset string) = list_to_set rs.

(** ** The extractor: [scripts/extract_python_schema.py] *)

(** What the extractor observes of a member of a Python module: the answers
    of [inspect.isclass], [issubclass] and [is] for the two base classes, the
    attribute [__module__], and what [model_json_schema()] and the iteration
    over the values of an enum give, [inl e] standing for an exception whose
    text is [e]. A JSON schema is kept as the type definition that the
    comparator reads of it. *)
Record PyObject := {
  isclass : bool;
  subclass_of_BaseModel : bool;
  is_BaseModel : bool;
  subclass_of_Enum : bool;
  is_Enum : bool;
  module_name : string;
  model_json_schema : string + TypeDefinition;
  enum_values : string + list string
}.

Global Instance PyObject_eq_dec : EqDecision PyObject.
Proof. solve_decision. Defined.

(** [d[key] = value] on a [dict], kept as the list of its items in insertion
    order: the value of a key that is there is replaced in place. *)
Fixpoint dict_set {V} (key : string) (value : V) (d : list (string * V))
    : list (string * V) :=
  match d with
  | [] => [(key, value)]
  | (k, v) :: d' =>
      if decide (k = key) then (k, value) :: d' else (k, v) :: dict_set key value d'
  end.

(** The two filters; [and] is evaluated from left to right and stops at the
    first false operand, as [&&] does. *)
Definition is_bo4e_model (obj : PyObject) : bool :=
  isclass obj && subclass_of_BaseModel obj && negb (is_BaseModel obj)
  && String.prefix "bo4e" (module_name obj).

Definition is_bo4e_enum (obj : PyObject) : bool :=
  isclass obj && subclass_of_Enum obj && negb (is_Enum obj)
  && String.prefix "bo4e" (module_name obj).

(** [get_all_models] and [get_all_enums], on the list that
    [inspect.getmembers(module)] returns. *)
Definition get_all_models (members : list (string * PyObject))
    : list (string * PyObject) :=
  foldl (λ models member,
           if is_bo4e_model member.2 then dict_set member.1 member.2 models else models)
        [] members.

Definition get_all_enums (members : list (string * PyObject))
    : list (string * PyObject) :=
  foldl (λ enums member,
           if is_bo4e_enum member.2 then dict_set member.1 member.2 enums else enums)
        [] members.

(** Body of the three loops of [extract_schemas]: the [try] assigns the
    result under the name, the [except] prints a warning on the error stream
    and goes on. The state is the table being filled and the error stream. *)
Definition extract_step {V} (what : string) (get : PyObject → string + V)
    (state : gmap string V * list string) (item : string * PyObject)
    : gmap string V * list string :=
  match get item.2 with
  | inr value => (<[item.1 := value]> state.1, state.2)
  | inl e =>
      (state.1,
       state.2 ++ ["Warning: Could not extract " +:+ what +:+ item.1 +:+ ": " +:+ e])
  end.

(** [extract_schemas], on the members of the modules [bo], [com] and
    [bo4e.enum]; the result is the snapshot and what was printed on the
    error stream. *)
Definition extract_schemas (bo com bo4e_enum : list (string * PyObject))
    : Snapshot * list string :=
  let '(bo_schemas, stderr) :=
    foldl (extract_step "schema for BO " model_json_schema) (∅, [])
      (get_all_models bo) in
  let '(com_schemas, stderr) :=
    foldl (extract_step "schema for COM " model_json_schema) (∅, stderr)
      (get_all_models com) in
  let '(enum_schemas, stderr) :=
    foldl (extract_step "variants for enum " enum_values) (∅, stderr)
      (get_all_enums bo4e_enum) in
  ({| categories := {[ "bo" := bo_schemas; "com" := com_schemas ]};
      enums := Some enum_schemas |},
   stderr).

(** The warning of a failed extraction, if it failed. *)
Definition extract_warning {V} (what : string) (get : PyObject → string + V)
    (item : string * PyObject) : option string :=
  match get item.2 with
  | inr _ => None
  | inl e => Some ("Warning: Could not extract " +:+ what +:+ item.1 +:+ ": " +:+ e)
  end.

(** Example members of a module. *)
Definition zaehler_class : PyObject :=
  {| isclass := true; subclass_of_BaseModel := true; is_BaseModel := false;
     subclass_of_Enum := false; is_Enum := false; module_name := "bo4e.bo.zaehler";
     model_json_schema := inr zaehler_python; enum_values := inl "not an enum" |}.

Definition broken_class : PyObject :=
  {| isclass := true; subclass_of_BaseModel := true; is_BaseModel := false;
     subclass_of_Enum := false; is_Enum := false; module_name := "bo4e.bo.vertrag";
     model_json_schema := inl "unresolved forward reference";
     enum_values := inl "not an enum" |}.

Definition base_model_class : PyObject :=
  {| isclass := true; subclass_of_BaseModel := true; is_BaseModel := true;
     subclass_of_Enum := false; is_Enum := false; module_name := "pydantic.main";
     model_json_schema := inr {| properties := None |};
     enum_values := inl "not an enum" |}.

Definition example_bo_members : list (string * PyObject) :=
  [("BaseModel", base_model_class); ("Vertrag", broken_class); ("Zaehler", zaehler_class)].

(** A Rust snapshot that has the type whose extraction fails above. *)
Definition vertrag_rust : Snapshot :=
  {| categories := {[ "bo" := {[ "Vertrag" := adresse ]} ]}; enums := None |}.

(** * Properties *)

(** ** Sorting *)

Lemma py_sorted_Permutation l : py_sorted l ≡ₚ l.
Proof. apply merge_sort_Permutation. Qed.

Lemma py_sorted_Sorted l : Sorted String.le (py_sorted l).
Proof. apply (Sorted_merge_sort String.le). Qed.

(** The sorted list does not depend on the order of the input. *)
Lemma py_sorted_perm l1 l2 : l1 ≡ₚ l2 → py_sorted l1 = py_sorted l2.
Proof.
  intros Hp. apply (Sorted_unique String.le); auto using py_sorted_Sorted.
  by rewrite !py_sorted_Permutation.
Qed.

Lemma py_sorted_set_order o1 o2 X : py_sorted_set o1 X = py_sorted_set o2 X.
Proof.
  apply py_sorted_perm. by rewrite !set_iter_perm.
Qed.

Lemma py_sorted_set_Permutation o X : py_sorted_set o X ≡ₚ elements X.
Proof. unfold py_sorted_set. by rewrite py_sorted_Permutation, set_iter_perm. Qed.

Lemma elem_of_py_sorted_set o X x : x ∈ py_sorted_set o X ↔ x ∈ X.
Proof. by rewrite py_sorted_set_Permutation, elem_of_elements. Qed.

Lemma NoDup_py_sorted_set o X : NoDup (py_sorted_set o X).
Proof. rewrite py_sorted_set_Permutation. apply NoDup_elements. Qed.

(** ** Loops *)

Lemma foldl_fixed {R X} (f : R → X → R) (l : list X) (r : R) :
  (∀ x, x ∈ l → f r x = r) → foldl f r l = r.
Proof.
  induction l as [|x l IH]; simpl; [done|]. intros H.
  rewrite H by left. apply IH. intros y Hy. apply H. by right.
Qed.

Lemma foldl_agree {R X} (f g : R → X → R) (l : list X) (r : R) :
  (∀ r x, x ∈ l → f r x = g r x) → foldl f r l = foldl g r l.
Proof.
  revert r. induction l as [|x l IH]; simpl; [done|]. intros r H.
  rewrite H by left. apply IH. intros r' y Hy. apply H. by right.
Qed.

Lemma foldl_commute {R X} (g : R → R) (f : R → X → R) (l : list X) (r : R) :
  (∀ r x, x ∈ l → f (g r) x = g (f r x)) → foldl f (g r) l = g (foldl f r l).
Proof.
  revert r. induction l as [|x l IH]; simpl; [done|]. intros r H.
  rewrite H by left. apply IH. intros r' y Hy. apply H. by right.
Qed.

Lemma foldl_invariant {R X} (P : R → Prop) (f : R → X → R) (l : list X) (r : R) :
  P r → (∀ r x, x ∈ l → P r → P (f r x)) → P (foldl f r l).
Proof.
  revert r. induction l as [|x l IH]; simpl; [done|]. intros r Hr H.
  apply IH; [apply H; [left|done]|]. intros r' y Hy. apply H. by right.
Qed.

(** ** Truth values *)

Lemma truthy_set_empty : truthy_set ∅ = false.
Proof. done. Qed.

Lemma truthy_set_true X : truthy_set X = true ↔ X ≠ ∅.
Proof. unfold truthy_set. case_bool_decide; naive_solver. Qed.

Lemma truthy_dict_false {V} (m : gmap string V) : truthy_dict m = false ↔ m = ∅.
Proof.
  unfold truthy_dict. rewrite <-(dom_empty_iff_L m). case_bool_decide; naive_solver.
Qed.

Lemma truthy_list_false {A} (l : list A) : truthy_list l = false ↔ l = [].
Proof. by destruct l. Qed.

(** ** The enumeration order of sets is immaterial *)

Lemma compare_enums_step_order o1 o2 pe re r name :
  compare_enums_step o1 pe re r name = compare_enums_step o2 pe re r name.
Proof. unfold compare_enums_step. by rewrite !(py_sorted_set_order o1 o2). Qed.

Lemma compare_enums_order o1 o2 pe re r :
  compare_enums o1 pe re r = compare_enums o2 pe re r.
Proof.
  unfold compare_enums. rewrite (py_sorted_set_order o1 o2).
  apply foldl_agree. intros. apply compare_enums_step_order.
Qed.

Lemma compare_models_step_order o1 o2 cat pm rm r name :
  compare_models_step o1 cat pm rm r name = compare_models_step o2 cat pm rm r name.
Proof.
  unfold compare_models_step.
  destruct (rm !! name), (pm !! name); try done.
  by rewrite !(py_sorted_set_order o1 o2).
Qed.

Lemma compare_models_order o1 o2 cat pm rm r :
  compare_models o1 cat pm rm r = compare_models o2 cat pm rm r.
Proof.
  unfold compare_models. rewrite (py_sorted_set_order o1 o2).
  apply foldl_agree. intros. apply compare_models_step_order.
Qed.

Lemma compare_order o1 o2 python rust : compare o1 python rust = compare o2 python rust.
Proof.
  unfold compare. rewrite (compare_enums_order o1 o2). f_equal.
  apply foldl_agree. intros. apply compare_models_order.
Qed.

Lemma generate_report_order o1 o2 r : generate_report o1 r = generate_report o2 r.
Proof.
  unfold generate_report, missing_section. by rewrite !(py_sorted_set_order o1 o2).
Qed.

(** C6. Determinism: the rendered report, and the whole outcome of a run, are
    the same for every order in which the sets are enumerated; they depend on
    the contents of the two snapshot documents only. *)
Theorem rendered_report_deterministic (o1 o2 : SetOrder) (schemas_dir : string)
    (python_file rust_file : InputFile) :
  main o1 schemas_dir python_file rust_file = main o2 schemas_dir python_file rust_file
  ∧ ∀ python rust,
      generate_report o1 (compare o1 python rust)
      = generate_report o2 (compare o2 python rust).
Proof.
  assert (∀ python rust, generate_report o1 (compare o1 python rust)
                         = generate_report o2 (compare o2 python rust)) as Hr.
  { intros. by rewrite (compare_order o1 o2), (generate_report_order o1 o2). }
  split; [|done].
  destruct python_file, rust_file; simpl; try done. by rewrite Hr.
Qed.


(** ** The renderer without drift *)

Lemma has_drift_false report :
  has_drift report = false
  ↔ missing_in_rust report = ∅ ∧ missing_in_python report = ∅ ∧ type_mismatches report = [].
Proof.
  unfold has_drift. rewrite !orb_false_iff, !truthy_dict_false, truthy_list_false.
  naive_solver.
Qed.

(** C9, as the code has it. [has_drift] holds exactly when one of the three
    collections is not empty; without drift the rendered report is fixed: the
    title line, an empty line, and the one line saying that no drift was
    detected. *)
Theorem no_drift_rendering (o : SetOrder) (report : DriftReport) :
  (has_drift report = true
   ↔ missing_in_rust report ≠ ∅ ∨ missing_in_python report ≠ ∅
     ∨ type_mismatches report ≠ [])
  ∧ (has_drift report = false → generate_report o report = no_drift_text).
Proof.
  split.
  - rewrite <-not_false_iff_true, has_drift_false.
    destruct (decide (missing_in_rust report = ∅)),
      (decide (missing_in_python report = ∅)),
      (decide (type_mismatches report = [])); naive_solver.
  - intros H. unfold generate_report. by rewrite H.
Qed.

Lemma no_drift_rendering_witness :
  has_drift new_report = false
  ∧ generate_report default_order new_report = no_drift_text.
Proof.
  split; [reflexivity|].
  apply (proj2 (no_drift_rendering default_order new_report)). reflexivity.
Defined.

(** C9, as stated, fails: the output without drift is not the single line
    alone, the title and an empty line come before it. *)
Lemma no_drift_output_is_not_one_line :
  has_drift new_report = false
  ∧ generate_report default_order new_report
    ≠ "No drift detected - schemas are in sync!"
  ∧ generate_report default_order new_report
    = "# BO4E Drift Report" +:+ newline +:+ newline
      +:+ "No drift detected - schemas are in sync!".
Proof. split; [reflexivity|]. split; [discriminate|reflexivity]. Qed.

(** ** The inner loop: type tags of the common fields *)

(** The subscripts of [check_field] do not raise on the fields that the
    inner loop visits. *)
Lemma check_field_subscripts o (py_props rs_props : gmap string FieldSchema) fld :
  fld ∈ py_sorted_set o ((dom py_props ∖ ignore_fields) ∩ (dom rs_props ∖ ignore_fields)) →
  is_Some (py_props !! fld) ∧ is_Some (rs_props !! fld).
Proof.
  rewrite elem_of_py_sorted_set, elem_of_intersection, !elem_of_difference, !elem_of_dom.
  tauto.
Qed.

(** What [check_field] does, by the tags of the two sides. *)
Lemma check_field_mismatch cat name (pp rp : gmap string FieldSchema) r fld a b :
  pp !! fld = Some {| type_tag := Some a |} →
  rp !! fld = Some {| type_tag := Some b |} →
  a ≠ EmptyString → b ≠ EmptyString → a ≠ b →
  check_field cat name pp rp r fld
  = append_type_mismatch (mismatch_text cat name fld a b) r.
Proof.
  intros Hp Hr Ha Hb Hab. unfold check_field. rewrite Hp, Hr. simpl.
  unfold truthy_str. rewrite !bool_decide_eq_false_2 by congruence. done.
Qed.

Lemma check_field_falsy_python cat name (pp rp : gmap string FieldSchema) r fld :
  truthy_tag (pp !! fld ≫= type_tag) = false →
  check_field cat name pp rp r fld = r.
Proof.
  unfold check_field. destruct (pp !! fld) as [[t]|]; simpl; [|done].
  intros ->. by destruct (rp !! fld).
Qed.

Lemma check_field_falsy_rust cat name (pp rp : gmap string FieldSchema) r fld :
  truthy_tag (rp !! fld ≫= type_tag) = false →
  check_field cat name pp rp r fld = r.
Proof.
  unfold check_field. destruct (pp !! fld) as [[t]|]; [|done].
  destruct (rp !! fld) as [[t']|]; simpl; [|done].
  intros ->. by rewrite andb_false_r.
Qed.

Lemma check_field_same_tag cat name (pp rp : gmap string FieldSchema) r fld :
  pp !! fld ≫= type_tag = rp !! fld ≫= type_tag →
  check_field cat name pp rp r fld = r.
Proof.
  unfold check_field. destruct (pp !! fld) as [[t]|]; [|done].
  destruct (rp !! fld) as [[t']|]; simpl; [|done].
  intros ->. rewrite bool_decide_eq_true_2 by done. by rewrite andb_false_r.
Qed.

(** ** Comparing a snapshot with itself *)

Lemma compare_models_step_same o cat (models : gmap string TypeDefinition) r name :
  name ∈ dom models → compare_models_step o cat models models r name = r.
Proof.
  intros [model Hm]%elem_of_dom. unfold compare_models_step. rewrite Hm.
  rewrite difference_diag_L, truthy_set_empty.
  apply foldl_fixed. intros fld _. by apply check_field_same_tag.
Qed.

Lemma compare_models_same o cat (models : gmap string TypeDefinition) r :
  compare_models o cat models models r = r.
Proof.
  unfold compare_models. apply foldl_fixed. intros name Hn.
  apply compare_models_step_same. revert Hn. rewrite elem_of_py_sorted_set. set_solver.
Qed.

Lemma compare_enums_step_same o (enums : gmap string (list string)) r name :
  name ∈ dom enums → compare_enums_step o enums enums r name = r.
Proof.
  intros Hn. unfold compare_enums_step.
  rewrite !decide_False by (intros H; by apply H).
  by rewrite difference_diag_L, truthy_set_empty.
Qed.

Lemma compare_enums_same o (enums : gmap string (list string)) r :
  compare_enums o enums enums r = r.
Proof.
  unfold compare_enums. apply foldl_fixed. intros name Hn.
  apply compare_enums_step_same. revert Hn. rewrite elem_of_py_sorted_set. set_solver.
Qed.

(** C5. Identity: a snapshot compared with itself gives the empty report,
    without drift. *)
Theorem compare_same_snapshot (o : SetOrder) (snapshot : Snapshot) :
  compare o snapshot snapshot = new_report
  ∧ missing_in_rust (compare o snapshot snapshot) = ∅
  ∧ missing_in_python (compare o snapshot snapshot) = ∅
  ∧ type_mismatches (compare o snapshot snapshot) = []
  ∧ has_drift (compare o snapshot snapshot) = false.
Proof.
  assert (compare o snapshot snapshot = new_report) as ->; [|done].
  unfold compare. rewrite compare_enums_same.
  apply foldl_fixed. intros category _. apply compare_models_same.
Qed.

(** ** What the comparator reads of a type definition *)

Lemma td_equiv_refl td : td_equiv td td.
Proof. by split. Qed.

Lemma norm_tag_eq_truthy t1 t2 :
  norm_tag t1 = norm_tag t2 → truthy_tag t1 = truthy_tag t2.
Proof.
  unfold norm_tag. destruct (truthy_tag t1) eqn:H1, (truthy_tag t2) eqn:H2; try done.
  - by intros ->.
  - by intros <-.
Qed.

Lemma norm_tag_eq_tag t1 t2 :
  norm_tag t1 = norm_tag t2 → truthy_tag t1 = true → t1 = t2.
Proof.
  intros Hn H1. pose proof (norm_tag_eq_truthy _ _ Hn) as H2.
  unfold norm_tag in Hn. by rewrite <-H2, H1 in Hn.
Qed.

Lemma check_field_equiv cat name (pp pp' rp rp' : gmap string FieldSchema) r fld :
  is_Some (pp !! fld) → is_Some (pp' !! fld) →
  is_Some (rp !! fld) → is_Some (rp' !! fld) →
  norm_tag (pp !! fld ≫= type_tag) = norm_tag (pp' !! fld ≫= type_tag) →
  norm_tag (rp !! fld ≫= type_tag) = norm_tag (rp' !! fld ≫= type_tag) →
  check_field cat name pp rp r fld = check_field cat name pp' rp' r fld.
Proof.
  intros [[t] Ht] [[t'] Ht'] [[u] Hu] [[u'] Hu']. unfold check_field.
  rewrite Ht, Ht', Hu, Hu'. simpl. intros Hp Hr.
  rewrite <-(norm_tag_eq_truthy _ _ Hp), <-(norm_tag_eq_truthy _ _ Hr).
  destruct (truthy_tag t) eqn:Et; [|done].
  destruct (truthy_tag u) eqn:Eu; [|done].
  by rewrite <-(norm_tag_eq_tag _ _ Hp Et), <-(norm_tag_eq_tag _ _ Hr Eu).
Qed.

Lemma compare_models_step_equiv o cat (pm pm' rm rm' : gmap string TypeDefinition) r name :
  option_Forall2 td_equiv (pm !! name) (pm' !! name) →
  option_Forall2 td_equiv (rm !! name) (rm' !! name) →
  compare_models_step o cat pm rm r name = compare_models_step o cat pm' rm' r name.
Proof.
  intros Hp Hr. unfold compare_models_step.
  destruct Hr as [rs rs' [Hrd Hrt]|]; [|done].
  destruct Hp as [py py' [Hpd Hpt]|]; [|done].
  rewrite Hrd, Hpd. apply foldl_agree. intros r' fld Hfld.
  assert (fld ∉ ignore_fields) as Hi.
  { revert Hfld. rewrite elem_of_py_sorted_set. set_solver. }
  pose proof Hfld as Hfld'. rewrite <-Hrd, <-Hpd in Hfld'.
  apply check_field_subscripts in Hfld as [? ?], Hfld' as [? ?].
  apply check_field_equiv; auto.
Qed.

Lemma compare_models_equiv o cat (pm pm' rm rm' : gmap string TypeDefinition) r :
  (∀ name, option_Forall2 td_equiv (pm !! name) (pm' !! name)) →
  (∀ name, option_Forall2 td_equiv (rm !! name) (rm' !! name)) →
  compare_models o cat pm rm r = compare_models o cat pm' rm' r.
Proof.
  intros Hp Hr. unfold compare_models.
  assert (∀ m m' : gmap string TypeDefinition,
    (∀ name, option_Forall2 td_equiv (m !! name) (m' !! name)) → dom m = dom m') as Hdom.
  { intros m m' H. apply set_eq. intros name. rewrite !elem_of_dom.
    destruct (H name); by rewrite <-?not_eq_None_Some. }
  rewrite (Hdom _ _ Hp), (Hdom _ _ Hr).
  apply foldl_agree. intros. by apply compare_models_step_equiv.
Qed.

(** ** Editing a snapshot *)

Lemma get_properties_put_field fld schema td :
  get_properties (put_field fld schema td) = <[fld := schema]> (get_properties td).
Proof. done. Qed.

Lemma get_properties_drop_field fld td :
  get_properties (drop_field fld td) = delete fld (get_properties td).
Proof.
  unfold get_properties, drop_field. destruct td as [[props|]]; simpl; [done|].
  by rewrite delete_empty.
Qed.

Lemma get_category_update_type category name f s c :
  get_category (update_type category name f s) c
  = if decide (c = category) then alter f name (get_category s c) else get_category s c.
Proof.
  unfold get_category, update_type. simpl. case_decide as Hc.
  - subst c. rewrite lookup_alter_eq. destruct (categories s !! category); simpl; [done|].
    by rewrite alter_empty.
  - by rewrite lookup_alter_ne.
Qed.

Lemma get_enums_update_type category name f s :
  get_enums (update_type category name f s) = get_enums s.
Proof. done. Qed.

Lemma td_equiv_put_ignored fld schema td :
  fld ∈ ignore_fields → td_equiv (put_field fld schema td) td.
Proof.
  intros Hi. split.
  - rewrite get_properties_put_field, dom_insert_L. set_solver.
  - intros f Hf. rewrite get_properties_put_field, lookup_insert_ne; [done|].
    intros ->. done.
Qed.

Lemma td_equiv_drop_ignored fld td :
  fld ∈ ignore_fields → td_equiv (drop_field fld td) td.
Proof.
  intros Hi. split.
  - rewrite get_properties_drop_field, dom_delete_L. set_solver.
  - intros f Hf. rewrite get_properties_drop_field, lookup_delete_ne; [done|].
    intros ->. done.
Qed.

Lemma td_equiv_put_falsy fld (schema schema' : FieldSchema) td :
  get_properties td !! fld = Some schema →
  truthy_tag (type_tag schema) = false →
  truthy_tag (type_tag schema') = false →
  td_equiv (put_field fld schema' td) td.
Proof.
  intros Hl Hs Hs'. split.
  - rewrite get_properties_put_field, dom_insert_L.
    assert (fld ∈ dom (get_properties td)) by (apply elem_of_dom; eauto). set_solver.
  - intros f _. rewrite get_properties_put_field.
    destruct (decide (fld = f)) as [<-|Hne].
    + rewrite lookup_insert_eq, Hl. simpl. unfold norm_tag. by rewrite Hs, Hs'.
    + by rewrite lookup_insert_ne.
Qed.

Lemma alter_equiv (f : TypeDefinition → TypeDefinition) name
    (models : gmap string TypeDefinition) n :
  (∀ td, models !! name = Some td → td_equiv (f td) td) →
  option_Forall2 td_equiv (alter f name models !! n) (models !! n).
Proof.
  intros Hf. destruct (decide (n = name)) as [->|Hne].
  - rewrite lookup_alter_eq. destruct (models !! name) as [td|] eqn:E; simpl.
    + constructor. by apply Hf.
    + constructor.
  - rewrite lookup_alter_ne by done. destruct (models !! n); constructor.
    apply td_equiv_refl.
Qed.

Lemma option_Forall2_td_equiv_refl (mx : option TypeDefinition) :
  option_Forall2 td_equiv mx mx.
Proof. destruct mx; constructor. apply td_equiv_refl. Qed.

(** An edit that the comparator cannot see, on either side, leaves the
    report as it is. *)
Lemma compare_update_python o category name f python rust :
  (∀ td, get_category python category !! name = Some td → td_equiv (f td) td) →
  compare o (update_type category name f python) rust = compare o python rust.
Proof.
  intros Hf. unfold compare. rewrite get_enums_update_type. f_equal.
  apply foldl_agree. intros r c _. rewrite get_category_update_type.
  case_decide as Hc; [subst c|done].
  apply compare_models_equiv; intros n.
  - by apply alter_equiv.
  - apply option_Forall2_td_equiv_refl.
Qed.

Lemma compare_update_rust o category name f python rust :
  (∀ td, get_category rust category !! name = Some td → td_equiv (f td) td) →
  compare o python (update_type category name f rust) = compare o python rust.
Proof.
  intros Hf. unfold compare. rewrite get_enums_update_type. f_equal.
  apply foldl_agree. intros r c _. rewrite get_category_update_type.
  case_decide as Hc; [subst c|done].
  apply compare_models_equiv; intros n.
  - apply option_Forall2_td_equiv_refl.
  - by apply alter_equiv.
Qed.

(** C2. Ignore set: putting a field of the ignore set into a type definition,
    or removing one from it, on either side, leaves the report unchanged,
    in its three collections and as rendered. *)
Theorem ignored_field_never_changes_report (o : SetOrder) (python rust : Snapshot)
    (category name fld : string) (schema : FieldSchema) :
  fld ∈ ignore_fields →
  compare o (update_type category name (put_field fld schema) python) rust
    = compare o python rust
  ∧ compare o (update_type category name (drop_field fld) python) rust
    = compare o python rust
  ∧ compare o python (update_type category name (put_field fld schema) rust)
    = compare o python rust
  ∧ compare o python (update_type category name (drop_field fld) rust)
    = compare o python rust.
Proof.
  intros Hi. repeat split.
  - apply compare_update_python. intros. by apply td_equiv_put_ignored.
  - apply compare_update_python. intros. by apply td_equiv_drop_ignored.
  - apply compare_update_rust. intros. by apply td_equiv_put_ignored.
  - apply compare_update_rust. intros. by apply td_equiv_drop_ignored.
Qed.

(** ** Type mismatches of a type that both sides define *)

Lemma expected_mismatch_Some cat name (pp rp : gmap string FieldSchema) fld e :
  expected_mismatch cat name pp rp fld = Some e
  ↔ ∃ a b, pp !! fld ≫= type_tag = Some a ∧ rp !! fld ≫= type_tag = Some b
           ∧ a ≠ EmptyString ∧ b ≠ EmptyString ∧ a ≠ b
           ∧ e = mismatch_text cat name fld a b.
Proof.
  unfold expected_mismatch.
  destruct (pp !! fld ≫= type_tag) as [a|], (rp !! fld ≫= type_tag) as [b|];
    try (split; [done|by intros (?&?&?&?&?)]).
  case_decide as H; split.
  - intros [= <-]. exists a, b. tauto.
  - intros (?&?&[= <-]&[= <-]&?&?&?&->). done.
  - done.
  - intros (?&?&[= <-]&[= <-]&?&?&?&->). tauto.
Qed.

Lemma check_field_expected cat name (pp rp : gmap string FieldSchema) r fld :
  check_field cat name pp rp r fld
  = match expected_mismatch cat name pp rp fld with
    | Some e => append_type_mismatch e r
    | None => r
    end.
Proof.
  unfold expected_mismatch.
  destruct (pp !! fld ≫= type_tag) as [a|] eqn:Ea.
  - destruct (rp !! fld ≫= type_tag) as [b|] eqn:Eb.
    + destruct (pp !! fld) as [[t]|] eqn:Ep; simplify_eq/=.
      destruct (rp !! fld) as [[u]|] eqn:Er; simplify_eq/=.
      case_decide as H.
      * apply check_field_mismatch; tauto.
      * destruct (decide (a = EmptyString)) as [->|].
        { apply check_field_falsy_python. by rewrite Ep. }
        destruct (decide (b = EmptyString)) as [->|].
        { apply check_field_falsy_rust. by rewrite Er. }
        apply check_field_same_tag. rewrite Ep, Er. simpl. f_equal.
        destruct (decide (a = b)); tauto.
    + apply check_field_falsy_rust. by rewrite Eb.
  - apply check_field_falsy_python. by rewrite Ea.
Qed.

Lemma foldl_check_field cat name (pp rp : gmap string FieldSchema) r l :
  foldl (check_field cat name pp rp) r l
  = {| missing_in_rust := missing_in_rust r;
       missing_in_python := missing_in_python r;
       type_mismatches :=
         type_mismatches r ++ omap (expected_mismatch cat name pp rp) l |}.
Proof.
  revert r. induction l as [|fld l IH]; intros r; simpl.
  - rewrite app_nil_r. by destruct r.
  - rewrite IH, check_field_expected.
    destruct (expected_mismatch cat name pp rp fld); simpl; [|done].
    by rewrite <-app_assoc.
Qed.

(** C3, as the code has it. For a type that both sides define, the inner
    loop appends, for the common fields in sorted order, one entry for each
    field whose two tags are there, are not empty and are not the same string,
    and nothing for the other fields. *)
Theorem type_mismatch_iff_nonempty_tags_differ (o : SetOrder) (category : string)
    (python_models rust_models : gmap string TypeDefinition)
    (py_model rs_model : TypeDefinition) (report : DriftReport) (name fld : string) :
  python_models !! name = Some py_model →
  rust_models !! name = Some rs_model →
  fld ∈ (dom (get_properties py_model) ∖ ignore_fields)
        ∩ (dom (get_properties rs_model) ∖ ignore_fields) →
  let py_props := get_properties py_model in
  let rs_props := get_properties rs_model in
  let common := (dom py_props ∖ ignore_fields) ∩ (dom rs_props ∖ ignore_fields) in
  type_mismatches (compare_models_step o category python_models rust_models report name)
  = type_mismatches report
    ++ omap (expected_mismatch category name py_props rs_props) (py_sorted_set o common)
  ∧ fld ∈ py_sorted_set o common
  ∧ (∀ r,
       (∃ a b, py_props !! fld ≫= type_tag = Some a ∧ rs_props !! fld ≫= type_tag = Some b
               ∧ a ≠ EmptyString ∧ b ≠ EmptyString ∧ a ≠ b
               ∧ check_field category name py_props rs_props r fld
                 = append_type_mismatch (mismatch_text category name fld a b) r)
       ∨ (¬ (∃ a b, py_props !! fld ≫= type_tag = Some a
                    ∧ rs_props !! fld ≫= type_tag = Some b
                    ∧ a ≠ EmptyString ∧ b ≠ EmptyString ∧ a ≠ b)
          ∧ check_field category name py_props rs_props r fld = r)).
Proof.
  intros Hp Hr Hfld py_props rs_props common. split; [|split].
  - unfold compare_models_step. rewrite Hp, Hr.
    rewrite foldl_check_field. simpl. by repeat case_match.
  - by apply elem_of_py_sorted_set.
  - intros r. rewrite check_field_expected.
    destruct (expected_mismatch category name py_props rs_props fld) as [e|] eqn:E.
    + apply expected_mismatch_Some in E as (a&b&?&?&?&?&?&->). left. by exists a, b.
    + right. split; [|done]. intros (a&b&?&?&?&?&?).
      assert (expected_mismatch category name py_props rs_props fld
              = Some (mismatch_text category name fld a b)) as E'.
      { apply expected_mismatch_Some. by exists a, b. }
      congruence.
Qed.

(** C10. An empty tag on either side of a common field: the inner loop
    appends nothing for the field, whatever the other tag, and the report is
    the one that the comparator gives when the empty tag is taken out. *)
Theorem empty_tag_is_read_as_absent (o : SetOrder) (category : string)
    (python_models rust_models : gmap string TypeDefinition)
    (py_model rs_model : TypeDefinition) (name fld : string) :
  python_models !! name = Some py_model →
  rust_models !! name = Some rs_model →
  fld ∈ (dom (get_properties py_model) ∖ ignore_fields)
        ∩ (dom (get_properties rs_model) ∖ ignore_fields) →
  let py_props := get_properties py_model in
  let rs_props := get_properties rs_model in
  let no_tag := {| type_tag := None |} in
  (py_props !! fld ≫= type_tag = Some EmptyString →
     (∀ r, check_field category name py_props rs_props r fld = r)
     ∧ ∀ r, compare_models o category
              (<[name := put_field fld no_tag py_model]> python_models) rust_models r
            = compare_models o category python_models rust_models r)
  ∧ (rs_props !! fld ≫= type_tag = Some EmptyString →
     (∀ r, check_field category name py_props rs_props r fld = r)
     ∧ ∀ r, compare_models o category python_models
              (<[name := put_field fld no_tag rs_model]> rust_models) r
            = compare_models o category python_models rust_models r).
Proof.
  intros Hp Hr Hfld py_props rs_props no_tag.
  assert (∀ (models : gmap string TypeDefinition) model n,
    models !! name = Some model →
    get_properties model !! fld ≫= type_tag = Some EmptyString →
    option_Forall2 td_equiv
      (<[name := put_field fld no_tag model]> models !! n) (models !! n)) as Heq.
  { intros models model n Hm Ht. destruct (decide (n = name)) as [->|Hne].
    - rewrite lookup_insert_eq, Hm. constructor.
      destruct (get_properties model !! fld) as [schema|] eqn:E; [|done].
      apply (td_equiv_put_falsy _ schema); [done| |done].
      simpl in Ht. by rewrite Ht.
    - rewrite lookup_insert_ne by done. apply option_Forall2_td_equiv_refl. }
  split; intros Ht; (split; [intros r|intros r]).
  - apply check_field_falsy_python. fold py_props. by rewrite Ht.
  - apply compare_models_equiv; intros n;
      [by apply Heq|apply option_Forall2_td_equiv_refl].
  - apply check_field_falsy_rust. fold rs_props. by rewrite Ht.
  - apply compare_models_equiv; intros n;
      [apply option_Forall2_td_equiv_refl|by apply Heq].
Qed.

(** ** The loops in closed form *)

Section apply_entries.

Context (key : string → string) `{!Inj (=) (=) key}.
Implicit Types (entry : string → option string) (m : gmap string string).

Lemma write_lookup_ne k text m j : k ≠ j → write k text m !! j = m !! j.
Proof. intros. destruct text; simpl; [by rewrite lookup_insert_ne|done]. Qed.

Lemma write_lookup_eq k text m :
  write k text m !! k = match text with Some t => Some t | None => m !! k end.
Proof. destruct text; simpl; [by rewrite lookup_insert_eq|done]. Qed.

Lemma write_insert_commute k text j v m :
  k ≠ j → write k text (<[j := v]> m) = <[j := v]> (write k text m).
Proof. intros. destruct text; simpl; [by apply insert_insert_ne|done]. Qed.

Lemma apply_entries_app entry l1 l2 m :
  apply_entries key entry (l1 ++ l2) m
  = apply_entries key entry l2 (apply_entries key entry l1 m).
Proof. apply foldl_app. Qed.

Lemma apply_entries_lookup_other entry l m k :
  (∀ n, n ∈ l → key n ≠ k) →
  apply_entries key entry l m !! k = m !! k.
Proof.
  intros H. unfold apply_entries.
  apply (foldl_invariant (λ m', m' !! k = m !! k)); [done|].
  intros m' n Hn <-. apply write_lookup_ne. by apply H.
Qed.

Lemma apply_entries_insert_commute entry l m k v :
  (∀ n, n ∈ l → key n ≠ k) →
  apply_entries key entry l (<[k := v]> m) = <[k := v]> (apply_entries key entry l m).
Proof.
  intros H. unfold apply_entries. apply (foldl_commute (insert k v)).
  intros m' n Hn. apply write_insert_commute. by apply H.
Qed.

Lemma apply_entries_agree entry entry' l m :
  (∀ n, n ∈ l → entry n = entry' n) →
  apply_entries key entry l m = apply_entries key entry' l m.
Proof.
  intros H. unfold apply_entries. apply foldl_agree. intros m' n Hn. by rewrite H.
Qed.

Lemma NoDup_split_at (l : list string) n :
  NoDup l → n ∈ l → ∃ l1 l2, l = l1 ++ (n :: l2) ∧ (n ∉ l1) ∧ (n ∉ l2).
Proof.
  intros Hnd (l1 & l2 & ->)%list_elem_of_split. exists l1, l2.
  apply NoDup_app in Hnd as (_ & H1 & H2%NoDup_cons).
  split; [done|]. split; [|tauto]. intros Hn. apply (H1 n Hn). by left.
Qed.

Lemma apply_entries_lookup_own entry l m n :
  NoDup l → n ∈ l →
  apply_entries key entry l m !! key n
  = match entry n with Some t => Some t | None => m !! key n end.
Proof.
  intros Hnd Hn. destruct (NoDup_split_at l n Hnd Hn) as (l1 & l2 & -> & H1 & H2).
  rewrite apply_entries_app. change (n :: l2) with ([n] ++ l2).
  rewrite apply_entries_app, apply_entries_lookup_other.
  - simpl. rewrite write_lookup_eq. destruct (entry n); [done|].
    apply apply_entries_lookup_other. intros n' Hn' ?%(inj key). by subst.
  - intros n' Hn' ?%(inj key). by subst.
Qed.

(** Changing what the body assigns for one name, to some text, is the same
    as assigning that text under its key at the end. *)
Lemma apply_entries_replace entry entry' l m n t :
  NoDup l → n ∈ l → entry' n = Some t →
  (∀ n', n' ∈ l → n' ≠ n → entry' n' = entry n') →
  apply_entries key entry' l m = <[key n := t]> (apply_entries key entry l m).
Proof.
  intros Hnd Hn Ht Hother.
  destruct (NoDup_split_at l n Hnd Hn) as (l1 & l2 & -> & H1 & H2).
  rewrite !apply_entries_app. change (n :: l2) with ([n] ++ l2).
  rewrite !apply_entries_app.
  rewrite (apply_entries_agree entry' entry l1).
  2:{ intros n' Hn'. apply Hother; [set_solver|]. by intros ->. }
  rewrite (apply_entries_agree entry' entry l2).
  2:{ intros n' Hn'. apply Hother; [set_solver|]. by intros ->. }
  rewrite <-apply_entries_insert_commute.
  2:{ intros n' Hn' ?%(inj key). by subst. }
  f_equal. simpl. rewrite Ht. simpl.
  destruct (entry n); simpl; [by rewrite insert_insert_eq|done].
Qed.

End apply_entries.

Global Instance type_key_inj category : Inj (=) (=) (type_key category).
Proof. intros n n' H. unfold type_key in H. by do 2 apply (inj (String.app _)) in H. Qed.

Global Instance enum_key_inj : Inj (=) (=) enum_key.
Proof. intros n n' H. unfold enum_key in H. by apply (inj (String.app _)) in H. Qed.

Lemma compare_models_step_closed o cat pm rm r name :
  compare_models_step o cat pm rm r name
  = {| missing_in_rust :=
         write (type_key cat name) (models_rust_entry o pm rm name) (missing_in_rust r);
       missing_in_python :=
         write (type_key cat name) (models_python_entry o pm rm name) (missing_in_python r);
       type_mismatches := type_mismatches r ++ models_mismatches o cat pm rm name |}.
Proof.
  unfold compare_models_step, models_rust_entry, models_python_entry, models_mismatches,
    reduced_fields.
  destruct (rm !! name) as [rs|], (pm !! name) as [py|]; simpl;
    rewrite ?app_nil_r; try done.
  rewrite foldl_check_field. by repeat case_match.
Qed.

Lemma compare_enums_step_closed o pe re r name :
  compare_enums_step o pe re r name
  = {| missing_in_rust :=
         write (enum_key name) (enums_rust_entry o pe re name) (missing_in_rust r);
       missing_in_python :=
         write (enum_key name) (enums_python_entry o pe re name) (missing_in_python r);
       type_mismatches := type_mismatches r |}.
Proof.
  unfold compare_enums_step, enums_rust_entry, enums_python_entry.
  destruct (decide (name ∉ dom re)) as [Hr|Hr].
  { apply not_elem_of_dom in Hr. by rewrite Hr. }
  destruct (decide (name ∉ dom pe)) as [Hp|Hp].
  { apply not_elem_of_dom in Hp. rewrite Hp.
    destruct (re !! name) eqn:Er; [done|]. by apply not_elem_of_dom in Er. }
  destruct (re !! name) as [rs|] eqn:Er; [|by apply not_elem_of_dom in Er].
  destruct (pe !! name) as [py|] eqn:Ep; [|by apply not_elem_of_dom in Ep].
  simpl. repeat case_match; by destruct r.
Qed.

Lemma foldl_closed (step : DriftReport → string → DriftReport) (key : string → string)
    (rust_entry python_entry : string → option string) (mismatches : string → list string)
    (names : list string) (r : DriftReport) :
  (∀ r name, step r name
     = {| missing_in_rust := write (key name) (rust_entry name) (missing_in_rust r);
          missing_in_python := write (key name) (python_entry name) (missing_in_python r);
          type_mismatches := type_mismatches r ++ mismatches name |}) →
  foldl step r names
  = {| missing_in_rust := apply_entries key rust_entry names (missing_in_rust r);
       missing_in_python := apply_entries key python_entry names (missing_in_python r);
       type_mismatches := type_mismatches r ++ concat (mismatches <$> names) |}.
Proof.
  intros Hstep. revert r. induction names as [|name names IH]; intros r; simpl.
  - rewrite app_nil_r. by destruct r.
  - rewrite IH, Hstep. simpl. by rewrite <-app_assoc.
Qed.

Lemma compare_models_closed o cat pm rm r :
  let names := py_sorted_set o (dom pm ∪ dom rm) in
  compare_models o cat pm rm r
  = {| missing_in_rust :=
         apply_entries (type_key cat) (models_rust_entry o pm rm) names (missing_in_rust r);
       missing_in_python :=
         apply_entries (type_key cat) (models_python_entry o pm rm) names
           (missing_in_python r);
       type_mismatches :=
         type_mismatches r ++ concat (models_mismatches o cat pm rm <$> names) |}.
Proof.
  intros names. unfold compare_models. apply foldl_closed.
  intros. apply compare_models_step_closed.
Qed.

Lemma compare_enums_closed o pe re r :
  let names := py_sorted_set o (dom pe ∪ dom re) in
  compare_enums o pe re r
  = {| missing_in_rust :=
         apply_entries enum_key (enums_rust_entry o pe re) names (missing_in_rust r);
       missing_in_python :=
         apply_entries enum_key (enums_python_entry o pe re) names (missing_in_python r);
       type_mismatches := type_mismatches r |}.
Proof.
  intros names. unfold compare_enums.
  rewrite (foldl_closed _ enum_key (enums_rust_entry o pe re)
             (enums_python_entry o pe re) (λ _, [])).
  - fold names.
    assert (concat ((λ _ : string, @nil string) <$> names) = []) as ->
      by (induction names; simpl; done).
    by rewrite app_nil_r.
  - intros. rewrite app_nil_r. apply compare_enums_step_closed.
Qed.

(** ** Lookups after a pass *)

Lemma write_result text (old : option string) :
  match text with Some t => Some t | None => old end = from_option Some old text.
Proof. by destruct text. Qed.

Lemma compare_models_lookup o cat (pm rm : gmap string TypeDefinition) r name :
  name ∈ dom pm ∪ dom rm →
  missing_in_rust (compare_models o cat pm rm r) !! type_key cat name
  = from_option Some (missing_in_rust r !! type_key cat name)
      (models_rust_entry o pm rm name)
  ∧ missing_in_python (compare_models o cat pm rm r) !! type_key cat name
    = from_option Some (missing_in_python r !! type_key cat name)
        (models_python_entry o pm rm name).
Proof.
  intros Hn. rewrite compare_models_closed. simpl.
  rewrite !apply_entries_lookup_own, !write_result;
    auto using NoDup_py_sorted_set; try apply _; by apply elem_of_py_sorted_set.
Qed.

Lemma compare_models_lookup_other o cat (pm rm : gmap string TypeDefinition) r k :
  (∀ n, type_key cat n ≠ k) →
  missing_in_rust (compare_models o cat pm rm r) !! k = missing_in_rust r !! k
  ∧ missing_in_python (compare_models o cat pm rm r) !! k = missing_in_python r !! k.
Proof.
  intros Hk. rewrite compare_models_closed. simpl.
  by rewrite !apply_entries_lookup_other.
Qed.

Lemma compare_enums_lookup o (pe re : gmap string (list string)) r name :
  name ∈ dom pe ∪ dom re →
  missing_in_rust (compare_enums o pe re r) !! enum_key name
  = from_option Some (missing_in_rust r !! enum_key name) (enums_rust_entry o pe re name)
  ∧ missing_in_python (compare_enums o pe re r) !! enum_key name
    = from_option Some (missing_in_python r !! enum_key name)
        (enums_python_entry o pe re name).
Proof.
  intros Hn. rewrite compare_enums_closed. simpl.
  rewrite !apply_entries_lookup_own, !write_result;
    auto using NoDup_py_sorted_set; try apply _; by apply elem_of_py_sorted_set.
Qed.

Lemma compare_enums_lookup_other o (pe re : gmap string (list string)) r k :
  (∀ n, enum_key n ≠ k) →
  missing_in_rust (compare_enums o pe re r) !! k = missing_in_rust r !! k
  ∧ missing_in_python (compare_enums o pe re r) !! k = missing_in_python r !! k.
Proof.
  intros Hk. rewrite compare_enums_closed. simpl.
  by rewrite !apply_entries_lookup_other.
Qed.

(** ** The whole comparison *)

Lemma compare_unfold o python rust :
  compare o python rust
  = compare_enums o (get_enums python) (get_enums rust)
      (compare_models o "com" (get_category python "com") (get_category rust "com")
         (compare_models o "bo" (get_category python "bo") (get_category rust "bo")
            new_report)).
Proof. reflexivity. Qed.

(** The keys of the three passes do not meet. *)
Lemma type_key_bo_com n n' : type_key "bo" n ≠ type_key "com" n'.
Proof. cbv [type_key String.append]. discriminate. Qed.

Lemma type_key_com_bo n n' : type_key "com" n ≠ type_key "bo" n'.
Proof. cbv [type_key String.append]. discriminate. Qed.

Lemma enum_key_bo n n' : enum_key n ≠ type_key "bo" n'.
Proof. cbv [type_key enum_key String.append]. discriminate. Qed.

Lemma enum_key_com n n' : enum_key n ≠ type_key "com" n'.
Proof. cbv [type_key enum_key String.append]. discriminate. Qed.

Lemma in_categories (category : string) :
  category ∈ ["bo"; "com"] ↔ category = "bo" ∨ category = "com".
Proof. set_solver. Qed.

(** The entry of a type in the final report is the one that the pass over
    its category assigns. *)
Lemma compare_missing_in_rust_type o python rust category name :
  category ∈ ["bo"; "com"] →
  name ∈ dom (get_category python category) ∪ dom (get_category rust category) →
  missing_in_rust (compare o python rust) !! type_key category name
  = models_rust_entry o (get_category python category) (get_category rust category) name.
Proof.
  intros [->| ->]%in_categories Hn; rewrite compare_unfold.
  - rewrite (proj1 (compare_enums_lookup_other _ _ _ _ _ (λ n, enum_key_bo n name))).
    rewrite (proj1 (compare_models_lookup_other _ _ _ _ _ _ (λ n, type_key_com_bo n name))).
    rewrite (proj1 (compare_models_lookup _ _ _ _ _ _ Hn)).
    by destruct (models_rust_entry _ _ _ _).
  - rewrite (proj1 (compare_enums_lookup_other _ _ _ _ _ (λ n, enum_key_com n name))).
    rewrite (proj1 (compare_models_lookup _ _ _ _ _ _ Hn)).
    destruct (models_rust_entry _ _ _ _); simpl; [done|].
    by rewrite (proj1 (compare_models_lookup_other _ _ _ _ _ _
                         (λ n, type_key_bo_com n name))).
Qed.

(** ** Types and enums that one side lacks *)

Lemma models_entries_only_python o (pm rm : gmap string TypeDefinition) name :
  name ∈ dom pm → name ∉ dom rm →
  models_rust_entry o pm rm name = Some entire_type
  ∧ models_python_entry o pm rm name = None.
Proof.
  intros _ Hr%not_elem_of_dom. unfold models_rust_entry, models_python_entry.
  by rewrite Hr.
Qed.

Lemma models_entries_only_rust o (pm rm : gmap string TypeDefinition) name :
  name ∉ dom pm → name ∈ dom rm →
  models_rust_entry o pm rm name = None
  ∧ models_python_entry o pm rm name = Some entire_type.
Proof.
  intros Hp%not_elem_of_dom [rs Hr]%elem_of_dom.
  unfold models_rust_entry, models_python_entry. by rewrite Hr, Hp.
Qed.

Lemma enums_entries_only_python o (pe re : gmap string (list string)) name :
  name ∈ dom pe → name ∉ dom re →
  enums_rust_entry o pe re name = Some entire_type
  ∧ enums_python_entry o pe re name = None.
Proof.
  intros _ Hr%not_elem_of_dom. unfold enums_rust_entry, enums_python_entry.
  by rewrite Hr.
Qed.

Lemma enums_entries_only_rust o (pe re : gmap string (list string)) name :
  name ∉ dom pe → name ∈ dom re →
  enums_rust_entry o pe re name = None
  ∧ enums_python_entry o pe re name = Some entire_type.
Proof.
  intros Hp%not_elem_of_dom [rs Hr]%elem_of_dom.
  unfold enums_rust_entry, enums_python_entry. by rewrite Hr, Hp.
Qed.

(** C1, as the code has it. The first argument of [compare_models] and of
    [compare_enums] is the Python side (A), the second the Rust side (B);
    [missing_in_rust] is missing-in-B and [missing_in_python] is missing-in-A.
    A type or an enum that only A has is recorded under [missing_in_rust] as
    "entire type", and one that only B has under [missing_in_python]. The loop
    body does nothing else for such a name: no field is compared, and the
    other dictionary keeps what it had under the key. *)
Theorem one_sided_name_is_entire_type (o : SetOrder) (category : string)
    (python_models rust_models : gmap string TypeDefinition)
    (python_enums rust_enums : gmap string (list string)) (name : string) :
  (name ∈ dom python_models → name ∉ dom rust_models → ∀ r,
     compare_models_step o category python_models rust_models r name
     = set_missing_in_rust (type_key category name) entire_type r
     ∧ missing_in_rust (compare_models o category python_models rust_models r)
         !! type_key category name = Some entire_type
     ∧ missing_in_python (compare_models o category python_models rust_models r)
         !! type_key category name = missing_in_python r !! type_key category name)
  ∧ (name ∉ dom python_models → name ∈ dom rust_models → ∀ r,
     compare_models_step o category python_models rust_models r name
     = set_missing_in_python (type_key category name) entire_type r
     ∧ missing_in_python (compare_models o category python_models rust_models r)
         !! type_key category name = Some entire_type
     ∧ missing_in_rust (compare_models o category python_models rust_models r)
         !! type_key category name = missing_in_rust r !! type_key category name)
  ∧ (name ∈ dom python_enums → name ∉ dom rust_enums → ∀ r,
     compare_enums_step o python_enums rust_enums r name
     = set_missing_in_rust (enum_key name) entire_type r
     ∧ missing_in_rust (compare_enums o python_enums rust_enums r)
         !! enum_key name = Some entire_type
     ∧ missing_in_python (compare_enums o python_enums rust_enums r)
         !! enum_key name = missing_in_python r !! enum_key name)
  ∧ (name ∉ dom python_enums → name ∈ dom rust_enums → ∀ r,
     compare_enums_step o python_enums rust_enums r name
     = set_missing_in_python (enum_key name) entire_type r
     ∧ missing_in_python (compare_enums o python_enums rust_enums r)
         !! enum_key name = Some entire_type
     ∧ missing_in_rust (compare_enums o python_enums rust_enums r)
         !! enum_key name = missing_in_rust r !! enum_key name).
Proof.
  repeat apply conj.
  - intros Hp Hr r.
    destruct (models_entries_only_python o _ _ name Hp Hr) as [E1 E2].
    destruct (compare_models_lookup o category python_models rust_models r name)
      as [L1 L2]; [set_solver|].
    rewrite L1, L2, E1, E2. split; [|done].
    unfold compare_models_step. by rewrite (proj1 (not_elem_of_dom _ _) Hr).
  - intros Hp Hr r.
    destruct (models_entries_only_rust o _ _ name Hp Hr) as [E1 E2].
    destruct (compare_models_lookup o category python_models rust_models r name)
      as [L1 L2]; [set_solver|].
    rewrite L1, L2, E1, E2. split; [|done].
    unfold compare_models_step. apply elem_of_dom in Hr as [rs Hr].
    by rewrite Hr, (proj1 (not_elem_of_dom _ _) Hp).
  - intros Hp Hr r.
    destruct (enums_entries_only_python o _ _ name Hp Hr) as [E1 E2].
    destruct (compare_enums_lookup o python_enums rust_enums r name)
      as [L1 L2]; [set_solver|].
    rewrite L1, L2, E1, E2. split; [|done].
    unfold compare_enums_step. by rewrite decide_True.
  - intros Hp Hr r.
    destruct (enums_entries_only_rust o _ _ name Hp Hr) as [E1 E2].
    destruct (compare_enums_lookup o python_enums rust_enums r name)
      as [L1 L2]; [set_solver|].
    rewrite L1, L2, E1, E2. split; [|done].
    unfold compare_enums_step. rewrite decide_False, decide_True; [done..|].
    by intros H.
Qed.

Lemma one_sided_name_is_entire_type_witness :
  missing_in_rust
    (compare_models default_order "com" {[ "Adresse" := adresse ]} ∅ new_report)
    !! type_key "com" "Adresse" = Some entire_type
  ∧ missing_in_python
      (compare_enums default_order ∅ {[ "Netzebene" := ["NSP"] ]} new_report)
      !! enum_key "Netzebene" = Some entire_type.
Proof.
  split.
  - apply (one_sided_name_is_entire_type default_order "com"
             {[ "Adresse" := adresse ]} ∅ ∅ ∅ "Adresse"); by_evaluation.
  - apply (one_sided_name_is_entire_type default_order "com"
             ∅ ∅ ∅ {[ "Netzebene" := ["NSP"] ]} "Netzebene"); by_evaluation.
Defined.

(** C1, as stated, fails: a type and an enum that only the second snapshot
    (B, the Rust side) has are not recorded under missing-in-B; they are
    recorded under missing-in-A. *)
Lemma only_in_rust_is_not_missing_in_rust :
  missing_in_rust
    (compare_models default_order "com" ∅ {[ "Adresse" := adresse ]} new_report)
  = ∅
  ∧ missing_in_python
      (compare_models default_order "com" ∅ {[ "Adresse" := adresse ]} new_report)
    = {[ "com/Adresse" := "entire type" ]}
  ∧ missing_in_rust
      (compare_enums default_order ∅ {[ "Netzebene" := ["NSP"] ]} new_report)
    = ∅
  ∧ missing_in_python
      (compare_enums default_order ∅ {[ "Netzebene" := ["NSP"] ]} new_report)
    = {[ "enum/Netzebene" := "entire type" ]}.
Proof. repeat split; by_evaluation. Qed.

(** ** Exchanging the two snapshots *)

Lemma expected_mismatch_line cat name (pp rp : gmap string FieldSchema) fld :
  expected_mismatch cat name pp rp fld = mismatch_line <$> tag_mismatch cat name pp rp fld.
Proof.
  unfold expected_mismatch, tag_mismatch.
  destruct (pp !! fld ≫= type_tag), (rp !! fld ≫= type_tag); try done.
  by case_decide.
Qed.

Lemma tag_mismatch_swap cat name (pp rp : gmap string FieldSchema) fld :
  tag_mismatch cat name rp pp fld = swap_sides <$> tag_mismatch cat name pp rp fld.
Proof.
  unfold tag_mismatch.
  destruct (pp !! fld ≫= type_tag) as [a|], (rp !! fld ≫= type_tag) as [b|]; try done.
  destruct (decide (a ≠ EmptyString ∧ b ≠ EmptyString ∧ a ≠ b)) as [H|H].
  - rewrite decide_True; [done|]. destruct H as (?&?&?). auto.
  - rewrite decide_False; [done|]. intros (?&?&?). apply H. auto.
Qed.

Lemma omap_fmap_option {A B C} (f : A → option B) (g : B → C) (l : list A) :
  omap (λ x, g <$> f x) l = g <$> omap f l.
Proof.
  induction l as [|x l IH]; [done|]. cbn. destruct (f x); cbn; by rewrite IH.
Qed.

Lemma omap_agree {A B} (f g : A → option B) (l : list A) :
  (∀ x, x ∈ l → f x = g x) → omap f l = omap g l.
Proof.
  induction l as [|x l IH]; [done|]. intros H. cbn.
  rewrite (H x) by left. rewrite IH; [done|]. intros y Hy. apply H. by right.
Qed.

Lemma concat_fmap_fmap {A B C} (f : A → list B) (g : B → C) (l : list A) :
  concat ((λ x, g <$> f x) <$> l) = g <$> concat (f <$> l).
Proof.
  induction l as [|x l IH]; [done|].
  by rewrite !fmap_cons, !concat_cons, fmap_app, IH.
Qed.

Lemma models_mismatches_lines o cat (pm rm : gmap string TypeDefinition) name :
  models_mismatches o cat pm rm name = mismatch_line <$> type_mismatch_list o cat pm rm name.
Proof.
  unfold models_mismatches, type_mismatch_list.
  destruct (rm !! name), (pm !! name); try done.
  rewrite <-omap_fmap_option. apply omap_agree. intros. apply expected_mismatch_line.
Qed.

Lemma models_mismatches_swap o cat (pm rm : gmap string TypeDefinition) name :
  models_mismatches o cat rm pm name
  = mismatch_line ∘ swap_sides <$> type_mismatch_list o cat pm rm name.
Proof.
  rewrite models_mismatches_lines. unfold type_mismatch_list.
  destruct (rm !! name), (pm !! name); try done.
  rewrite list_fmap_compose. f_equal. rewrite <-omap_fmap_option.
  rewrite (comm_L (∩)). apply omap_agree. intros. apply tag_mismatch_swap.
Qed.

Lemma models_entries_swap o (pm rm : gmap string TypeDefinition) name :
  name ∈ dom pm ∪ dom rm →
  models_rust_entry o rm pm name = models_python_entry o pm rm name
  ∧ models_python_entry o rm pm name = models_rust_entry o pm rm name.
Proof.
  rewrite elem_of_union, !elem_of_dom.
  unfold models_rust_entry, models_python_entry.
  destruct (pm !! name), (rm !! name); try done. intros [[? [=]]|[? [=]]].
Qed.

Lemma enums_entries_swap o (pe re : gmap string (list string)) name :
  name ∈ dom pe ∪ dom re →
  enums_rust_entry o re pe name = enums_python_entry o pe re name
  ∧ enums_python_entry o re pe name = enums_rust_entry o pe re name.
Proof.
  rewrite elem_of_union, !elem_of_dom.
  unfold enums_rust_entry, enums_python_entry.
  destruct (pe !! name), (re !! name); try done. intros [[? [=]]|[? [=]]].
Qed.

Lemma compare_models_mirrored o cat (pm rm : gmap string TypeDefinition) r r' :
  mirrored r r' →
  mirrored (compare_models o cat pm rm r) (compare_models o cat rm pm r').
Proof.
  intros (Hr & Hp & l & Hl & Hl'). rewrite !compare_models_closed. simpl.
  rewrite (comm_L (∪) (dom rm)). split; [|split].
  - simpl. rewrite Hr. apply apply_entries_agree. intros n Hn.
    apply models_entries_swap. by apply elem_of_py_sorted_set in Hn.
  - simpl. rewrite Hp. apply apply_entries_agree. intros n Hn.
    apply models_entries_swap. by apply elem_of_py_sorted_set in Hn.
  - exists (l ++ category_mismatch_list o cat pm rm). simpl.
    rewrite !fmap_app, Hl, Hl'. unfold category_mismatch_list.
    rewrite <-!concat_fmap_fmap. split; f_equal; f_equal; apply list_fmap_ext; intros.
    + apply models_mismatches_lines.
    + apply models_mismatches_swap.
Qed.

Lemma compare_enums_mirrored o (pe re : gmap string (list string)) r r' :
  mirrored r r' →
  mirrored (compare_enums o pe re r) (compare_enums o re pe r').
Proof.
  intros (Hr & Hp & Hl). rewrite !compare_enums_closed. simpl.
  rewrite (comm_L (∪) (dom re)). split; [|split]; [| |done].
  - simpl. rewrite Hr. apply apply_entries_agree. intros n Hn.
    apply enums_entries_swap. by apply elem_of_py_sorted_set in Hn.
  - simpl. rewrite Hp. apply apply_entries_agree. intros n Hn.
    apply enums_entries_swap. by apply elem_of_py_sorted_set in Hn.
Qed.

(** C4. Symmetry: comparing in the other direction exchanges the two
    dictionaries of missing names, and gives the same type mismatches, in the
    same order, with the values of the two sides exchanged in each line. *)
Theorem compare_exchanged (o : SetOrder) (python rust : Snapshot) :
  missing_in_rust (compare o rust python) = missing_in_python (compare o python rust)
  ∧ missing_in_python (compare o rust python) = missing_in_rust (compare o python rust)
  ∧ ∃ l : list Mismatch,
      type_mismatches (compare o python rust) = mismatch_line <$> l
      ∧ type_mismatches (compare o rust python) = mismatch_line ∘ swap_sides <$> l.
Proof.
  change (mirrored (compare o python rust) (compare o rust python)).
  rewrite !compare_unfold.
  apply compare_enums_mirrored. do 2 apply compare_models_mirrored.
  repeat split. by exists [].
Qed.

(** ** A new field on the Python side *)

Lemma set_missing_in_rust_closed k v r :
  set_missing_in_rust k v r
  = {| missing_in_rust := <[k := v]> (missing_in_rust r);
       missing_in_python := missing_in_python r;
       type_mismatches := type_mismatches r |}.
Proof. done. Qed.

(** A pass whose keys are all different from [k] does not undo, and is not
    changed by, an assignment under [k]. *)
Lemma compare_models_set_missing_in_rust o cat (pm rm : gmap string TypeDefinition) r k v :
  (∀ n, type_key cat n ≠ k) →
  compare_models o cat pm rm (set_missing_in_rust k v r)
  = set_missing_in_rust k v (compare_models o cat pm rm r).
Proof.
  intros Hk. rewrite !compare_models_closed, set_missing_in_rust_closed. simpl.
  by rewrite apply_entries_insert_commute.
Qed.

Lemma compare_enums_set_missing_in_rust o (pe re : gmap string (list string)) r k v :
  (∀ n, enum_key n ≠ k) →
  compare_enums o pe re (set_missing_in_rust k v r)
  = set_missing_in_rust k v (compare_enums o pe re r).
Proof.
  intros Hk. rewrite !compare_enums_closed, set_missing_in_rust_closed. simpl.
  by rewrite apply_entries_insert_commute.
Qed.

(** A new field of a type that the Rust side lacks: the pass reads nothing
    of the definition on the Python side. *)
Lemma compare_models_alter_absent o cat (f : TypeDefinition → TypeDefinition) name
    (pm rm : gmap string TypeDefinition) r :
  rm !! name = None →
  compare_models o cat (alter f name pm) rm r = compare_models o cat pm rm r.
Proof.
  intros Hrm. unfold compare_models. rewrite dom_alter_L.
  apply foldl_agree. intros r' n _. unfold compare_models_step.
  destruct (decide (n = name)) as [->|Hne].
  - by rewrite Hrm.
  - by rewrite lookup_alter_ne.
Qed.

Lemma compare_update_python_absent o category name f python rust :
  get_category rust category !! name = None →
  compare o (update_type category name f python) rust = compare o python rust.
Proof.
  intros Hrm. unfold compare. rewrite get_enums_update_type. f_equal.
  apply foldl_agree. intros r c _. rewrite get_category_update_type.
  case_decide as Hc; [subst c|done].
  by apply compare_models_alter_absent.
Qed.

(** The text of a list grows with the list: a list with one more element
    has a longer text, whatever the order of its elements. *)
Lemma string_length_app (s1 s2 : string) :
  String.length (s1 +:+ s2) = String.length s1 + String.length s2.
Proof. induction s1 as [|c s1 IH]; simpl; [done|]. by rewrite IH. Qed.

Lemma length_py_join_repr x l :
  String.length (py_join ", " (py_repr_str <$> (x :: l))) + 2
  = sum_list_with (λ s, String.length (py_repr_str s) + 2) (x :: l).
Proof.
  revert x. induction l as [|y l IH]; intros x.
  - simpl. lia.
  - rewrite fmap_cons.
    change (py_join ", " (py_repr_str x :: (py_repr_str <$> (y :: l))))
      with (py_repr_str x +:+ ", " +:+ py_join ", " (py_repr_str <$> (y :: l))).
    rewrite !string_length_app.
    change (sum_list_with (λ s, String.length (py_repr_str s) + 2) (x :: y :: l))
      with (String.length (py_repr_str x) + 2
            + sum_list_with (λ s, String.length (py_repr_str s) + 2) (y :: l)).
    rewrite <-IH. simpl. lia.
Qed.

Lemma length_py_repr_list l :
  String.length (py_repr_list l)
  = match l with
    | [] => 2
    | _ :: _ => sum_list_with (λ s, String.length (py_repr_str s) + 2) l
    end.
Proof.
  destruct l as [|x l]; [done|].
  rewrite <-length_py_join_repr. unfold py_repr_list.
  rewrite !string_length_app. simpl. lia.
Qed.

Lemma py_repr_list_longer x l l' :
  l' ≡ₚ x :: l → String.length (py_repr_list l) < String.length (py_repr_list l').
Proof.
  intros Hp. rewrite !length_py_repr_list.
  destruct l' as [|y l'']; [by apply Permutation_nil_cons in Hp|].
  rewrite Hp.
  change (sum_list_with (λ s, String.length (py_repr_str s) + 2) (x :: l))
    with (String.length (py_repr_str x) + 2
          + sum_list_with (λ s, String.length (py_repr_str s) + 2) l).
  destruct l; simpl; lia.
Qed.

Lemma fields_text_new_field o (X : gset string) fld :
  fld ∉ X →
  fields_text (py_sorted_set o (X ∪ {[fld]})) ≠ fields_text (py_sorted_set o X).
Proof.
  intros Hfld Heq. apply (f_equal String.length) in Heq.
  unfold fields_text in Heq. rewrite !string_length_app in Heq.
  assert (py_sorted_set o (X ∪ {[fld]}) ≡ₚ fld :: py_sorted_set o X) as Hp.
  { rewrite !py_sorted_set_Permutation, (comm_L (∪)).
    by apply elements_union_singleton. }
  apply py_repr_list_longer in Hp. lia.
Qed.

Section new_field.

Context (o : SetOrder) (category name fld : string) (schema : FieldSchema).
Context (pm rm : gmap string TypeDefinition) (py_model rs_model : TypeDefinition).
Context (Hpy : pm !! name = Some py_model) (Hrs : rm !! name = Some rs_model).
Context (Hignore : fld ∉ ignore_fields).
Context (Hnew : fld ∉ dom (get_properties py_model)).
Context (Hrust : fld ∉ dom (get_properties rs_model)).

Let pm' := alter (put_field fld schema) name pm.
Let missing := reduced_fields py_model ∖ reduced_fields rs_model.

Lemma reduced_fields_put_field :
  reduced_fields (put_field fld schema py_model) = reduced_fields py_model ∪ {[fld]}.
Proof.
  unfold reduced_fields. rewrite get_properties_put_field, dom_insert_L. set_solver.
Qed.

Lemma new_field_rust_entry :
  models_rust_entry o pm' rm name
  = Some (fields_text (py_sorted_set o (missing ∪ {[fld]}))).
Proof.
  unfold models_rust_entry, pm'. rewrite Hrs, lookup_alter_eq, Hpy. simpl.
  rewrite reduced_fields_put_field.
  assert ((reduced_fields py_model ∪ {[fld]}) ∖ reduced_fields rs_model
          = missing ∪ {[fld]}) as ->.
  { unfold missing, reduced_fields. set_solver. }
  rewrite (proj2 (truthy_set_true _)); [done|]. set_solver.
Qed.

Lemma new_field_python_entry n :
  models_python_entry o pm' rm n = models_python_entry o pm rm n.
Proof.
  unfold models_python_entry, pm'. destruct (decide (n = name)) as [->|Hne].
  - rewrite Hrs, lookup_alter_eq, Hpy. simpl. rewrite reduced_fields_put_field.
    assert (reduced_fields rs_model ∖ (reduced_fields py_model ∪ {[fld]})
            = reduced_fields rs_model ∖ reduced_fields py_model) as ->; [|done].
    unfold reduced_fields. set_solver.
  - by rewrite lookup_alter_ne.
Qed.

Lemma new_field_rust_entry_other n :
  n ≠ name → models_rust_entry o pm' rm n = models_rust_entry o pm rm n.
Proof. intros Hne. unfold models_rust_entry, pm'. by rewrite lookup_alter_ne. Qed.

Lemma new_field_mismatches n :
  models_mismatches o category pm' rm n = models_mismatches o category pm rm n.
Proof.
  unfold models_mismatches, pm'. destruct (decide (n = name)) as [->|Hne].
  - rewrite Hrs, lookup_alter_eq, Hpy. simpl. rewrite reduced_fields_put_field.
    assert ((reduced_fields py_model ∪ {[fld]}) ∩ reduced_fields rs_model
            = reduced_fields py_model ∩ reduced_fields rs_model) as ->.
    { unfold reduced_fields. set_solver. }
    apply omap_agree. intros f Hf%elem_of_py_sorted_set.
    unfold expected_mismatch. rewrite get_properties_put_field, lookup_insert_ne; [done|].
    intros <-. unfold reduced_fields in Hf. set_solver.
  - by rewrite lookup_alter_ne.
Qed.

Lemma compare_models_new_field r :
  compare_models o category pm' rm r
  = set_missing_in_rust (type_key category name)
      (fields_text (py_sorted_set o (missing ∪ {[fld]})))
      (compare_models o category pm rm r).
Proof.
  rewrite !compare_models_closed, set_missing_in_rust_closed. simpl.
  assert (dom pm' = dom pm) as -> by apply dom_alter_L.
  f_equal.
  - apply apply_entries_replace.
    + apply _.
    + apply NoDup_py_sorted_set.
    + apply elem_of_py_sorted_set, elem_of_union_l, elem_of_dom. eauto.
    + apply new_field_rust_entry.
    + intros n _ Hne. by apply new_field_rust_entry_other.
  - apply apply_entries_agree. intros. apply new_field_python_entry.
  - f_equal. f_equal. apply list_fmap_ext. intros. apply new_field_mismatches.
Qed.

Lemma new_field_length :
  length (py_sorted_set o (missing ∪ {[fld]})) = S (length (py_sorted_set o missing)).
Proof.
  rewrite !py_sorted_set_Permutation.
  change (size (missing ∪ {[fld]}) = S (size missing)).
  rewrite size_union, size_singleton; [lia|].
  unfold missing, reduced_fields. set_solver.
Qed.

End new_field.

(** C8, as the code has it. Monotonic findings: when a type is defined on
    both sides, in a category that is compared, a new field of the Python side
    that is not in the ignore set and that the Rust side does not have gives
    the same report but for the entry of the type under [missing_in_rust]:
    the entry is no longer what it was, it lists the fields that it listed,
    and the new one, and it is new when no field was missing before. Nothing
    else changes in any of the three collections. A new field of the ignore
    set, and a new field of a type that the Rust side lacks, leave the report
    as it is, whatever the two snapshots. *)
Theorem new_field_extends_missing_in_rust (o : SetOrder) (python rust : Snapshot)
    (category name fld : string) (schema : FieldSchema) :
  let before := compare o python rust in
  let after := compare o (update_type category name (put_field fld schema) python) rust in
  (fld ∈ ignore_fields → after = before)
  ∧ (get_category rust category !! name = None → after = before)
  ∧ (∀ py_model rs_model : TypeDefinition,
       category ∈ ["bo"; "com"] →
       get_category python category !! name = Some py_model →
       get_category rust category !! name = Some rs_model →
       fld ∉ ignore_fields →
       fld ∉ dom (get_properties py_model) →
       fld ∉ dom (get_properties rs_model) →
       let missing := reduced_fields py_model ∖ reduced_fields rs_model in
       after = set_missing_in_rust (type_key category name)
                 (fields_text (py_sorted_set o (missing ∪ {[fld]}))) before
       ∧ missing_in_rust before !! type_key category name
         = (if decide (missing = ∅) then None
            else Some (fields_text (py_sorted_set o missing)))
       ∧ missing_in_rust after !! type_key category name
         = Some (fields_text (py_sorted_set o (missing ∪ {[fld]})))
       ∧ missing_in_rust after !! type_key category name
         ≠ missing_in_rust before !! type_key category name
       ∧ length (py_sorted_set o (missing ∪ {[fld]})) = S (length (py_sorted_set o missing))
       ∧ (∀ f, f ∈ py_sorted_set o missing → f ∈ py_sorted_set o (missing ∪ {[fld]}))
       ∧ (∀ k, k ≠ type_key category name →
               missing_in_rust after !! k = missing_in_rust before !! k)
       ∧ missing_in_python after = missing_in_python before
       ∧ type_mismatches after = type_mismatches before).
Proof.
  intros before after. split; [|split].
  { intros Hi. apply compare_update_python. intros. by apply td_equiv_put_ignored. }
  { intros Hrm. by apply compare_update_python_absent. }
  intros py_model rs_model Hc Hpy Hrs Hi Hnew Hrust missing.
  assert (after = set_missing_in_rust (type_key category name)
            (fields_text (py_sorted_set o (missing ∪ {[fld]}))) before) as Hafter.
  { unfold after, before. rewrite !compare_unfold, !get_category_update_type.
    simpl. apply in_categories in Hc as [->| ->].
    - rewrite (decide_True (P := "bo" = "bo")), (decide_False (P := "com" = "bo")) by done.
      rewrite (compare_models_new_field o "bo" name fld schema _ _ py_model rs_model)
        by done.
      rewrite compare_models_set_missing_in_rust
        by (intros n; apply type_key_com_bo).
      rewrite compare_enums_set_missing_in_rust; [done|].
      intros n. apply enum_key_bo.
    - rewrite (decide_True (P := "com" = "com")), (decide_False (P := "bo" = "com")) by done.
      rewrite (compare_models_new_field o "com" name fld schema _ _ py_model rs_model)
        by done.
      rewrite compare_enums_set_missing_in_rust; [done|].
      intros n. apply enum_key_com. }
  assert (missing_in_rust before !! type_key category name
          = (if decide (missing = ∅) then None
             else Some (fields_text (py_sorted_set o missing)))) as Hbefore.
  { unfold before. rewrite compare_missing_in_rust_type.
    + unfold models_rust_entry. rewrite Hrs, Hpy. simpl. fold missing.
      unfold truthy_set. case_bool_decide; case_decide; done.
    + done.
    + apply elem_of_union_l, elem_of_dom. eauto. }
  assert (missing_in_rust after !! type_key category name
          = Some (fields_text (py_sorted_set o (missing ∪ {[fld]})))) as Hentry.
  { rewrite Hafter. simpl. by rewrite lookup_insert_eq. }
  split; [done|]. split; [done|]. split; [done|].
  split; [|split; [|split; [|split; [|split]]]].
  - rewrite Hentry, Hbefore. destruct (decide (missing = ∅)); [done|]. intros Heq.
    apply (fields_text_new_field o missing fld); [|congruence].
    unfold missing, reduced_fields. set_solver.
  - by apply (new_field_length o name fld _ _ py_model rs_model Hpy Hrs).
  - intros f. rewrite !elem_of_py_sorted_set. set_solver.
  - intros k Hk. rewrite Hafter. simpl. by rewrite lookup_insert_ne.
  - by rewrite Hafter.
  - by rewrite Hafter.
Qed.

Lemma new_field_extends_missing_in_rust_witness :
  missing_in_rust (compare default_order example_python example_rust)
    !! type_key "bo" "Zaehler" = None
  ∧ missing_in_rust
      (compare default_order
         (update_type "bo" "Zaehler" (put_field "eichung" example_schema) example_python)
         example_rust)
    !! type_key "bo" "Zaehler"
    = Some "fields: ['eichung']"
  ∧ compare default_order
      (update_type "bo" "Zaehler" (put_field "_version" example_schema) example_python)
      example_rust
    = compare default_order example_python example_rust
  ∧ compare default_order
      (update_type "com" "Adresse" (put_field "plz" example_schema) example_python)
      example_rust
    = compare default_order example_python example_rust.
Proof.
  split; [|split; [|split]].
  - destruct (new_field_extends_missing_in_rust default_order example_python
      example_rust "bo" "Zaehler" "eichung" example_schema) as (_ & _ & H).
    destruct (H zaehler_python zaehler_rust) as (_ & Hbefore & _); [by_evaluation..|].
    rewrite Hbefore. by_evaluation.
  - destruct (new_field_extends_missing_in_rust default_order example_python
      example_rust "bo" "Zaehler" "eichung" example_schema) as (_ & _ & H).
    destruct (H zaehler_python zaehler_rust) as (_ & _ & Hentry & _); [by_evaluation..|].
    rewrite Hentry. by_evaluation.
  - destruct (new_field_extends_missing_in_rust default_order example_python
      example_rust "bo" "Zaehler" "_version" example_schema) as (H & _).
    apply H. by_evaluation.
  - destruct (new_field_extends_missing_in_rust default_order example_python
      example_rust "com" "Adresse" "plz" example_schema) as (_ & H & _).
    apply H. by_evaluation.
Defined.

(** C8, as stated, fails twice: a new field of the ignore set adds nothing,
    and neither does a new field of a type that the other side lacks, whose
    entry stays "entire type". In both cases the field does not exist on the
    other side and the report is the one from before. *)
Lemma new_field_may_add_nothing :
  ("_typ" ∉ dom (get_properties zaehler_python))
  ∧ ("_typ" ∉ dom (get_properties zaehler_rust))
  ∧ compare default_order
      (update_type "bo" "Zaehler" (put_field "_typ" example_schema) example_python)
      example_rust
    = compare default_order example_python example_rust
  ∧ ("plz" ∉ dom (get_properties adresse))
  ∧ get_category example_rust "com" !! "Adresse" = None
  ∧ compare default_order
      (update_type "com" "Adresse" (put_field "plz" example_schema) example_python)
      example_rust
    = compare default_order example_python example_rust.
Proof. repeat split; by_evaluation. Qed.

(** ** The properties on the example snapshots *)


Lemma ignored_field_never_changes_report_witness :
  compare default_order
    (update_type "bo" "Zaehler" (drop_field "_id") example_python) example_rust
  = compare default_order example_python example_rust.
Proof.
  apply (ignored_field_never_changes_report default_order example_python example_rust
           "bo" "Zaehler" "_id" example_schema).
  by_evaluation.
Defined.

Lemma type_mismatch_iff_nonempty_tags_differ_witness :
  type_mismatches
    (compare_models_step default_order "bo" {[ "Zaehler" := zaehler_python ]}
       {[ "Zaehler" := zaehler_rust ]} new_report "Zaehler")
  = [mismatch_text "bo" "Zaehler" "zaehlernummer" "string" "integer"].
Proof.
  pose proof (type_mismatch_iff_nonempty_tags_differ default_order "bo"
    {[ "Zaehler" := zaehler_python ]} {[ "Zaehler" := zaehler_rust ]}
    zaehler_python zaehler_rust new_report "Zaehler" "zaehlernummer") as H.
  destruct H as [H _]; [by_evaluation..|].
  rewrite H. by_evaluation.
Defined.

(** C3, as stated, fails: the two tags of a common field are both there and
    are not the same string, one of them being the empty string, and no
    entry is appended. *)
Lemma empty_tag_differs_without_mismatch :
  "zaehlernummer" ∈ reduced_fields zaehler_empty_tag ∩ reduced_fields zaehler_rust
  ∧ get_properties zaehler_empty_tag !! "zaehlernummer" ≫= type_tag = Some EmptyString
  ∧ get_properties zaehler_rust !! "zaehlernummer" ≫= type_tag = Some "integer"
  ∧ EmptyString ≠ "integer"
  ∧ type_mismatches
      (compare_models default_order "bo" {[ "Zaehler" := zaehler_empty_tag ]}
         {[ "Zaehler" := zaehler_rust ]} new_report)
    = [].
Proof. repeat split; by_evaluation. Qed.

Lemma empty_tag_is_read_as_absent_witness :
  check_field "bo" "Zaehler" (get_properties zaehler_empty_tag)
    (get_properties zaehler_rust) new_report "zaehlernummer"
  = new_report.
Proof.
  pose proof (empty_tag_is_read_as_absent default_order "bo"
    {[ "Zaehler" := zaehler_empty_tag ]} {[ "Zaehler" := zaehler_rust ]}
    zaehler_empty_tag zaehler_rust "Zaehler" "zaehlernummer") as H.
  destruct H as [[H _] _]; [by_evaluation..|].
  apply H.
Defined.

(** * Further properties of the comparator *)

(** ** The dictionaries of a pass *)

Lemma type_key_bo_enum' n n' : type_key "bo" n ≠ enum_key n'.
Proof. cbv [type_key enum_key String.append]. discriminate. Qed.

Lemma type_key_com_enum' n n' : type_key "com" n ≠ enum_key n'.
Proof. cbv [type_key enum_key String.append]. discriminate. Qed.

Lemma apply_entries_empty_iff key entry names (m : gmap string string) :
  apply_entries key entry names m = ∅
  ↔ m = ∅ ∧ ∀ n, n ∈ names → entry n = None.
Proof.
  revert m. induction names as [|n names IH]; intros m; simpl.
  - split; [intros ->; split; [done|]; by intros ? ?%elem_of_nil|tauto].
  - unfold apply_entries in *. simpl. rewrite IH. split.
    + intros [Hw Hn]. destruct (entry n) as [t|] eqn:E; simpl in Hw.
      * by apply insert_non_empty in Hw.
      * split; [done|]. intros n' [->|?]%elem_of_cons; auto.
    + intros [-> Hn]. rewrite (Hn n) by left. simpl. split; [done|].
      intros n' ?. apply Hn. by right.
Qed.

Lemma apply_entries_is_Some key entry names (m : gmap string string) k :
  is_Some (apply_entries key entry names m !! k) →
  is_Some (m !! k) ∨ ∃ n, n ∈ names ∧ k = key n ∧ is_Some (entry n).
Proof.
  revert m. induction names as [|n names IH]; intros m; simpl; [by left|].
  unfold apply_entries in *. simpl. intros [H|(n' & ? & -> & ?)]%IH.
  - destruct (entry n) as [t|] eqn:E; simpl in H; [|by left].
    destruct (decide (key n = k)) as [<-|Hne].
    + right. exists n. rewrite E. split; [left|]. by split.
    + rewrite lookup_insert_ne in H by done. by left.
  - right. exists n'. split; [by right|done].
Qed.

(** The union of the dictionary that a pass builds from nothing with the
    one it started from. *)
Lemma apply_entries_union key entry names (m : gmap string string) :
  apply_entries key entry names m = apply_entries key entry names ∅ ∪ m.
Proof.
  revert m. induction names as [|n names IH]; intros m; simpl.
  - by rewrite (left_id_L ∅ (∪)).
  - unfold apply_entries in *. simpl. rewrite IH.
    rewrite (IH (write (key n) (entry n) ∅)), <-(assoc_L (∪)). f_equal.
    destruct (entry n); simpl; [|by rewrite (left_id_L ∅ (∪))].
    by rewrite <-insert_union_l, (left_id_L ∅ (∪)).
Qed.

Lemma compare_models_lookup_absent o cat (pm rm : gmap string TypeDefinition) r name :
  name ∉ dom pm ∪ dom rm →
  missing_in_rust (compare_models o cat pm rm r) !! type_key cat name
  = missing_in_rust r !! type_key cat name
  ∧ missing_in_python (compare_models o cat pm rm r) !! type_key cat name
    = missing_in_python r !! type_key cat name.
Proof.
  intros Hn. rewrite compare_models_closed. simpl.
  rewrite !apply_entries_lookup_other; [done|..];
    intros n Hin%elem_of_py_sorted_set ?%(inj _); by subst.
Qed.

Lemma compare_enums_lookup_absent o (pe re : gmap string (list string)) r name :
  name ∉ dom pe ∪ dom re →
  missing_in_rust (compare_enums o pe re r) !! enum_key name
  = missing_in_rust r !! enum_key name
  ∧ missing_in_python (compare_enums o pe re r) !! enum_key name
    = missing_in_python r !! enum_key name.
Proof.
  intros Hn. rewrite compare_enums_closed. simpl.
  rewrite !apply_entries_lookup_other; [done|..];
    intros n Hin%elem_of_py_sorted_set ?%(inj _); by subst.
Qed.

(** The entries of a name after one pass over a new report, by what the
    two sides have under the name. *)
Lemma compare_models_entries o cat (pm rm : gmap string TypeDefinition) r name :
  missing_in_rust r !! type_key cat name = None →
  missing_in_python r !! type_key cat name = None →
  missing_in_rust (compare_models o cat pm rm r) !! type_key cat name
  = match pm !! name, rm !! name with
    | Some py, None => Some entire_type
    | Some py, Some rs =>
        if decide (reduced_fields py ∖ reduced_fields rs = ∅) then None
        else Some (fields_text (py_sorted_set o (reduced_fields py ∖ reduced_fields rs)))
    | None, _ => None
    end
  ∧ missing_in_python (compare_models o cat pm rm r) !! type_key cat name
    = match rm !! name, pm !! name with
      | Some rs, None => Some entire_type
      | Some rs, Some py =>
          if decide (reduced_fields rs ∖ reduced_fields py = ∅) then None
          else Some (fields_text (py_sorted_set o (reduced_fields rs ∖ reduced_fields py)))
      | None, _ => None
      end.
Proof.
  intros Hr0 Hp0. destruct (decide (name ∈ dom pm ∪ dom rm)) as [Hn|Hn].
  - destruct (compare_models_lookup o cat pm rm r name Hn) as [-> ->].
    rewrite Hr0, Hp0.
    unfold models_rust_entry, models_python_entry, truthy_set.
    apply elem_of_union in Hn. rewrite !elem_of_dom in Hn.
    destruct (pm !! name) as [py|], (rm !! name) as [rs|]; simpl.
    + split; case_bool_decide; case_decide; done.
    + done.
    + done.
    + destruct Hn as [[? [=]]|[? [=]]].
  - destruct (compare_models_lookup_absent o cat pm rm r name Hn) as [-> ->].
    rewrite Hr0, Hp0.
    apply not_elem_of_union in Hn as [Hp%not_elem_of_dom Hr%not_elem_of_dom].
    by rewrite Hp, Hr.
Qed.

Lemma compare_enums_entries o (pe re : gmap string (list string)) r name :
  (∀ n, missing_in_rust r !! enum_key n = None) →
  (∀ n, missing_in_python r !! enum_key n = None) →
  missing_in_rust (compare_enums o pe re r) !! enum_key name
  = match pe !! name, re !! name with
    | Some py, None => Some entire_type
    | Some py, Some rs =>
        if decide ((list_to_set py : gset string) ∖ list_to_set rs = ∅) then None
        else Some (variants_text
                     (py_sorted_set o (list_to_set py ∖ list_to_set rs)))
    | None, _ => None
    end
  ∧ missing_in_python (compare_enums o pe re r) !! enum_key name
    = match re !! name, pe !! name with
      | Some rs, None => Some entire_type
      | Some rs, Some py =>
          if decide ((list_to_set rs : gset string) ∖ list_to_set py = ∅) then None
          else Some (variants_text
                       (py_sorted_set o (list_to_set rs ∖ list_to_set py)))
      | None, _ => None
      end.
Proof.
  intros Hr0 Hp0. destruct (decide (name ∈ dom pe ∪ dom re)) as [Hn|Hn].
  - destruct (compare_enums_lookup o pe re r name Hn) as [-> ->].
    rewrite Hr0, Hp0.
    unfold enums_rust_entry, enums_python_entry, truthy_set.
    apply elem_of_union in Hn. rewrite !elem_of_dom in Hn.
    destruct (pe !! name) as [py|], (re !! name) as [rs|]; simpl.
    + split; case_bool_decide; case_decide; done.
    + done.
    + done.
    + destruct Hn as [[? [=]]|[? [=]]].
  - destruct (compare_enums_lookup_absent o pe re r name Hn) as [-> ->].
    rewrite Hr0, Hp0.
    apply not_elem_of_union in Hn as [Hp%not_elem_of_dom Hr%not_elem_of_dom].
    by rewrite Hp, Hr.
Qed.

(** ** What the final report says of a type and of an enum *)

Lemma compare_lookup_type (o : SetOrder) (python rust : Snapshot)
    (category name : string) :
  category ∈ ["bo"; "com"] →
  let pm := get_category python category in
  let rm := get_category rust category in
  let report := compare o python rust in
  missing_in_rust report !! type_key category name
  = match pm !! name, rm !! name with
    | Some py, None => Some entire_type
    | Some py, Some rs =>
        if decide (reduced_fields py ∖ reduced_fields rs = ∅) then None
        else Some (fields_text (py_sorted_set o (reduced_fields py ∖ reduced_fields rs)))
    | None, _ => None
    end
  ∧ missing_in_python report !! type_key category name
    = match rm !! name, pm !! name with
      | Some rs, None => Some entire_type
      | Some rs, Some py =>
          if decide (reduced_fields rs ∖ reduced_fields py = ∅) then None
          else Some (fields_text (py_sorted_set o (reduced_fields rs ∖ reduced_fields py)))
      | None, _ => None
      end.
Proof.
  intros [->| ->]%in_categories pm rm report; subst pm rm report;
    rewrite compare_unfold.
  - rewrite (proj1 (compare_enums_lookup_other _ _ _ _ _ (λ n, enum_key_bo n name))),
      (proj2 (compare_enums_lookup_other _ _ _ _ _ (λ n, enum_key_bo n name))).
    rewrite (proj1 (compare_models_lookup_other _ "com" _ _ _ _
                      (λ n, type_key_com_bo n name))),
      (proj2 (compare_models_lookup_other _ "com" _ _ _ _
                (λ n, type_key_com_bo n name))).
    by apply compare_models_entries.
  - rewrite (proj1 (compare_enums_lookup_other _ _ _ _ _ (λ n, enum_key_com n name))),
      (proj2 (compare_enums_lookup_other _ _ _ _ _ (λ n, enum_key_com n name))).
    destruct (compare_models_lookup_other o "bo" (get_category python "bo")
      (get_category rust "bo") new_report
      (type_key "com" name) (λ n, type_key_bo_com n name)) as [Hr Hp].
    apply compare_models_entries; [by rewrite Hr|by rewrite Hp].
Qed.

(** ** The text of a list of plain names *)

Lemma plain_char_repr c :
  plain_char c = true →
  bool_decide (squote = c) = false
  ∧ utf8_lead c = inl (CodePoint (N_of_ascii c) (String c EmptyString))
  ∧ py_repr_char squote (N_of_ascii c) (String c EmptyString) = String c EmptyString.
Proof.
  destruct c as [[] [] [] [] [] [] [] []]; vm_compute; intros H;
    try discriminate H; repeat split.
Qed.

Lemma plain_name_no_quote s : plain_name s = true → string_mem squote s = false.
Proof.
  induction s as [|c s IH]; simpl; [done|].
  intros [Hc Hs]%andb_true_iff. apply plain_char_repr in Hc as (-> & _).
  by apply IH.
Qed.

Lemma py_repr_body_plain s : plain_name s = true → py_repr_body squote s = s.
Proof.
  unfold py_repr_body. induction s as [|c s IH]; [done|].
  intros [Hc Hs]%andb_true_iff. apply plain_char_repr in Hc as (_ & Hlead & Hchar).
  cbn [utf8_decode]. rewrite Hlead. cbn [app foldr py_repr_item].
  by rewrite Hchar, IH.
Qed.

Lemma py_repr_str_plain s : plain_name s = true → py_repr_str s = single_quoted s.
Proof.
  intros Hs. unfold py_repr_str, py_repr_quote.
  rewrite (plain_name_no_quote s Hs). cbn [andb]. by rewrite py_repr_body_plain.
Qed.

Lemma py_repr_list_plain names :
  Forall (λ s, plain_name s = true) names → py_repr_list names = plain_list_text names.
Proof.
  intros Hs. unfold py_repr_list, plain_list_text. do 3 f_equal.
  by apply Forall_fmap_ext_1, (Forall_impl _ _ _ Hs), py_repr_str_plain.
Qed.

(** X1. The entries of a type of a compared category in the final report:
    "entire type" under the side that lacks the type, the sorted fields
    outside the ignore set that the other side lacks when both define it, and
    no entry otherwise. The text of the fields is that of a Python list of
    strings; for names of printable ASCII characters without a single quote
    or a backslash, it is the names between single quotes, separated by a
    comma and a space, between square brackets. *)
Theorem compare_type_entries (o : SetOrder) (python rust : Snapshot)
    (category name : string) :
  category ∈ ["bo"; "com"] →
  let pm := get_category python category in
  let rm := get_category rust category in
  let report := compare o python rust in
  missing_in_rust report !! type_key category name
  = match pm !! name, rm !! name with
    | Some py, None => Some entire_type
    | Some py, Some rs =>
        if decide (reduced_fields py ∖ reduced_fields rs = ∅) then None
        else Some (fields_text (py_sorted_set o (reduced_fields py ∖ reduced_fields rs)))
    | None, _ => None
    end
  ∧ missing_in_python report !! type_key category name
    = match rm !! name, pm !! name with
      | Some rs, None => Some entire_type
      | Some rs, Some py =>
          if decide (reduced_fields rs ∖ reduced_fields py = ∅) then None
          else Some (fields_text (py_sorted_set o (reduced_fields rs ∖ reduced_fields py)))
      | None, _ => None
      end
  ∧ (∀ names, Forall (λ s, plain_name s = true) names →
       fields_text names
       = "fields: [" +:+ py_join ", " ((λ s, "'" +:+ s +:+ "'") <$> names) +:+ "]").
Proof.
  intros Hc pm rm report.
  destruct (compare_lookup_type o python rust category name Hc) as [Hr Hp].
  split; [done|]. split; [done|].
  intros names Hnames. unfold fields_text. by rewrite py_repr_list_plain.
Qed.

Lemma compare_type_entries_witness :
  missing_in_rust (compare default_order example_python example_rust)
    !! type_key "com" "Adresse" = Some "entire type"
  ∧ missing_in_python (compare default_order example_python example_rust)
      !! type_key "bo" "Zaehler" = None
  ∧ missing_in_rust (compare default_order lokation_python lokation_rust)
      !! type_key "bo" "Marktlokation" = Some "fields: ['netz\xa0ebene', 'straße']"
  ∧ missing_in_python (compare default_order lokation_python lokation_rust)
      !! type_key "bo" "Marktlokation" = Some "fields: ['ort']"
  ∧ fields_text ["sparte"; "zaehlernummer"] = "fields: ['sparte', 'zaehlernummer']".
Proof.
  destruct (compare_type_entries default_order example_python example_rust
              "com" "Adresse") as (H1 & _); [by_evaluation|].
  destruct (compare_type_entries default_order example_python example_rust
              "bo" "Zaehler") as (_ & H2 & _); [by_evaluation|].
  destruct (compare_type_entries default_order lokation_python lokation_rust
              "bo" "Marktlokation") as (H3 & H4 & H5); [by_evaluation|].
  split; [|split; [|split; [|split]]].
  - rewrite H1. by_evaluation.
  - rewrite H2. by_evaluation.
  - rewrite H3. by_evaluation.
  - rewrite H4. by_evaluation.
  - rewrite H5; [done|]. repeat constructor.
Defined.

(** X2. The entries of an enum in the final report: "entire type" under the
    side that lacks the enum, the sorted variants that the other side lacks
    when both have it, and no entry otherwise. The text of the variants is
    that of a Python list of strings; for names of printable ASCII characters
    without a single quote or a backslash, it is the names between single
    quotes, separated by a comma and a space, between square brackets. *)
Theorem compare_enum_entries (o : SetOrder) (python rust : Snapshot) (name : string) :
  let pe := get_enums python in
  let re := get_enums rust in
  let report := compare o python rust in
  missing_in_rust report !! enum_key name
  = match pe !! name, re !! name with
    | Some py, None => Some entire_type
    | Some py, Some rs =>
        if decide ((list_to_set py : gset string) ∖ list_to_set rs = ∅) then None
        else Some (variants_text
                     (py_sorted_set o (list_to_set py ∖ list_to_set rs)))
    | None, _ => None
    end
  ∧ missing_in_python report !! enum_key name
    = match re !! name, pe !! name with
      | Some rs, None => Some entire_type
      | Some rs, Some py =>
          if decide ((list_to_set rs : gset string) ∖ list_to_set py = ∅) then None
          else Some (variants_text
                       (py_sorted_set o (list_to_set rs ∖ list_to_set py)))
      | None, _ => None
      end
  ∧ (∀ names, Forall (λ s, plain_name s = true) names →
       variants_text names
       = "variants: [" +:+ py_join ", " ((λ s, "'" +:+ s +:+ "'") <$> names) +:+ "]").
Proof.
  intros pe re report. subst pe re report. rewrite compare_unfold.
  apply and_assoc. split.
  - apply compare_enums_entries; intros n.
    + rewrite (proj1 (compare_models_lookup_other _ _ _ _ _ _
                        (λ n', type_key_com_enum' n' n))).
      by rewrite (proj1 (compare_models_lookup_other _ _ _ _ _ _
                           (λ n', type_key_bo_enum' n' n))).
    + rewrite (proj2 (compare_models_lookup_other _ _ _ _ _ _
                        (λ n', type_key_com_enum' n' n))).
      by rewrite (proj2 (compare_models_lookup_other _ _ _ _ _ _
                           (λ n', type_key_bo_enum' n' n))).
  - intros names Hnames. unfold variants_text. by rewrite py_repr_list_plain.
Qed.

Lemma compare_enum_entries_witness :
  missing_in_rust (compare default_order example_python example_rust)
    !! enum_key "Sparte" = Some "variants: ['GAS']"
  ∧ missing_in_python (compare default_order example_python example_rust)
      !! enum_key "Netzebene" = Some "entire type"
  ∧ missing_in_rust (compare default_order lokation_python lokation_rust)
      !! enum_key "Sparte" = Some "variants: ['GAS', 'WÄRME']"
  ∧ missing_in_python (compare default_order lokation_python lokation_rust)
      !! enum_key "Sparte"
    = Some ("variants: [" +:+ String dquote ("it's" +:+ String dquote "]"))
  ∧ variants_text ["GAS"; "STROM"] = "variants: ['GAS', 'STROM']".
Proof.
  destruct (compare_enum_entries default_order example_python example_rust "Sparte")
    as (H1 & _ & H5).
  destruct (compare_enum_entries default_order example_python example_rust "Netzebene")
    as (_ & H2 & _).
  destruct (compare_enum_entries default_order lokation_python lokation_rust "Sparte")
    as (H3 & H4 & _).
  split; [|split; [|split; [|split]]].
  - rewrite H1. by_evaluation.
  - rewrite H2. by_evaluation.
  - rewrite H3. by_evaluation.
  - rewrite H4. by_evaluation.
  - rewrite H5; [done|]. repeat constructor.
Defined.

(** ** Every finding is about something that exists *)

Lemma models_rust_entry_is_Some o (pm rm : gmap string TypeDefinition) n :
  n ∈ dom pm ∪ dom rm → is_Some (models_rust_entry o pm rm n) → n ∈ dom pm.
Proof.
  rewrite elem_of_union, !elem_of_dom. unfold models_rust_entry. intros Hn Hs.
  destruct (pm !! n) eqn:Ep; [eauto|]. exfalso.
  destruct (rm !! n) eqn:Er; [by destruct Hs as [? [=]]|].
  by destruct Hn as [[? [=]]|[? [=]]].
Qed.

Lemma models_python_entry_is_Some o (pm rm : gmap string TypeDefinition) n :
  is_Some (models_python_entry o pm rm n) → n ∈ dom rm.
Proof.
  rewrite elem_of_dom. unfold models_python_entry.
  destruct (rm !! n); [eauto|]. by intros [? [=]].
Qed.

Lemma enums_rust_entry_is_Some o (pe re : gmap string (list string)) n :
  n ∈ dom pe ∪ dom re → is_Some (enums_rust_entry o pe re n) → n ∈ dom pe.
Proof.
  rewrite elem_of_union, !elem_of_dom. unfold enums_rust_entry. intros Hn Hs.
  destruct (pe !! n) eqn:Ep; [eauto|]. exfalso.
  destruct (re !! n) eqn:Er; [by destruct Hs as [? [=]]|].
  by destruct Hn as [[? [=]]|[? [=]]].
Qed.

Lemma enums_python_entry_is_Some o (pe re : gmap string (list string)) n :
  is_Some (enums_python_entry o pe re n) → n ∈ dom re.
Proof.
  rewrite elem_of_dom. unfold enums_python_entry.
  destruct (re !! n); [eauto|]. by intros [? [=]].
Qed.

(** X3. The report never holds a key for something that does not exist: a
    key under [missing_in_rust] is the qualified name of a type or an enum
    that the Python snapshot has, a key under [missing_in_python] of one that
    the Rust snapshot has. *)
Theorem missing_keys_exist_on_the_other_side (o : SetOrder) (python rust : Snapshot)
    (k : string) :
  (is_Some (missing_in_rust (compare o python rust) !! k) →
     (∃ name, k = type_key "bo" name ∧ name ∈ dom (get_category python "bo"))
     ∨ (∃ name, k = type_key "com" name ∧ name ∈ dom (get_category python "com"))
     ∨ (∃ name, k = enum_key name ∧ name ∈ dom (get_enums python)))
  ∧ (is_Some (missing_in_python (compare o python rust) !! k) →
     (∃ name, k = type_key "bo" name ∧ name ∈ dom (get_category rust "bo"))
     ∨ (∃ name, k = type_key "com" name ∧ name ∈ dom (get_category rust "com"))
     ∨ (∃ name, k = enum_key name ∧ name ∈ dom (get_enums rust))).
Proof.
  rewrite compare_unfold, compare_enums_closed, !compare_models_closed. simpl. split.
  - intros [H|(n & Hn%elem_of_py_sorted_set & -> & Hs)]%apply_entries_is_Some.
    + apply apply_entries_is_Some in H
        as [H|(n & Hn%elem_of_py_sorted_set & -> & Hs)].
      * apply apply_entries_is_Some in H
          as [H|(n & Hn%elem_of_py_sorted_set & -> & Hs)].
        { rewrite lookup_empty in H. by destruct H. }
        left. exists n. eauto using models_rust_entry_is_Some.
      * right. left. exists n. eauto using models_rust_entry_is_Some.
    + right. right. exists n. eauto using enums_rust_entry_is_Some.
  - intros [H|(n & Hn & -> & Hs)]%apply_entries_is_Some.
    + apply apply_entries_is_Some in H as [H|(n & Hn & -> & Hs)].
      * apply apply_entries_is_Some in H as [H|(n & Hn & -> & Hs)].
        { rewrite lookup_empty in H. by destruct H. }
        left. exists n. eauto using models_python_entry_is_Some.
      * right. left. exists n. eauto using models_python_entry_is_Some.
    + right. right. exists n. eauto using enums_python_entry_is_Some.
Qed.

Lemma missing_keys_exist_on_the_other_side_witness :
  (∃ name, type_key "com" "Adresse" = type_key "bo" name
           ∧ name ∈ dom (get_category example_python "bo"))
  ∨ (∃ name, type_key "com" "Adresse" = type_key "com" name
             ∧ name ∈ dom (get_category example_python "com"))
  ∨ (∃ name, type_key "com" "Adresse" = enum_key name
             ∧ name ∈ dom (get_enums example_python)).
Proof.
  apply (missing_keys_exist_on_the_other_side default_order example_python example_rust
           (type_key "com" "Adresse")).
  by_evaluation.
Defined.

(** ** The type mismatches of the final report *)

Lemma elem_of_concat {A} (x : A) (ls : list (list A)) :
  x ∈ concat ls ↔ ∃ l, l ∈ ls ∧ x ∈ l.
Proof.
  induction ls as [|l ls IH]; simpl.
  - split; [by intros ?%elem_of_nil|by intros (? & ?%elem_of_nil & _)].
  - rewrite elem_of_app, IH. split.
    + intros [?|(l' & ? & ?)]; [exists l; split; [left|done]|].
      exists l'. split; [by right|done].
    + intros (l' & [->|?]%elem_of_cons & ?); [by left|]. right. by exists l'.
Qed.

Lemma elem_of_models_mismatches o cat (pm rm : gmap string TypeDefinition) e :
  e ∈ concat (models_mismatches o cat pm rm <$> py_sorted_set o (dom pm ∪ dom rm))
  ↔ ∃ name fld py rs a b,
      pm !! name = Some py ∧ rm !! name = Some rs ∧ (fld ∉ ignore_fields)
      ∧ get_properties py !! fld ≫= type_tag = Some a
      ∧ get_properties rs !! fld ≫= type_tag = Some b
      ∧ a ≠ EmptyString ∧ b ≠ EmptyString ∧ a ≠ b
      ∧ e = mismatch_text cat name fld a b.
Proof.
  rewrite elem_of_concat. split.
  - intros (l & (name & -> & Hname)%list_elem_of_fmap & He).
    unfold models_mismatches in He.
    destruct (rm !! name) as [rs|] eqn:Er; [|by apply elem_of_nil in He].
    destruct (pm !! name) as [py|] eqn:Ep; [|by apply elem_of_nil in He].
    apply list_elem_of_omap in He as (fld & Hfld%elem_of_py_sorted_set & He).
    apply expected_mismatch_Some in He as (a & b & ? & ? & ? & ? & ? & ->).
    exists name, fld, py, rs, a, b. repeat split; try done.
    unfold reduced_fields in Hfld. set_solver.
  - intros (name & fld & py & rs & a & b & Hp & Hr & Hi & Ha & Hb & ? & ? & ? & ->).
    exists (models_mismatches o cat pm rm name). split.
    + apply list_elem_of_fmap. exists name. split; [done|].
      apply elem_of_py_sorted_set, elem_of_union_l, elem_of_dom. eauto.
    + unfold models_mismatches. rewrite Hr, Hp.
      apply list_elem_of_omap. exists fld. split.
      * apply elem_of_py_sorted_set. unfold reduced_fields.
        assert (fld ∈ dom (get_properties py)).
        { apply elem_of_dom. by destruct (get_properties py !! fld). }
        assert (fld ∈ dom (get_properties rs)).
        { apply elem_of_dom. by destruct (get_properties rs !! fld). }
        set_solver.
      * apply expected_mismatch_Some. by exists a, b.
Qed.

(** X4. The type mismatches of the final report are exactly the lines for
    the fields outside the ignore set of a type that both sides define, in a
    compared category, whose two tags are both there, both non-empty, and
    different. *)
Theorem type_mismatch_entries (o : SetOrder) (python rust : Snapshot) (e : string) :
  e ∈ type_mismatches (compare o python rust)
  ↔ ∃ category name fld py rs a b,
      category ∈ ["bo"; "com"]
      ∧ get_category python category !! name = Some py
      ∧ get_category rust category !! name = Some rs
      ∧ (fld ∉ ignore_fields)
      ∧ get_properties py !! fld ≫= type_tag = Some a
      ∧ get_properties rs !! fld ≫= type_tag = Some b
      ∧ a ≠ EmptyString ∧ b ≠ EmptyString ∧ a ≠ b
      ∧ e = mismatch_text category name fld a b.
Proof.
  rewrite compare_unfold, compare_enums_closed, !compare_models_closed. simpl.
  rewrite elem_of_app, !elem_of_models_mismatches. split.
  - intros [(name & fld & py & rs & a & b & H)|(name & fld & py & rs & a & b & H)].
    + exists "bo", name, fld, py, rs, a, b. split; [set_solver|done].
    + exists "com", name, fld, py, rs, a, b. split; [set_solver|done].
  - intros (category & name & fld & py & rs & a & b & [->| ->]%in_categories & H).
    + left. by exists name, fld, py, rs, a, b.
    + right. by exists name, fld, py, rs, a, b.
Qed.

(** ** What a report without drift guarantees *)

Lemma gset_difference_both_empty (X Y : gset string) :
  X ∖ Y = ∅ → Y ∖ X = ∅ → X = Y.
Proof.
  intros H1 H2. apply set_eq. intros x. split; intros Hx.
  - destruct (decide (x ∈ Y)); [done|]. assert (x ∈ X ∖ Y) as H by set_solver.
    rewrite H1 in H. by apply not_elem_of_empty in H.
  - destruct (decide (x ∈ X)); [done|]. assert (x ∈ Y ∖ X) as H by set_solver.
    rewrite H2 in H. by apply not_elem_of_empty in H.
Qed.

Lemma truthy_set_None {A} X (t : A) :
  (if truthy_set X then Some t else None) = None ↔ X = ∅.
Proof. unfold truthy_set. case_bool_decide; naive_solver. Qed.

Lemma models_no_findings o cat (pm rm : gmap string TypeDefinition) :
  let names := py_sorted_set o (dom pm ∪ dom rm) in
  (∀ n, n ∈ names → models_rust_entry o pm rm n = None)
  ∧ (∀ n, n ∈ names → models_python_entry o pm rm n = None)
  ∧ concat (models_mismatches o cat pm rm <$> names) = []
  ↔ types_agree pm rm.
Proof.
  intros names. split.
  - intros (Hr & Hp & Hm).
    assert (∀ n, n ∈ dom pm ∪ dom rm → is_Some (pm !! n) ∧ is_Some (rm !! n)) as Hboth.
    { intros n Hn. pose proof Hn as Hn'. apply elem_of_py_sorted_set with (o := o) in Hn'.
      specialize (Hr n Hn'). specialize (Hp n Hn').
      unfold models_rust_entry in Hr. unfold models_python_entry in Hp.
      destruct (rm !! n); [|done]. destruct (pm !! n); [eauto|done]. }
    split.
    + apply set_eq. intros n. rewrite !elem_of_dom. split; intros Hn.
      * apply Hboth, elem_of_union_l, elem_of_dom, Hn.
      * apply Hboth, elem_of_union_r, elem_of_dom, Hn.
    + intros name py rs Hpy Hrs.
      assert (name ∈ names) as Hn.
      { apply elem_of_py_sorted_set, elem_of_union_l, elem_of_dom. eauto. }
      specialize (Hr name Hn). specialize (Hp name Hn).
      unfold models_rust_entry in Hr. unfold models_python_entry in Hp.
      rewrite Hrs, Hpy in Hr, Hp. simpl in Hr, Hp.
      apply truthy_set_None in Hr, Hp. split; [by apply gset_difference_both_empty|].
      intros fld a b Hi Ha Hb Hane Hbne. destruct (decide (a = b)) as [|Hab]; [done|].
      exfalso. assert (mismatch_text cat name fld a b ∈ @nil string) as H.
      { rewrite <-Hm. apply elem_of_models_mismatches.
        by exists name, fld, py, rs, a, b. }
      by apply elem_of_nil in H.
  - intros [Hdom Hty]. split; [|split].
    + intros n Hn%elem_of_py_sorted_set. unfold models_rust_entry.
      destruct (rm !! n) as [rs|] eqn:Er.
      * destruct (pm !! n) as [py|] eqn:Ep; [|done]. simpl.
        apply truthy_set_None. destruct (Hty n py rs Ep Er) as [-> _]. set_solver.
      * exfalso. apply not_elem_of_dom in Er. set_solver.
    + intros n Hn%elem_of_py_sorted_set. unfold models_python_entry.
      destruct (rm !! n) as [rs|] eqn:Er; [|done].
      destruct (pm !! n) as [py|] eqn:Ep.
      * simpl. apply truthy_set_None. destruct (Hty n py rs Ep Er) as [-> _]. set_solver.
      * exfalso. apply not_elem_of_dom in Ep. apply (elem_of_dom_2 rm) in Er. set_solver.
    + destruct (concat _) as [|e l] eqn:E; [done|]. exfalso.
      assert (e ∈ concat (models_mismatches o cat pm rm <$> names)) as H
        by (rewrite E; left).
      apply elem_of_models_mismatches
        in H as (name & fld & py & rs & a & b & Hp & Hr & Hi & Ha & Hb & ? & ? & Hab & _).
      apply Hab. by apply (proj2 (Hty name py rs Hp Hr) fld).
Qed.

Lemma enums_no_findings o (pe re : gmap string (list string)) :
  let names := py_sorted_set o (dom pe ∪ dom re) in
  (∀ n, n ∈ names → enums_rust_entry o pe re n = None)
  ∧ (∀ n, n ∈ names → enums_python_entry o pe re n = None)
  ↔ enums_agree pe re.
Proof.
  intros names. split.
  - intros (Hr & Hp).
    assert (∀ n, n ∈ dom pe ∪ dom re → is_Some (pe !! n) ∧ is_Some (re !! n)) as Hboth.
    { intros n Hn. pose proof Hn as Hn'. apply elem_of_py_sorted_set with (o := o) in Hn'.
      specialize (Hr n Hn'). specialize (Hp n Hn').
      unfold enums_rust_entry in Hr. unfold enums_python_entry in Hp.
      destruct (re !! n); [|done]. destruct (pe !! n); [eauto|done]. }
    split.
    + apply set_eq. intros n. rewrite !elem_of_dom. split; intros Hn.
      * apply Hboth, elem_of_union_l, elem_of_dom, Hn.
      * apply Hboth, elem_of_union_r, elem_of_dom, Hn.
    + intros name py rs Hpy Hrs.
      assert (name ∈ names) as Hn.
      { apply elem_of_py_sorted_set, elem_of_union_l, elem_of_dom. eauto. }
      specialize (Hr name Hn). specialize (Hp name Hn).
      unfold enums_rust_entry in Hr. unfold enums_python_entry in Hp.
      rewrite Hrs, Hpy in Hr, Hp. simpl in Hr, Hp.
      apply truthy_set_None in Hr, Hp. by apply gset_difference_both_empty.
  - intros [Hdom Hty]. split.
    + intros n Hn%elem_of_py_sorted_set. unfold enums_rust_entry.
      destruct (re !! n) as [rs|] eqn:Er.
      * destruct (pe !! n) as [py|] eqn:Ep; [|done]. simpl.
        apply truthy_set_None. rewrite (Hty n py rs Ep Er). set_solver.
      * exfalso. apply not_elem_of_dom in Er. set_solver.
    + intros n Hn%elem_of_py_sorted_set. unfold enums_python_entry.
      destruct (re !! n) as [rs|] eqn:Er; [|done].
      destruct (pe !! n) as [py|] eqn:Ep.
      * simpl. apply truthy_set_None. rewrite (Hty n py rs Ep Er). set_solver.
      * exfalso. apply not_elem_of_dom in Ep. apply (elem_of_dom_2 re) in Er. set_solver.
Qed.

Lemma has_drift_compare_false o python rust :
  has_drift (compare o python rust) = false
  ↔ types_agree (get_category python "bo") (get_category rust "bo")
    ∧ types_agree (get_category python "com") (get_category rust "com")
    ∧ enums_agree (get_enums python) (get_enums rust).
Proof.
  rewrite has_drift_false, compare_unfold, compare_enums_closed, !compare_models_closed.
  simpl. rewrite !apply_entries_empty_iff.
  rewrite <-(models_no_findings o "bo"), <-(models_no_findings o "com"),
    <-(enums_no_findings o).
  rewrite app_nil. tauto.
Qed.

(** X5. The comparison finds no drift exactly when the two snapshots agree
    on what the comparator reads: the same type names under "bo" and under
    "com", for each type the same fields outside the ignore set and no field
    with two different non-empty tags, the same enum names, and for each enum
    the same set of variants. *)
Theorem no_drift_iff_snapshots_agree (o : SetOrder) (python rust : Snapshot) :
  has_drift (compare o python rust) = false
  ↔ types_agree (get_category python "bo") (get_category rust "bo")
    ∧ types_agree (get_category python "com") (get_category rust "com")
    ∧ enums_agree (get_enums python) (get_enums rust).
Proof. apply has_drift_compare_false. Qed.

(** ** Passes accumulate *)

Lemma apply_entries_dom_subseteq key entry names (m : gmap string string) :
  dom m ⊆ dom (apply_entries key entry names m).
Proof. rewrite apply_entries_union, dom_union_L. set_solver. Qed.

(** X6. A pass never removes a finding: the keys of both dictionaries are
    kept, the type mismatches collected so far stay at the front of the list,
    and the entries under the keys of other passes are left as they are. A
    pass over the enums appends no type mismatch. *)
Theorem passes_keep_earlier_findings (o : SetOrder) (category : string)
    (python_models rust_models : gmap string TypeDefinition)
    (python_enums rust_enums : gmap string (list string)) (r : DriftReport) :
  let after_models := compare_models o category python_models rust_models r in
  let after_enums := compare_enums o python_enums rust_enums r in
  (dom (missing_in_rust r) ⊆ dom (missing_in_rust after_models)
   ∧ dom (missing_in_python r) ⊆ dom (missing_in_python after_models)
   ∧ type_mismatches r `prefix_of` type_mismatches after_models
   ∧ ∀ k, (∀ n, type_key category n ≠ k) →
       missing_in_rust after_models !! k = missing_in_rust r !! k
       ∧ missing_in_python after_models !! k = missing_in_python r !! k)
  ∧ (dom (missing_in_rust r) ⊆ dom (missing_in_rust after_enums)
     ∧ dom (missing_in_python r) ⊆ dom (missing_in_python after_enums)
     ∧ type_mismatches after_enums = type_mismatches r
     ∧ ∀ k, (∀ n, enum_key n ≠ k) →
         missing_in_rust after_enums !! k = missing_in_rust r !! k
         ∧ missing_in_python after_enums !! k = missing_in_python r !! k).
Proof.
  intros after_models after_enums. split.
  - subst after_models. split; [|split; [|split]].
    + rewrite compare_models_closed. apply apply_entries_dom_subseteq.
    + rewrite compare_models_closed. apply apply_entries_dom_subseteq.
    + rewrite compare_models_closed. simpl. by eexists.
    + intros k Hk. by apply compare_models_lookup_other.
  - subst after_enums. split; [|split; [|split]].
    + rewrite compare_enums_closed. apply apply_entries_dom_subseteq.
    + rewrite compare_enums_closed. apply apply_entries_dom_subseteq.
    + by rewrite compare_enums_closed.
    + intros k Hk. by apply compare_enums_lookup_other.
Qed.

Lemma passes_keep_earlier_findings_witness :
  missing_in_rust
    (compare_models default_order "com" (get_category example_python "com")
       (get_category example_rust "com")
       (set_missing_in_rust "bo/Zaehler" "entire type" new_report))
    !! "bo/Zaehler"
  = Some "entire type".
Proof.
  destruct (passes_keep_earlier_findings default_order "com"
    (get_category example_python "com") (get_category example_rust "com") ∅ ∅
    (set_missing_in_rust "bo/Zaehler" "entire type" new_report))
    as [(_ & _ & _ & H) _].
  rewrite (proj1 (H "bo/Zaehler" (λ n, type_key_com_bo n "Zaehler"))).
  reflexivity.
Defined.

(** ** The final report as the union of its three passes *)

Lemma apply_entries_from_empty_keys key entry names k :
  is_Some (apply_entries key entry names ∅ !! k) → ∃ n, k = key n.
Proof.
  intros [H|(n & _ & -> & _)]%apply_entries_is_Some; [|by exists n].
  rewrite lookup_empty in H. by destruct H.
Qed.

Lemma passes_disjoint key1 key2 entry1 entry2 names1 names2 :
  (∀ n n', key1 n ≠ key2 n') →
  apply_entries key1 entry1 names1 ∅ ##ₘ apply_entries key2 entry2 names2 ∅.
Proof.
  intros Hk. apply map_disjoint_spec. intros k t1 t2 H1 H2.
  destruct (apply_entries_from_empty_keys key1 entry1 names1 k) as [n ->]; [eauto|].
  destruct (apply_entries_from_empty_keys key2 entry2 names2 (key1 n)) as [n' E]; [eauto|].
  by apply (Hk n n').
Qed.

(** X7. The final report is the three passes put together: each dictionary
    is the union of what the pass over "bo", the pass over "com" and the pass
    over the enums give on their own, no key is shared between two passes, so
    the counts of the summary are the sums of the counts of the passes; the
    type mismatches are those of "bo" followed by those of "com". *)
Theorem compare_is_union_of_passes (o : SetOrder) (python rust : Snapshot) :
  let bo := compare_models o "bo" (get_category python "bo") (get_category rust "bo")
              new_report in
  let com := compare_models o "com" (get_category python "com") (get_category rust "com")
               new_report in
  let en := compare_enums o (get_enums python) (get_enums rust) new_report in
  let report := compare o python rust in
  missing_in_rust report = missing_in_rust en ∪ missing_in_rust com ∪ missing_in_rust bo
  ∧ missing_in_python report
    = missing_in_python en ∪ missing_in_python com ∪ missing_in_python bo
  ∧ type_mismatches report = type_mismatches bo ++ type_mismatches com
  ∧ size (missing_in_rust report)
    = (size (missing_in_rust bo) + size (missing_in_rust com)
       + size (missing_in_rust en))%nat
  ∧ size (missing_in_python report)
    = (size (missing_in_python bo) + size (missing_in_python com)
       + size (missing_in_python en))%nat
  ∧ length (type_mismatches report)
    = (length (type_mismatches bo) + length (type_mismatches com))%nat.
Proof.
  intros bo com en report. subst bo com en report.
  rewrite compare_unfold, !compare_enums_closed, !compare_models_closed. simpl.
  rewrite (apply_entries_union enum_key (enums_rust_entry _ _ _)),
    (apply_entries_union (type_key "com") (models_rust_entry _ _ _)),
    (apply_entries_union enum_key (enums_python_entry _ _ _)),
    (apply_entries_union (type_key "com") (models_python_entry _ _ _)).
  rewrite !(assoc_L (∪)).
  split; [done|]. split; [done|]. split; [done|].
  rewrite !map_size_disj_union, length_app; [lia|..];
    repeat (apply map_disjoint_union_l; split);
    apply passes_disjoint; intros n n';
    first [apply enum_key_bo|apply enum_key_com|apply type_key_com_bo].
Qed.

(** ** Variants are compared as sets *)

Lemma compare_enums_step_sets o (pe pe' re re' : gmap string (list string)) r name :
  (list_to_set <$> pe !! name : option (gset string)) = list_to_set <$> pe' !! name →
  (list_to_set <$> re !! name : option (gset string)) = list_to_set <$> re' !! name →
  compare_enums_step o pe re r name = compare_enums_step o pe' re' r name.
Proof.
  intros Hp Hr. rewrite !compare_enums_step_closed.
  unfold enums_rust_entry, enums_python_entry.
  destruct (re !! name) as [rs|], (re' !! name) as [rs'|]; simplify_eq/=; [|done].
  destruct (pe !! name) as [py|], (pe' !! name) as [py'|]; simplify_eq/=; [|done].
  by rewrite Hp, Hr.
Qed.

Lemma dom_of_sets (m m' : gmap string (list string)) :
  (∀ name, (list_to_set <$> m !! name : option (gset string))
           = list_to_set <$> m' !! name) →
  dom m = dom m'.
Proof.
  intros H. apply set_eq. intros n. rewrite !elem_of_dom. specialize (H n).
  destruct (m !! n), (m' !! n); simplify_eq/=; split; intros [? ?]; eauto; done.
Qed.

(** X8. The variants of an enum are compared as sets: two lists of variants
    with the same elements, in whatever order and with whatever repetitions,
    give the same report, on either side. *)
Theorem enum_variants_compared_as_sets (o : SetOrder)
    (python_enums python_enums' rust_enums rust_enums' : gmap string (list string))
    (r : DriftReport) :
  (∀ name, (list_to_set <$> python_enums !! name : option (gset string))
           = list_to_set <$> python_enums' !! name) →
  (∀ name, (list_to_set <$> rust_enums !! name : option (gset string))
           = list_to_set <$> rust_enums' !! name) →
  compare_enums o python_enums rust_enums r = compare_enums o python_enums' rust_enums' r.
Proof.
  intros Hp Hr. unfold compare_enums.
  rewrite (dom_of_sets _ _ Hp), (dom_of_sets _ _ Hr).
  apply foldl_agree. intros r' name _. by apply compare_enums_step_sets.
Qed.

Lemma enum_variants_compared_as_sets_witness :
  compare_enums default_order {[ "Sparte" := ["STROM"; "GAS"] ]}
    {[ "Sparte" := ["STROM"] ]} new_report
  = compare_enums default_order {[ "Sparte" := ["GAS"; "STROM"; "GAS"] ]}
      {[ "Sparte" := ["STROM"; "STROM"] ]} new_report.
Proof.
  apply enum_variants_compared_as_sets; intros name;
    (destruct (decide (name = "Sparte")) as [->|Hne];
      [by_evaluation|by rewrite !lookup_singleton_ne]).
Defined.

(** * Further properties of the renderer and of the driver *)

Lemma drift_text_is_not_no_drift_text rest :
  py_join newline
    ("# BO4E Drift Report" :: EmptyString
       :: ("Drift detected between Python and Rust schemas" +:+ newline) :: rest)
  ≠ no_drift_text.
Proof.
  destruct rest; cbv [py_join String.concat no_drift_text String.append newline];
    discriminate.
Qed.

Lemma generate_report_no_drift_text o report :
  generate_report o report = no_drift_text ↔ has_drift report = false.
Proof.
  unfold generate_report. destruct (has_drift report); simpl; [|done].
  split; [|done]. intros H. by apply drift_text_is_not_no_drift_text in H.
Qed.

(** X9. The rendered report is the no-drift text exactly when the report
    holds no drift: a report with a finding is never rendered as "No drift
    detected". *)
Theorem no_drift_text_iff_no_drift (o : SetOrder) (report : DriftReport) :
  generate_report o report = no_drift_text ↔ has_drift report = false.
Proof. apply generate_report_no_drift_text. Qed.

(** X10. End to end: with both documents loaded, a run prints the no-drift
    text exactly when the two snapshots agree on what the comparator reads;
    the status is zero either way. *)
Theorem main_prints_no_drift_iff_snapshots_agree (o : SetOrder) (schemas_dir : string)
    (python rust : Snapshot) :
  main o schemas_dir (Json python) (Json rust) = Exited [no_drift_text] [] 0
  ↔ types_agree (get_category python "bo") (get_category rust "bo")
    ∧ types_agree (get_category python "com") (get_category rust "com")
    ∧ enums_agree (get_enums python) (get_enums rust).
Proof.
  rewrite <-has_drift_compare_false, <-(generate_report_no_drift_text o). simpl.
  split; [by intros [=]|by intros ->].
Qed.

(** ** The sections of a report with drift *)

Lemma length_py_sorted_set o X : length (py_sorted_set o X) = size X.
Proof. by rewrite py_sorted_set_Permutation. Qed.

Lemma py_sorted_set_empty o : py_sorted_set o ∅ = [].
Proof. apply nil_length_inv. by rewrite length_py_sorted_set. Qed.

Lemma missing_section_titled o title m :
  missing_section o title m
  = titled_section title (finding_bullet <$> sorted_findings o m).
Proof.
  unfold missing_section, sorted_findings. rewrite <-list_fmap_compose.
  destruct (truthy_dict m) eqn:E.
  - destruct (py_sorted_set o (dom m)) as [|k keys] eqn:Ek; [|done].
    apply (f_equal length) in Ek. rewrite length_py_sorted_set, size_dom in Ek.
    apply map_size_empty_iff in Ek. apply truthy_dict_false in Ek. congruence.
  - apply truthy_dict_false in E as ->. by rewrite dom_empty_L, py_sorted_set_empty.
Qed.

Lemma mismatch_section_titled l :
  mismatch_section l
  = titled_section "## Type Mismatches" ((λ e, "- " +:+ e) <$> py_sorted l).
Proof.
  unfold mismatch_section. destruct l as [|e l]; [done|].
  destruct (py_sorted (e :: l)) as [|e' l'] eqn:El; [|done].
  pose proof (py_sorted_Permutation (e :: l)) as Hp. rewrite El in Hp.
  by apply Permutation_nil_cons in Hp.
Qed.

Lemma sorted_findings_keys o m : (sorted_findings o m).*1 = py_sorted_set o (dom m).
Proof.
  unfold sorted_findings. rewrite <-list_fmap_compose. apply list_fmap_id.
Qed.

Lemma elem_of_sorted_findings o (m : gmap string string) k v :
  (k, v) ∈ sorted_findings o m ↔ m !! k = Some v.
Proof.
  unfold sorted_findings. rewrite list_elem_of_fmap. split.
  - intros (k' & [= <- ->] & Hk). apply elem_of_py_sorted_set, elem_of_dom in Hk.
    by destruct Hk as [v ->].
  - intros Hk. exists k. rewrite Hk. split; [done|].
    apply elem_of_py_sorted_set, elem_of_dom. eauto.
Qed.

Lemma length_sorted_findings o (m : gmap string string) :
  length (sorted_findings o m) = size m.
Proof.
  unfold sorted_findings. by rewrite length_fmap, length_py_sorted_set, size_dom.
Qed.

(** X11. A report with drift is rendered as the heading, then a section for
    each collection that is not empty, then the summary. The section "Missing
    in Rust" lists the entries of [missing_in_rust], the section "Missing in
    Python" those of [missing_in_python]: one bullet for each key, with the
    key's own description, by ascending key. The section "Type Mismatches"
    lists the mismatches themselves, sorted, repetitions included. Each line
    of the summary counts the bullets of its section. *)
Theorem sections_list_each_finding_once (o : SetOrder) (report : DriftReport) :
  has_drift report = true →
  ∃ (in_rust in_python : list (string * string)) (mismatches : list string),
    generate_report o report
    = py_join newline
        (["# BO4E Drift Report"; EmptyString;
          "Drift detected between Python and Rust schemas" +:+ newline]
         ++ titled_section "## Missing in Rust (exists in Python)"
              ((λ finding, "- **" +:+ finding.1 +:+ "**: " +:+ finding.2) <$> in_rust)
         ++ titled_section "## Missing in Python (exists in Rust)"
              ((λ finding, "- **" +:+ finding.1 +:+ "**: " +:+ finding.2) <$> in_python)
         ++ titled_section "## Type Mismatches" ((λ e, "- " +:+ e) <$> mismatches)
         ++ ["## Summary" +:+ newline;
             "- Missing in Rust: " +:+ py_str_nat (length in_rust);
             "- Missing in Python: " +:+ py_str_nat (length in_python);
             "- Type mismatches: " +:+ py_str_nat (length mismatches)])
    ∧ (∀ k v, (k, v) ∈ in_rust ↔ missing_in_rust report !! k = Some v)
    ∧ NoDup in_rust.*1
    ∧ Sorted String.le in_rust.*1
    ∧ (∀ k v, (k, v) ∈ in_python ↔ missing_in_python report !! k = Some v)
    ∧ NoDup in_python.*1
    ∧ Sorted String.le in_python.*1
    ∧ mismatches ≡ₚ type_mismatches report
    ∧ Sorted String.le mismatches.
Proof.
  intros Hdrift.
  exists (sorted_findings o (missing_in_rust report)),
    (sorted_findings o (missing_in_python report)),
    (py_sorted (type_mismatches report)).
  split; [|repeat apply conj].
  - unfold generate_report. rewrite Hdrift. cbn [negb].
    rewrite !missing_section_titled, mismatch_section_titled,
      !length_sorted_findings, (Permutation_length (py_sorted_Permutation _)).
    done.
  - intros k v. apply elem_of_sorted_findings.
  - rewrite sorted_findings_keys. apply NoDup_py_sorted_set.
  - rewrite sorted_findings_keys. apply py_sorted_Sorted.
  - intros k v. apply elem_of_sorted_findings.
  - rewrite sorted_findings_keys. apply NoDup_py_sorted_set.
  - rewrite sorted_findings_keys. apply py_sorted_Sorted.
  - apply py_sorted_Permutation.
  - apply py_sorted_Sorted.
Qed.

Lemma sections_list_each_finding_once_witness :
  (∃ (in_rust in_python : list (string * string)) (mismatches : list string),
     generate_report default_order example_report
     = py_join newline
         (["# BO4E Drift Report"; EmptyString;
           "Drift detected between Python and Rust schemas" +:+ newline]
          ++ titled_section "## Missing in Rust (exists in Python)"
               ((λ finding, "- **" +:+ finding.1 +:+ "**: " +:+ finding.2) <$> in_rust)
          ++ titled_section "## Missing in Python (exists in Rust)"
               ((λ finding, "- **" +:+ finding.1 +:+ "**: " +:+ finding.2) <$> in_python)
          ++ titled_section "## Type Mismatches" ((λ e, "- " +:+ e) <$> mismatches)
          ++ ["## Summary" +:+ newline;
              "- Missing in Rust: " +:+ py_str_nat (length in_rust);
              "- Missing in Python: " +:+ py_str_nat (length in_python);
              "- Type mismatches: " +:+ py_str_nat (length mismatches)])
     ∧ (∀ k v, (k, v) ∈ in_rust ↔ missing_in_rust example_report !! k = Some v)
     ∧ NoDup in_rust.*1
     ∧ Sorted String.le in_rust.*1
     ∧ (∀ k v, (k, v) ∈ in_python ↔ missing_in_python example_report !! k = Some v)
     ∧ NoDup in_python.*1
     ∧ Sorted String.le in_python.*1
     ∧ mismatches ≡ₚ type_mismatches example_report
     ∧ Sorted String.le mismatches)
  ∧ generate_report default_order example_report
    = py_join newline
        [ "# BO4E Drift Report";
          EmptyString;
          "Drift detected between Python and Rust schemas" +:+ newline;
          "## Missing in Rust (exists in Python)" +:+ newline;
          "- **com/Adresse**: entire type";
          "- **enum/Sparte**: variants: ['GAS']";
          EmptyString;
          "## Missing in Python (exists in Rust)" +:+ newline;
          "- **enum/Netzebene**: entire type";
          EmptyString;
          "## Type Mismatches" +:+ newline;
          "- bo/Zaehler.sparte: Python=string, Rust=integer";
          "- com/Adresse.ort: Python=string, Rust=integer";
          EmptyString;
          "## Summary" +:+ newline;
          "- Missing in Rust: 2";
          "- Missing in Python: 1";
          "- Type mismatches: 2" ].
Proof.
  split.
  - apply (sections_list_each_finding_once default_order example_report).
    by_evaluation.
  - by_evaluation.
Defined.

(** X16. The rendered report does not depend on the order in which the
    type mismatches were collected: two reports with the same dictionaries
    and the same mismatches in another order are rendered the same. *)
Theorem rendering_ignores_mismatch_order (o : SetOrder) (r r' : DriftReport) :
  missing_in_rust r = missing_in_rust r' →
  missing_in_python r = missing_in_python r' →
  type_mismatches r ≡ₚ type_mismatches r' →
  generate_report o r = generate_report o r'.
Proof.
  destruct r as [mr mp tm], r' as [mr' mp' tm']. simpl. intros <- <- Hp.
  assert (truthy_list tm = truthy_list tm') as Ht.
  { destruct tm, tm'; try done.
    - by apply Permutation_nil_cons in Hp.
    - symmetry in Hp. by apply Permutation_nil_cons in Hp. }
  unfold generate_report, has_drift, mismatch_section. simpl.
  by rewrite Ht, (py_sorted_perm tm tm' Hp), (Permutation_length Hp).
Qed.

Lemma rendering_ignores_mismatch_order_witness :
  generate_report default_order
    {| missing_in_rust := ∅; missing_in_python := ∅;
       type_mismatches := ["com/Adresse.ort: Python=string, Rust=integer";
                           "bo/Zaehler.sparte: Python=string, Rust=integer"] |}
  = generate_report default_order
      {| missing_in_rust := ∅; missing_in_python := ∅;
         type_mismatches := ["bo/Zaehler.sparte: Python=string, Rust=integer";
                             "com/Adresse.ort: Python=string, Rust=integer"] |}.
Proof.
  apply rendering_ignores_mismatch_order; [reflexivity..|]. simpl. apply perm_swap.
Defined.

(** ** The checks of [main] before the comparison *)

(** X12. The two existence checks come first, the Python document before
    the Rust one, and the documents are parsed only when both exist. So a
    missing Python document is the one reported even when the Rust document
    is missing too, a missing Rust document is reported even when the Python
    document does not parse, and a run that fails prints nothing on the
    standard output and gives status 1 whenever it exits. *)
Theorem main_missing_documents (o : SetOrder) (schemas_dir : string)
    (python_file rust_file : InputFile) :
  (python_file = NoFile →
     main o schemas_dir python_file rust_file
     = Exited []
         ["Error: " +:+ (schemas_dir +:+ "/python_schema.json") +:+ " not found";
          "Run: python scripts/extract_python_schema.py > schemas/python_schema.json"]
         1)
  ∧ (python_file ≠ NoFile → rust_file = NoFile →
     main o schemas_dir python_file rust_file
     = Exited []
         ["Error: " +:+ (schemas_dir +:+ "/rust_schema.json") +:+ " not found";
          "Run: cargo run --bin generate_schema --features json-schema > schemas/rust_schema.json"]
         1)
  ∧ (python_file ≠ NoFile → rust_file ≠ NoFile →
     python_file = NotJson ∨ rust_file = NotJson →
     main o schemas_dir python_file rust_file = Raised "json.JSONDecodeError")
  ∧ (∀ stdout stderr status,
       main o schemas_dir python_file rust_file = Exited stdout stderr status →
       (stdout = [] ∧ status = 1%Z ∧ length stderr = 2%nat)
       ∨ (stderr = [] ∧ status = 0%Z ∧ length stdout = 1%nat)).
Proof.
  repeat apply conj.
  - by intros ->.
  - intros Hp ->. by destruct python_file.
  - intros Hp Hr [->| ->]; [by destruct rust_file|by destruct python_file].
  - intros stdout stderr status.
    destruct python_file, rust_file; simpl; intros [= <- <- <-]; auto.
Qed.

Lemma main_missing_documents_witness :
  main default_order "schemas" NotJson NoFile
  = Exited []
      ["Error: schemas/rust_schema.json not found";
       "Run: cargo run --bin generate_schema --features json-schema > schemas/rust_schema.json"]
      1.
Proof.
  apply (main_missing_documents default_order "schemas" NotJson NoFile);
    [discriminate|reflexivity].
Defined.

(** * Properties of the extractor *)

(** ** Dicts in insertion order *)

Lemma dict_set_keys {V} key (value : V) (d : list (string * V)) :
  (dict_set key value d).*1 = if decide (key ∈ d.*1) then d.*1 else d.*1 ++ [key].
Proof.
  induction d as [|[k v] d IH]; [done|].
  change (dict_set key value ((k, v) :: d))
    with (if decide (k = key) then (k, value) :: d else (k, v) :: dict_set key value d).
  destruct (decide (k = key)) as [->|Hne].
  - rewrite decide_True by (rewrite fmap_cons; left). done.
  - rewrite !fmap_cons, IH. cbn [fst]. destruct (decide (key ∈ d.*1)) as [Hin|Hin].
    + by rewrite decide_True by (by right).
    + rewrite decide_False; [done|]. by intros [?|?]%elem_of_cons.
Qed.

Lemma dict_set_NoDup {V} key (value : V) (d : list (string * V)) :
  NoDup d.*1 → NoDup (dict_set key value d).*1.
Proof.
  intros Hd. rewrite dict_set_keys. case_decide; [done|].
  apply NoDup_app. split; [done|]. split; [|apply NoDup_singleton].
  intros k Hk ->%list_elem_of_singleton. done.
Qed.

Lemma elem_of_dict_set {V} key (value : V) (d : list (string * V)) k v :
  NoDup d.*1 →
  (k, v) ∈ dict_set key value d ↔ (k = key ∧ v = value) ∨ (k ≠ key ∧ (k, v) ∈ d).
Proof.
  induction d as [|[k0 v0] d IH]; simpl; intros Hd.
  - rewrite list_elem_of_singleton. split.
    + intros [= -> ->]. by left.
    + intros [[-> ->]|[_ ?%elem_of_nil]]; done.
  - apply NoDup_cons in Hd as [Hk0 Hd]. destruct (decide (k0 = key)) as [->|Hne].
    + rewrite !elem_of_cons. split.
      * intros [[= -> ->]|Hin]; [by left|]. right. split; [|by right].
        intros ->. apply Hk0. apply list_elem_of_fmap. by exists (key, v).
      * intros [[-> ->]|[Hne [[= -> ->]|?]]]; [by left|done|by right].
    + rewrite !elem_of_cons, IH by done. split.
      * intros [[= -> ->]|[[-> ->]|[? ?]]]; [right|left|right]; auto.
      * intros [[-> ->]|[? [[= -> ->]|?]]]; auto.
Qed.

(** ** The filters *)

Lemma filtered_members_spec (p : PyObject → bool) (members : list (string * PyObject)) :
  let result :=
    foldl (λ acc member, if p member.2 then dict_set member.1 member.2 acc else acc)
      [] members in
  NoDup result.*1
  ∧ (∀ name obj, (name, obj) ∈ result → (name, obj) ∈ members ∧ p obj = true)
  ∧ (∀ name obj, (name, obj) ∈ members → p obj = true → name ∈ result.*1).
Proof.
  induction members as [|[n c] members IH] using rev_ind; simpl.
  - split; [apply NoDup_nil_2|]. split; [by intros ?? ?%elem_of_nil|].
    by intros ?? ?%elem_of_nil.
  - rewrite foldl_app. simpl in *. destruct IH as (Hnd & Hsound & Hcomplete).
    destruct (p c) eqn:Hp.
    + split; [by apply dict_set_NoDup|]. split.
      * intros name obj Hin.
        apply (elem_of_dict_set _ _ _ _ _ Hnd) in Hin as [[-> ->]|[_ Hin]].
        { split; [|done]. apply elem_of_app. right. left. }
        destruct (Hsound name obj Hin). split; [|done]. apply elem_of_app. by left.
      * intros name obj [Hin|[= -> ->]%list_elem_of_singleton]%elem_of_app Hobj;
          rewrite dict_set_keys; case_decide.
        -- eauto.
        -- apply elem_of_app. left. eauto.
        -- done.
        -- apply elem_of_app. right. left.
    + split; [done|]. split.
      * intros name obj Hin. destruct (Hsound name obj Hin).
        split; [|done]. apply elem_of_app. by left.
      * intros name obj [Hin|[= -> ->]%list_elem_of_singleton]%elem_of_app Hobj;
          [eauto|congruence].
Qed.

(** X13. The filters of the extractor. The result of [get_all_models] has
    no name twice; each of its items is a member of the module that is a
    class, a subclass of the base model but not the base model itself, from a
    module whose name starts with "bo4e"; and every member that passes this
    test has its name in the result. The same holds of [get_all_enums] with
    the enum base class. *)
Theorem extractor_filters (members : list (string * PyObject)) :
  (NoDup (get_all_models members).*1
   ∧ (∀ name obj, (name, obj) ∈ get_all_models members →
        (name, obj) ∈ members ∧ isclass obj = true ∧ subclass_of_BaseModel obj = true
        ∧ is_BaseModel obj = false ∧ String.prefix "bo4e" (module_name obj) = true)
   ∧ (∀ name obj, (name, obj) ∈ members → is_bo4e_model obj = true →
        name ∈ (get_all_models members).*1))
  ∧ (NoDup (get_all_enums members).*1
     ∧ (∀ name obj, (name, obj) ∈ get_all_enums members →
          (name, obj) ∈ members ∧ isclass obj = true ∧ subclass_of_Enum obj = true
          ∧ is_Enum obj = false ∧ String.prefix "bo4e" (module_name obj) = true)
     ∧ (∀ name obj, (name, obj) ∈ members → is_bo4e_enum obj = true →
          name ∈ (get_all_enums members).*1)).
Proof.
  split.
  - destruct (filtered_members_spec is_bo4e_model members) as (Hnd & Hs & Hc).
    split; [done|]. split; [|done]. intros name obj Hin.
    destruct (Hs name obj Hin) as [? Hp]. split; [done|].
    unfold is_bo4e_model in Hp. rewrite !andb_true_iff, negb_true_iff in Hp. tauto.
  - destruct (filtered_members_spec is_bo4e_enum members) as (Hnd & Hs & Hc).
    split; [done|]. split; [|done]. intros name obj Hin.
    destruct (Hs name obj Hin) as [? Hp]. split; [done|].
    unfold is_bo4e_enum in Hp. rewrite !andb_true_iff, negb_true_iff in Hp. tauto.
Qed.

Lemma extractor_filters_witness :
  ("Zaehler", zaehler_class) ∈ example_bo_members
  ∧ isclass zaehler_class = true ∧ subclass_of_BaseModel zaehler_class = true
  ∧ is_BaseModel zaehler_class = false
  ∧ String.prefix "bo4e" (module_name zaehler_class) = true.
Proof.
  apply (extractor_filters example_bo_members). by_evaluation.
Defined.

(** ** The extraction loops *)

Lemma extract_loop_spec {V} what (get : PyObject → string + V)
    (d : list (string * PyObject)) (stderr : list string) :
  NoDup d.*1 →
  let result := foldl (extract_step what get) (∅, stderr) d in
  result.2 = stderr ++ omap (extract_warning what get) d
  ∧ (∀ name v, result.1 !! name = Some v ↔ ∃ cls, (name, cls) ∈ d ∧ get cls = inr v)
  ∧ (size result.1 + length (omap (extract_warning what get) d) = length d)%nat.
Proof.
  induction d as [|[n c] d IH] using rev_ind; intros Hnd; simpl.
  - rewrite app_nil_r. split; [done|]. split; [|done]. intros name v.
    rewrite lookup_empty. split; [done|]. by intros (? & ?%elem_of_nil & _).
  - rewrite fmap_app in Hnd. apply NoDup_app in Hnd as (Hnd & Hn & _).
    assert (n ∉ d.*1) as Hfresh.
    { intros Hin. apply (Hn n Hin). left. }
    rewrite foldl_app. simpl in IH. destruct (IH Hnd) as (Hw & Hm & Hsize). clear IH.
    destruct (foldl (extract_step what get) (∅, stderr) d) as [m w]. simpl in *.
    rewrite omap_app, !length_app. unfold extract_step, extract_warning in *. simpl.
    assert (m !! n = None) as Hnone.
    { destruct (m !! n) as [v|] eqn:E; [|done]. exfalso.
      apply Hm in E as (cls & Hin & _). apply Hfresh.
      apply list_elem_of_fmap. by exists (n, cls). }
    destruct (get c) as [e|v] eqn:Hget; simpl.
    + split; [by rewrite Hw, <-app_assoc|]. split.
      * intros name v. rewrite Hm. split.
        -- intros (cls & Hin & ?). exists cls. split; [|done]. apply elem_of_app. by left.
        -- intros (cls & [Hin|[= -> ->]%list_elem_of_singleton]%elem_of_app & Hcls);
             [by exists cls|congruence].
      * lia.
    + split; [by rewrite Hw, app_nil_r|]. split.
      * intros name v'. destruct (decide (name = n)) as [->|Hne].
        -- rewrite lookup_insert_eq. split.
           ++ intros [= <-]. exists c. split; [|done]. apply elem_of_app. right. left.
           ++ intros (cls & [Hin|[= ->]%list_elem_of_singleton]%elem_of_app & Hcls).
              ** exfalso. apply Hfresh. apply list_elem_of_fmap. by exists (n, cls).
              ** congruence.
        -- rewrite lookup_insert_ne by done. rewrite Hm. split.
           ++ intros (cls & Hin & ?). exists cls. split; [|done].
              apply elem_of_app. by left.
           ++ intros (cls & [Hin|[= -> ->]%list_elem_of_singleton]%elem_of_app & Hcls);
                [by exists cls|done].
      * rewrite map_size_insert_None by done. lia.
Qed.

Lemma extract_schemas_unfold bo com bo4e_enum :
  extract_schemas bo com bo4e_enum
  = let r1 := foldl (extract_step "schema for BO " model_json_schema) (∅, [])
                (get_all_models bo) in
    let r2 := foldl (extract_step "schema for COM " model_json_schema) (∅, r1.2)
                (get_all_models com) in
    let r3 := foldl (extract_step "variants for enum " enum_values) (∅, r2.2)
                (get_all_enums bo4e_enum) in
    ({| categories := {[ "bo" := r1.1; "com" := r2.1 ]}; enums := Some r3.1 |}, r3.2).
Proof.
  unfold extract_schemas.
  destruct (foldl _ (∅, []) (get_all_models bo)) as [m1 w1]. simpl.
  destruct (foldl _ (∅, w1) (get_all_models com)) as [m2 w2]. simpl.
  by destruct (foldl _ (∅, w2) (get_all_enums bo4e_enum)) as [m3 w3].
Qed.

Lemma get_all_models_NoDup members : NoDup (get_all_models members).*1.
Proof. apply (filtered_members_spec is_bo4e_model members). Qed.

Lemma get_all_enums_NoDup members : NoDup (get_all_enums members).*1.
Proof. apply (filtered_members_spec is_bo4e_enum members). Qed.

Lemma extract_schemas_spec bo com bo4e_enum :
  let result := extract_schemas bo com bo4e_enum in
  (∀ name td,
     get_category result.1 "bo" !! name = Some td
     ↔ ∃ cls, (name, cls) ∈ get_all_models bo ∧ model_json_schema cls = inr td)
  ∧ (∀ name td,
       get_category result.1 "com" !! name = Some td
       ↔ ∃ cls, (name, cls) ∈ get_all_models com ∧ model_json_schema cls = inr td)
  ∧ (∀ name variants,
       get_enums result.1 !! name = Some variants
       ↔ ∃ cls, (name, cls) ∈ get_all_enums bo4e_enum ∧ enum_values cls = inr variants)
  ∧ result.2
    = omap (extract_warning "schema for BO " model_json_schema) (get_all_models bo)
      ++ omap (extract_warning "schema for COM " model_json_schema) (get_all_models com)
      ++ omap (extract_warning "variants for enum " enum_values) (get_all_enums bo4e_enum)
  ∧ (size (get_category result.1 "bo") + size (get_category result.1 "com")
     + size (get_enums result.1) + length result.2
     = length (get_all_models bo) + length (get_all_models com)
       + length (get_all_enums bo4e_enum))%nat.
Proof.
  intros result. subst result. rewrite extract_schemas_unfold. cbv zeta.
  pose proof (extract_loop_spec "schema for BO " model_json_schema (get_all_models bo) []
    (get_all_models_NoDup bo)) as (Hw1 & Hm1 & Hs1).
  cbv zeta in Hw1, Hm1, Hs1.
  destruct (foldl _ (∅, []) (get_all_models bo)) as [m1 w1]. simpl in *.
  pose proof (extract_loop_spec "schema for COM " model_json_schema (get_all_models com) w1
    (get_all_models_NoDup com)) as (Hw2 & Hm2 & Hs2).
  cbv zeta in Hw2, Hm2, Hs2.
  destruct (foldl _ (∅, w1) (get_all_models com)) as [m2 w2]. simpl in *.
  pose proof (extract_loop_spec "variants for enum " enum_values (get_all_enums bo4e_enum)
    w2 (get_all_enums_NoDup bo4e_enum)) as (Hw3 & Hm3 & Hs3).
  cbv zeta in Hw3, Hm3, Hs3.
  destruct (foldl _ (∅, w2) (get_all_enums bo4e_enum)) as [m3 w3]. simpl in *.
  assert (get_category
            {| categories := {[ "bo" := m1; "com" := m2 ]}; enums := Some m3 |} "bo" = m1)
    as -> by (unfold get_category; simpl; by rewrite lookup_insert_eq).
  assert (get_category
            {| categories := {[ "bo" := m1; "com" := m2 ]}; enums := Some m3 |} "com" = m2)
    as ->.
  { unfold get_category. simpl. rewrite lookup_insert_ne by done.
    by rewrite lookup_singleton_eq. }
  unfold get_enums. simpl. subst w3 w2 w1. simpl.
  split; [done|]. split; [done|]. split; [done|]. split; [by rewrite <-app_assoc|].
  rewrite !length_app. lia.
Qed.

(** X14. A class whose schema cannot be extracted does not stop the
    extraction: it is left out of the snapshot and one warning is printed for
    it, and the other classes are all extracted. The tables of the snapshot
    hold exactly the filtered classes and enums whose extraction succeeds,
    the error stream holds the warnings of the others, business objects
    first, then components, then enums, each in the order of the filtered
    dict; so extracted entries and warnings together are as many as the
    filtered classes. *)
Theorem extraction_skips_failures (bo com bo4e_enum : list (string * PyObject)) :
  let result := extract_schemas bo com bo4e_enum in
  (∀ name td,
     get_category result.1 "bo" !! name = Some td
     ↔ ∃ cls, (name, cls) ∈ get_all_models bo ∧ model_json_schema cls = inr td)
  ∧ (∀ name td,
       get_category result.1 "com" !! name = Some td
       ↔ ∃ cls, (name, cls) ∈ get_all_models com ∧ model_json_schema cls = inr td)
  ∧ (∀ name variants,
       get_enums result.1 !! name = Some variants
       ↔ ∃ cls, (name, cls) ∈ get_all_enums bo4e_enum ∧ enum_values cls = inr variants)
  ∧ result.2
    = omap (extract_warning "schema for BO " model_json_schema) (get_all_models bo)
      ++ omap (extract_warning "schema for COM " model_json_schema) (get_all_models com)
      ++ omap (extract_warning "variants for enum " enum_values) (get_all_enums bo4e_enum)
  ∧ (size (get_category result.1 "bo") + size (get_category result.1 "com")
     + size (get_enums result.1) + length result.2
     = length (get_all_models bo) + length (get_all_models com)
       + length (get_all_enums bo4e_enum))%nat.
Proof. apply extract_schemas_spec. Qed.

Lemma pair_keys_unique {V} (d : list (string * V)) name v v' :
  NoDup d.*1 → (name, v) ∈ d → (name, v') ∈ d → v = v'.
Proof.
  induction d as [|[k x] d IH]; intros Hnd H1 H2; [by apply elem_of_nil in H1|].
  rewrite fmap_cons in Hnd. apply NoDup_cons in Hnd as [Hk Hd].
  apply elem_of_cons in H1 as [E1|H1]; apply elem_of_cons in H2 as [E2|H2].
  - congruence.
  - exfalso. apply Hk. apply list_elem_of_fmap. exists (name, v').
    split; [|done]. simpl. congruence.
  - exfalso. apply Hk. apply list_elem_of_fmap. exists (name, v).
    split; [|done]. simpl. congruence.
  - by apply IH.
Qed.

(** X15. The extractor and the comparator together: a business object or a
    component whose schema extraction failed has a warning on the error
    stream of the extractor, and when the Rust snapshot has the type the
    comparison of the extracted snapshot with it reports the type as missing
    in Python, as an entire type. *)
Theorem failed_extraction_is_reported_missing (o : SetOrder)
    (bo com bo4e_enum : list (string * PyObject)) (rust : Snapshot)
    (name e : string) (cls : PyObject) :
  let result := extract_schemas bo com bo4e_enum in
  model_json_schema cls = inl e →
  ((name, cls) ∈ get_all_models bo → name ∈ dom (get_category rust "bo") →
     "Warning: Could not extract schema for BO " +:+ name +:+ ": " +:+ e ∈ result.2
     ∧ missing_in_python (compare o result.1 rust) !! type_key "bo" name
       = Some entire_type
     ∧ missing_in_rust (compare o result.1 rust) !! type_key "bo" name = None)
  ∧ ((name, cls) ∈ get_all_models com → name ∈ dom (get_category rust "com") →
     "Warning: Could not extract schema for COM " +:+ name +:+ ": " +:+ e ∈ result.2
     ∧ missing_in_python (compare o result.1 rust) !! type_key "com" name
       = Some entire_type
     ∧ missing_in_rust (compare o result.1 rust) !! type_key "com" name = None).
Proof.
  intros result Hfail.
  destruct (extract_schemas_spec bo com bo4e_enum) as (Hbo & Hcom & _ & Hw & _).
  fold result in Hbo, Hcom, Hw. split.
  - intros Hin [rs Hrs]%elem_of_dom.
    assert (get_category result.1 "bo" !! name = None) as Hnone.
    { destruct (get_category result.1 "bo" !! name) as [td|] eqn:E; [|done]. exfalso.
      apply Hbo in E as (cls' & Hin' & Hok).
      rewrite (pair_keys_unique _ _ _ _ (get_all_models_NoDup bo) Hin' Hin) in Hok.
      congruence. }
    split; [|split].
    + rewrite Hw. apply elem_of_app. left. apply list_elem_of_omap.
      exists (name, cls). split; [done|]. unfold extract_warning. simpl.
      by rewrite Hfail.
    + rewrite (proj2 (compare_lookup_type o result.1 rust "bo" name ltac:(set_solver))).
      by rewrite Hrs, Hnone.
    + rewrite (proj1 (compare_lookup_type o result.1 rust "bo" name ltac:(set_solver))).
      by rewrite Hnone.
  - intros Hin [rs Hrs]%elem_of_dom.
    assert (get_category result.1 "com" !! name = None) as Hnone.
    { destruct (get_category result.1 "com" !! name) as [td|] eqn:E; [|done]. exfalso.
      apply Hcom in E as (cls' & Hin' & Hok).
      rewrite (pair_keys_unique _ _ _ _ (get_all_models_NoDup com) Hin' Hin) in Hok.
      congruence. }
    split; [|split].
    + rewrite Hw. apply elem_of_app. right. apply elem_of_app. left.
      apply list_elem_of_omap.
      exists (name, cls). split; [done|]. unfold extract_warning. simpl.
      by rewrite Hfail.
    + rewrite (proj2 (compare_lookup_type o result.1 rust "com" name ltac:(set_solver))).
      by rewrite Hrs, Hnone.
    + rewrite (proj1 (compare_lookup_type o result.1 rust "com" name ltac:(set_solver))).
      by rewrite Hnone.
Qed.

Lemma failed_extraction_is_reported_missing_witness :
  missing_in_python
    (compare default_order (extract_schemas example_bo_members [] []).1 vertrag_rust)
    !! type_key "bo" "Vertrag"
  = Some entire_type.
Proof.
  apply (failed_extraction_is_reported_missing default_order example_bo_members [] []
           vertrag_rust "Vertrag" "unresolved forward reference" broken_class);
    [reflexivity|by_evaluation..].
Defined.
